(* ===== verification/_CoqProject ===== *)
-Q . S2P
Prelude.v
JsNum.v
Double.v
DoubleText.v
DoubleExact.v
DoubleValid.v
Dom.v
Account.v
AccountSpec.v
Refinement.v
View.v
App.v
Invariants.v
Liveness.v
Bounds.v
Console.v
Strict.v
Checker.v
Laws.v
Typed.v
DoubleApp.v
Poison.v
DoubleLive.v
