(* ===== verification/Prelude.v ===== *)
(** * A verification development for the useReducer bank account

    The program (src/src/App-ref.js) is one React component, [App].  It keeps
    an account [{balance, loan, isActive}] in a [useReducer] hook, driven by
    the reducer [bankReducer], and renders six buttons and four numeric
    inputs.  Each button's [onClick] reads an input through a ref, converts it
    with [Number], and dispatches an action object [{type, amount}]; each
    button's [disabled] attribute is a condition on the account.  The reducer
    is not pure: it writes to the console, and on a refused withdrawal it
    overwrites the withdraw input with [String(state.balance)]; on an action
    type it does not know it throws.

    ** Files, in dependency order

    - [Prelude] (this file): the outcome type and the state-and-exception
      monad [Eff] in which effectful code is written, with its laws up to
      pointwise equality; the tactics and the hint databases [bank] and [bank_rw] of
      the development; lemmas on booleans and integers shared by the components.
    - [JsNum]: the numbers of the program.  The class [JsNumber] is the
      interface the program uses: literals, [+], [-], [>=], [>], [===],
      [String] and [Number].  [read_numeral] reads a numeric string as
      [Number] does, [valid_float] is what a number input accepts.  The
      instance [znum] is the integer fragment of JavaScript numbers with
      [NaN]; its laws are the class [JsExact].
    - [Double]: the numbers the program really computes with, IEEE 754
      binary64, as a second instance of [JsNumber] built on the Standard
      Library's [SpecFloat], with [Number] rounding a numeral once and
      [String] printing the shortest digits that read back; the relation
      [agrees] between an integer of [znum] and a double, and the proof that
      the arithmetic and the comparisons preserve it on safe integers.
    - [DoubleText]: the same for [Number] and [String]: a numeral whose value
      is a safe integer reads as its double, and the double of a safe integer
      prints as the integer.
    - [DoubleExact]: the finite doubles, the decimal numeral that is
      exactly a given finite double ([magnitude_text]) and the proof that
      [Number] reads it without rounding; arithmetic that is exact on every
      finite double.
    - [DoubleValid]: rounding, addition, subtraction and [Number] yield
      doubles of the format (a canonical mantissa and exponent), from any
      operands and any text.
    - [Dom]: what the reducer and the handlers touch outside the account: the
      four input elements behind the refs [openInput], [depositInput],
      [withdrawInput], [loanInput] (App-ref.js 30-36) and the console.  A
      number input keeps a value assigned to it if it is a valid
      floating-point number and makes it the empty string if not
      ([sanitize]); an input of another type keeps the text ([kept]).
    - [Account]: [AccountState], [initialState] (22-26), action objects, and
      [bankReducer] (38-90) as a function into [Eff], branch by branch as the
      [switch] has them, with the functional behaviour of every branch.
    - [AccountSpec]: the transition function of the specification (spec.md
      section 4): typed actions, the uniform [isActive] guard, and outcome
      kinds.  It is modelled from the specification, not from code.
    - [Refinement]: where [bankReducer] implements the specification and
      where it does not.
    - [View]: the element tree [App] returns (93-223): buttons with their
      [disabled] conditions and [onClick] handlers, inputs with their
      attributes.
    - [App]: the running component as a transition system: a world (account,
      DOM store, crash flag), user events (a click on a button, an edit of an
      input; disabled controls ignore both, and an edit stores what an input
      of the rendered [type] keeps of the text), [bankDispatch], [step],
      [run], and reachability from [mount].  Its theorems hold for every number
      implementation: reachable worlds are safe, a click on an enabled button
      is a transition of the specification, and traces refine it.
    - [Invariants]: constraint validation of the number inputs ([satisfies]),
      the worlds reached by a user who types only values that satisfy it
      ([valid]), and the invariant [tidy] of those worlds.
    - [Liveness]: the sequence of events that closes any such world's
      account ([closing_events]) and the proof that it does.
    - [Bounds]: how fast the balance can grow, and for how many events it
      stays a safe integer.
    - [Console]: worlds up to their consoles ([≡]), with the [Proper]
      instances of the operations of [App], and the contents of the console
      of reachable worlds.
    - [Strict]: the component with a reducer that is called twice for each
      dispatch, as React calls it in Strict Mode.
    - [Checker]: boolean functions that decide [satisfies], [valid_from] and
      [tidy] on [znum], and their [Decision] instances.
    - [Laws]: the reducer on integers as a table on triples ([ztransition]),
      the round trips of deposits and loans, the buttons that disable
      themselves, and what the [disabled] conditions guarantee.
    - [Typed]: from the text typed into an input to the action dispatched.
    - [DoubleApp]: the component on doubles against the component on
      integers: the relation [agrees_world] and its preservation by the
      reducer, the dispatch, clicks, edits and runs.
    - [Poison]: accounts whose balance is [NaN], and why typing cannot
      produce one.
    - [DoubleLive]: the program on doubles in any state: which accounts can
      be closed.

    ** Numbers

    JavaScript numbers are IEEE doubles.  Definitions are written against the
    interface [JsNumber] and never look inside a number, so every theorem
    stated for an arbitrary instance holds of any implementation of the
    operations.  There are two instances.

    [znum] is integers of unbounded size plus [NaN]; its laws are the class
    [JsExact], and theorems that need arithmetic are stated for instances of
    that class.  [NaN] also stands for [undefined] where the program does
    arithmetic or comparison on a missing [amount], which JavaScript converts
    to [NaN].  Fractions and infinities are not in [znum]: [Number] of a
    numeral whose value is not an integer is [NaN] there.  Every value that
    satisfies the attributes of an input is an integer, so the hypothesis of
    valid events loses nothing by it.

    [double] is binary64 as [SpecFloat] defines it: literals are rounded to
    the nearest double, ties to even; [+] and [-] are IEEE addition and
    subtraction with signed zeros, infinities and NaN; the comparisons are
    the IEEE ones; [Number] reads a numeral with a fraction and an exponent
    and rounds once; [String] is Number::toString.  It is not an instance of
    [JsExact] ([Double.double_not_exact]).  The two instances are related by
    [Double.agrees]: an integer of magnitude at most
    [Number.MAX_SAFE_INTEGER] agrees with its double (and 0 also with -0),
    [NaN] with NaN.  [Double] and [DoubleText] prove that the eight
    operations preserve the relation as long as the integer results stay
    safe, from the definitions of [SpecFloat] alone; [Bounds] proves that
    with inputs that respect their attributes the first 180143985094 events
    keep every integer safe; and [DoubleApp] puts the two together: on such
    runs the program on doubles computes what the integer model computes.

    ** What the theorems show

    - [Account]: the reducer throws exactly on unknown action types
      ([bankReducer_throws]); it writes only to the console and the withdraw
      input ([bankReducer_frame]); how [isActive] can change; on integers,
      what loans preserve, that withdrawals do not overdraw, and that one
      loan excludes the next.
    - [Refinement]: where the specification's guard passes the reducer
      returns [apply state action] with the effects of the outcome kind
      ([reducer_implements_spec]); on inactive accounts the two differ
      ([inactive_deposit_diverges], [reducer_ignores_isActive]).
    - [App]: reachable worlds never crash and keep "inactive implies balance
      0 and loan 0" ([reachable_safe]); the difference with the specification
      is unreachable through the rendered buttons ([click_implements_spec],
      [run_refines_spec]).
    - [Invariants]: with inputs that satisfy their attributes, balance and
      loan are never negative and stay on their grids ([valid_tidy]); a
      refused withdrawal followed by a second click empties the account
      ([refused_withdrawal_retry]).
    - [Liveness]: the account can always be closed ([can_always_close]).
    - [Bounds]: the balance after [n] events is at most 50000 n
      ([valid_bounded]).
    - [Console]: the console of a reachable world holds the reducer's two
      messages only, and "account opened" whenever the account is open
      ([reachable_console]); the lines "account opened" count the openings
      ([console_counts_openings]).  The lemmas on worlds up to their
      consoles serve [Strict].
    - [Strict]: calling the reducer twice per dispatch changes the console
      and nothing else ([strict_mode_harmless]).
    - [Checker]: the boolean checks decide the propositions; they are used
      to check runs by evaluation.
    - [Laws]: on integers the reducer computes [ztransition]
      ([next_state_table]); a withdrawal undoes a deposit and a repayment a
      loan; the reducer can overdraw on a repayment where the pay button
      cannot ([pay_can_overdraw]); a second click on the open, pay or close
      button changes nothing ([click_twice]); a closed account reacts to
      its opening only ([closed_account_inert]); an enabled button is never
      a silent no-op ([enabled_button_acts]).
    - [Typed]: whatever is typed into the input of an enabled button is
      dispatched by a click on it, with no regard to [min], [max] and
      [step] ([typed_amount_dispatched]); a withdrawal typed within the
      attributes and clicked at once is never refused
      ([fresh_withdrawal_accepted]).
    - [DoubleApp]: the run on doubles agrees with the run on integers for
      valid runs within the event budget ([double_run_exact]); so does the
      reducer alone on safe operands ([double_reducer_exact]); the account on
      doubles can always be closed ([double_can_always_close]).  Two runs
      are evaluated as examples of what happens outside these hypotheses:
      past the safe range a deposit is absorbed by rounding, and amounts
      with a fraction leave a residue that keeps the account open.
    - [Poison]: an account with a NaN balance can never be closed
      ([nan_balance_stuck]); because the inputs are number inputs, what is
      typed never reads as NaN itself ([typed_amounts_are_numbers]).  An
      evaluated run shows a NaN balance reached through typed digits that
      read as infinity.
    - [DoubleLive]: without any hypothesis on how the state came about, an
      open account on doubles can be closed exactly when its balance and
      its loan are finite ([closable_iff_finite]): a finite account is
      closed by [exact_closing], whose amounts are typed as exact decimals
      ([finite_account_closes]), and an account that holds an infinity or
      NaN keeps one ([nonfinite_account_stuck]).  The finite case asks for
      doubles of the format; every world the program reaches holds such
      doubles ([reachable_well_formed]), so for reachable worlds the
      criterion is finiteness alone ([reachable_closable_iff_finite]).

    ** Fuel and bounds

    The reducer, the handlers and the step function are total and
    structurally recursive at most over the element tree and the list of
    events.  The closing sequence has [deposits_needed b l] deposits, the
    least number of deposits of 5000 that cover the loan, and at most 15
    events in all.  The budget of events within which doubles are exact,
    [Bounds.safe_events], is [MAX_SAFE_INTEGER / 50000]: each event adds at
    most the largest amount an input admits, 50000, to the balance.

    Printing a double uses fuel in three places.  The search for the least
    number of digits ([Double.shortest]) tries 17 lengths: 17 significant
    digits tell any two doubles apart, so the search ends before the fuel
    does.  The count of decimal digits ([Double.digits10]) and of leading
    zeros ([Double.leading10]) have fuel 400: a double has at most 309
    digits before the point and at most 323 zeros after it.  For the doubles
    of safe integers [DoubleText.print_finite_int] proves that the fuel
    suffices: the search ends within 16 digits.  The closing sequence of
    [DoubleLive] does not print: it types the exact decimal of the balance,
    which has up to 767 digits and is never computed in a proof.

    ** Not modelled

    React itself (scheduling of renders, batching), layout and styles.  A
    dispatch is modelled as one atomic application of the reducer to the
    current account, or as two in [Strict]; an error thrown by the reducer
    stops the component for good.  Of the browser, the spin buttons of a
    number input and the filtering of keys are not modelled: an edit sets
    the value to a string, of which the input keeps what is a valid
    floating-point number.  That test is the syntactic one of the HTML
    standard; an engine that also drops numerals whose value is out of the
    range of doubles keeps fewer texts, and infinite amounts cannot be typed
    there.  Of JavaScript numbers, white space outside ASCII
    is not recognised by [Number], and numerals of more than 20 significant
    digits, whose rounding ECMAScript leaves to the implementation, are
    rounded exactly. *)

From stdpp Require Export base decidable option list relations strings numbers.
From Stdlib Require Export ZArith Lia Bool.

(** ** Outcomes: a value, or a thrown exception *)

Inductive outcome (E A : Type) : Type :=
| Ok (a : A)
| Throw (e : E).

Arguments Ok {E A} a.
Arguments Throw {E A} e.

Definition is_ok {E A} (o : outcome E A) : bool :=
  match o with Ok _ => true | Throw _ => false end.

Definition outcome_value {E A} (o : outcome E A) : option A :=
  match o with Ok a => Some a | Throw _ => None end.

(** ** The effect monad: a store threaded through, and exceptions

    A computation takes the store and returns its outcome with the store it
    leaves.  Writes made before a [throw] stay in the store, as side effects
    made before a JavaScript exception stay. *)

Definition Eff (S E A : Type) : Type := S → outcome E A * S.

Definition eff_ret {S E A} (a : A) : Eff S E A := λ s, (Ok a, s).

Definition eff_bind {S E A B} (f : A → Eff S E B) (m : Eff S E A) : Eff S E B :=
  λ s, match m s with
       | (Ok a, s') => f a s'
       | (Throw e, s') => (Throw e, s')
       end.

Definition throw {S E A} (e : E) : Eff S E A := λ s, (Throw e, s).
Definition get {S E} : Eff S E S := λ s, (Ok s, s).
Definition modify {S E} (f : S → S) : Eff S E unit := λ s, (Ok tt, f s).

#[export] Instance Eff_ret {S E} : MRet (Eff S E) := @eff_ret S E.
#[export] Instance Eff_bind {S E} : MBind (Eff S E) := @eff_bind S E.

(** Sequencing that discards a unit result, as [a; b] in the source. *)
Notation "m ;; k" := (mbind (λ _ : unit, k) m)
  (at level 100, k at level 200, right associativity) : stdpp_scope.

(** Computations are compared pointwise: two computations are equivalent when
    they agree on every store. *)
Definition eff_equiv {S E A} : relation (Eff S E A) := λ m1 m2, ∀ s, m1 s = m2 s.

#[export] Instance eff_equiv_equivalence {S E A} : Equivalence (@eff_equiv S E A).
Proof.
  split.
  - by intros m s.
  - by intros m1 m2 H s.
  - intros m1 m2 m3 H1 H2 s. by rewrite H1.
Qed.

#[export] Instance eff_bind_proper {S E A B} :
  Proper (pointwise_relation A eff_equiv ==> eff_equiv ==> eff_equiv)
         (@eff_bind S E A B).
Proof.
  intros f g Hfg m1 m2 Hm s. unfold eff_bind. rewrite Hm.
  destruct (m2 s) as [[a|e] s']; [apply Hfg | done].
Qed.

(** ** Tactics and hints of the development *)

Create HintDb bank discriminated.
Create Rewrite HintDb bank_rw.

(** [case_if]: case analysis on the condition of the first [if] of the goal,
    keeping the equation. *)
Ltac case_if :=
  match goal with
  | |- context [if ?b then _ else _] =>
      let E := fresh "Hif" in destruct b eqn:E
  end.

(** [eff_simpl]: unfold the monad's operations. *)
Ltac eff_simpl :=
  unfold mbind, mret, Eff_bind, Eff_ret, eff_bind, eff_ret, throw, get, modify in *.

(** ** Laws of the monad *)

Section EffLaws.
Context {S E : Type}.

Lemma eff_bind_ret_l {A B} (a : A) (f : A → Eff S E B) :
  eff_equiv (mret a ≫= f) (f a).
Proof. by intros s. Qed.

Lemma eff_bind_ret_r {A} (m : Eff S E A) :
  eff_equiv (m ≫= mret) m.
Proof. intros s. eff_simpl. by destruct (m s) as [[a|e] s']. Qed.

Lemma eff_bind_assoc {A B C} (m : Eff S E A) (f : A → Eff S E B) (g : B → Eff S E C) :
  eff_equiv ((m ≫= f) ≫= g) (m ≫= λ a, f a ≫= g).
Proof. intros s. eff_simpl. by destruct (m s) as [[a|e] s']. Qed.

Lemma eff_bind_throw {A B} (e : E) (f : A → Eff S E B) :
  eff_equiv (throw e ≫= f) (throw e).
Proof. by intros s. Qed.

(** A computation built from [mret] after store updates never throws. *)
Lemma eff_modify_run {A} (f : S → S) (k : Eff S E A) (s : S) :
  (modify f ;; k) s = k (f s).
Proof. done. Qed.
End EffLaws.

(** ** Booleans and integers *)

Lemma negb_true_eq (b : bool) : negb b = true ↔ b = false.
Proof. by destruct b. Qed.

Lemma andb_true_split (a b : bool) : a && b = true ↔ a = true ∧ b = true.
Proof. destruct a, b; intuition congruence. Qed.

#[export] Hint Rewrite negb_true_eq andb_true_split : bank_rw.
#[export] Hint Rewrite Z.geb_le Z.gtb_lt Z.eqb_eq Z.leb_le Z.ltb_lt : bank_rw.

(** Multiples of a step, as the step attribute of a number input has them. *)
Lemma Zmod_add_multiple (a b m : Z) :
  (0 < m)%Z → (a mod m = 0)%Z → (b mod m = 0)%Z → ((a + b) mod m = 0)%Z.
Proof.
  intros Hm Ha Hb. rewrite Z.add_mod by lia. rewrite Ha, Hb. by rewrite Z.mod_0_l by lia.
Qed.

Lemma Zmod_sub_multiple (a b m : Z) :
  (0 < m)%Z → (a mod m = 0)%Z → (b mod m = 0)%Z → ((a - b) mod m = 0)%Z.
Proof.
  intros Hm Ha Hb. rewrite Zminus_mod. rewrite Ha, Hb. by rewrite Z.mod_0_l by lia.
Qed.

#[export] Hint Resolve Zmod_add_multiple Zmod_sub_multiple : bank.
