(* ===== verification/JsNum.v ===== *)
(** * JsNum: the numbers of the program

    The program computes with JavaScript numbers through eight operations:
    numeric literals, [+], [-], [>=], [>], [===] (and its negation [!==]),
    and the conversions [String(x)] and [Number(s)].  [JsNumber] is that
    interface; the other files are written against it.  Its ninth member,
    [num_nan], is what a missing [amount] reads as where a number is wanted.

    [JsExact] states what exact integer arithmetic gives: on literals the
    operations are those of [Z], a successful comparison with a literal means
    the other side is a literal too, [Number] undoes [String], and a printed
    integer is text that a number input keeps.

    [Number] reads a string by the grammar of numeric strings
    (StringNumericLiteral of ECMAScript): white space around nothing, which
    denotes 0, or around a numeral, which is [Infinity] with an optional
    sign, digits with an optional sign, fraction and exponent, or digits in
    radix 16, 8 or 2 after [0x], [0o] or [0b].  [read_numeral] is that
    reader; it returns the numeral as a mantissa and a decimal exponent, and
    each instance gives the numeral its value.  [valid_float] is the
    narrower grammar of HTML's valid floating-point numbers, the text a
    number input keeps; what passes it is a decimal numeral
    ([valid_float_numeral]).

    [znum] implements both classes: unbounded integers plus [NaN].  Its
    [String] prints decimal (JavaScript does below 10^21) and its [Number]
    gives a numeral whose value is an integer that integer; a numeral with a
    fractional value, and an infinity, is [NaN] in [znum]. *)

From S2P Require Import Prelude.
From Stdlib Require Import Ascii Decimal DecimalString DecimalZ DecimalPos DecimalN.

(** ** The interface *)

Class JsNumber (num : Type) : Type := {
  num_lit : Z → num;
  num_nan : num;
  num_add : num → num → num;
  num_sub : num → num → num;
  num_ge : num → num → bool;
  num_gt : num → num → bool;
  num_seq : num → num → bool;
  js_String : num → string;
  js_Number : string → num;
}.

Declare Scope js_scope.
Delimit Scope js_scope with js.
Infix "+" := num_add : js_scope.
Infix "-" := num_sub : js_scope.
Infix ">=" := num_ge : js_scope.
Infix ">" := num_gt : js_scope.
Notation "a === b" := (num_seq a b) (at level 70, no associativity) : js_scope.
Notation "a !== b" := (negb (num_seq a b)) (at level 70, no associativity) : js_scope.

(** A number that is an integer literal. *)
Definition is_int `{JsNumber num} (a : num) : Prop := ∃ z, a = num_lit z.

(** ** Numeric strings *)

(** What a numeric string denotes: a decimal numeral with the value
    [(-1)^neg * m * 10^e], or an infinity. *)
Inductive Numeral : Type :=
| Dec (neg : bool) (m : N) (e : Z)
| Inf (neg : bool).

#[export] Instance Numeral_eq_dec : EqDecision Numeral.
Proof. solve_decision. Defined.

(** StrWhiteSpaceChar, as far as a byte holds it: space, tab, line feed,
    vertical tab, form feed, carriage return. *)
Definition is_space (c : ascii) : bool :=
  match c with
  | " " | "009" | "010" | "011" | "012" | "013" => true
  | _ => false
  end%char.

Definition is_digit (c : ascii) : bool :=
  match uint_of_char c (Some Nil) with Some _ => true | None => false end.

Fixpoint trim_start (s : string) : string :=
  match s with
  | String c s' => if is_space c then trim_start s' else s
  | EmptyString => EmptyString
  end.

Fixpoint trim_end (s : string) : string :=
  match s with
  | String c s' =>
      match trim_end s' with
      | EmptyString => if is_space c then EmptyString else String c EmptyString
      | t => String c t
      end
  | EmptyString => EmptyString
  end.

Definition trim (s : string) : string := trim_end (trim_start s).

(** The longest run of digits at the head of a string, and the rest. *)
Fixpoint span_digits (s : string) : string * string :=
  match s with
  | String c s' =>
      if is_digit c then let r := span_digits s' in (String c r.1, r.2)
      else (EmptyString, s)
  | EmptyString => (EmptyString, EmptyString)
  end.

(** DecimalDigits: the number a run of digits denotes. *)
Definition digits_value (ds : string) : N :=
  default 0%N (N.of_uint <$> NilEmpty.uint_of_string ds).

(** A sign, if there is one, and the rest. *)
Definition read_sign (s : string) : bool * string :=
  match s with
  | String "-"%char s' => (true, s')
  | String "+"%char s' => (false, s')
  | _ => (false, s)
  end.

(** ExponentPart, if there is one, up to the end of the string. *)
Definition read_exponent (s : string) : option Z :=
  match s with
  | EmptyString => Some 0%Z
  | String c s' =>
      if bool_decide (c ∈ ["e"; "E"]%char) then
        let '(neg, s'') := read_sign s' in
        let '(ds, r) := span_digits s'' in
        if bool_decide (ds ≠ EmptyString ∧ r = EmptyString)
        then Some (if neg then - Z.of_N (digits_value ds) else Z.of_N (digits_value ds))%Z
        else None
      else None
  end.

(** StrUnsignedDecimalLiteral other than Infinity: digits with an optional
    fraction and an optional exponent, as a mantissa and a decimal exponent. *)
Definition read_unsigned (s : string) : option (N * Z) :=
  let '(ip, r) := span_digits s in
  let '(fp, r') := match r with
                   | String "."%char r1 => span_digits r1
                   | _ => (EmptyString, r)
                   end in
  if bool_decide (ip = EmptyString ∧ fp = EmptyString) then None
  else e ← read_exponent r';
       Some (digits_value (ip +:+ fp), e - Z.of_nat (String.length fp))%Z.

(** StrDecimalLiteral *)
Definition read_decimal (s : string) : option Numeral :=
  let '(neg, s') := read_sign s in
  if bool_decide (s' = "Infinity") then Some (Inf neg)
  else '(m, e) ← read_unsigned s'; Some (Dec neg m e).

(** The value of a digit in a radix of at most 16. *)
Definition digit_in (radix : N) (c : ascii) : option N :=
  let n := N_of_ascii c in
  let v := (if (48 <=? n) && (n <=? 57) then n - 48
            else if (97 <=? n) && (n <=? 102) then n - 87
            else if (65 <=? n) && (n <=? 70) then n - 55
            else radix)%N in
  if (v <? radix)%N then Some v else None.

Fixpoint read_radix (radix acc : N) (s : string) : option N :=
  match s with
  | String c s' => v ← digit_in radix c; read_radix radix (radix * acc + v)%N s'
  | EmptyString => Some acc
  end.

(** NonDecimalIntegerLiteral: [0x], [0o] or [0b] and digits of that radix. *)
Definition read_prefixed (s : string) : option N :=
  match s with
  | String "0"%char (String c (String d s')) =>
      if bool_decide (c ∈ ["x"; "X"]%char) then read_radix 16 0 (String d s')
      else if bool_decide (c ∈ ["o"; "O"]%char) then read_radix 8 0 (String d s')
      else if bool_decide (c ∈ ["b"; "B"]%char) then read_radix 2 0 (String d s')
      else None
  | _ => None
  end.

(** StringNumericLiteral: white space around nothing, which denotes 0, or
    around a numeral. *)
Definition read_numeral (s : string) : option Numeral :=
  let t := trim s in
  if bool_decide (t = EmptyString) then Some (Dec false 0 0)
  else match read_prefixed t with
       | Some m => Some (Dec false m 0)
       | None => read_decimal t
       end.

(** A valid floating-point number of HTML, the only text a number input
    keeps: an optional minus sign, then digits or a fraction or both, and an
    optional exponent. *)
Definition valid_unsigned (s : string) : bool :=
  let '(ip, r) := span_digits s in
  match r with
  | String "."%char r1 =>
      let '(fp, r') := span_digits r1 in
      bool_decide (fp ≠ EmptyString) && bool_decide (is_Some (read_exponent r'))
  | _ => bool_decide (ip ≠ EmptyString) && bool_decide (is_Some (read_exponent r))
  end.

Definition valid_float (s : string) : bool :=
  match s with
  | String "-"%char s' => valid_unsigned s'
  | _ => valid_unsigned s
  end.

(** ** Exact integer arithmetic *)

Class JsExact (num : Type) `{JsNumber num} : Prop := {
  lit_inj : Inj (=) (=) num_lit;
  add_lit x y : (num_lit x + num_lit y)%js = num_lit (x + y);
  sub_lit x y : (num_lit x - num_lit y)%js = num_lit (x - y);
  ge_lit x y : (num_lit x >= num_lit y)%js = (x >=? y)%Z;
  gt_lit x y : (num_lit x > num_lit y)%js = (x >? y)%Z;
  seq_lit x y : (num_lit x === num_lit y)%js = (x =? y)%Z;
  ge_is_int a y : (a >= num_lit y)%js = true → is_int a;
  gt_is_int a y : (a > num_lit y)%js = true → is_int a;
  seq_is_int a y : (a === num_lit y)%js = true → is_int a;
  nan_not_int : ¬ is_int num_nan;
  Number_String z : js_Number (js_String (num_lit z)) = num_lit z;
  String_valid z : valid_float (js_String (num_lit z)) = true;
}.

#[export] Hint Rewrite @add_lit @sub_lit @ge_lit @gt_lit @seq_lit @Number_String
  using typeclasses eauto : bank_rw.

(** [Number.MAX_SAFE_INTEGER]: up to it every integer is a number of its own. *)
Definition MAX_SAFE_INTEGER : Z := 2 ^ 53 - 1.

(** ** The integer fragment with NaN *)

Inductive znum : Type :=
| Int (z : Z)
| NaN.

#[export] Instance znum_eq_dec : EqDecision znum.
Proof. solve_decision. Defined.

Definition znum_add (a b : znum) : znum :=
  match a, b with Int x, Int y => Int (x + y) | _, _ => NaN end.

Definition znum_sub (a b : znum) : znum :=
  match a, b with Int x, Int y => Int (x - y) | _, _ => NaN end.

Definition znum_ge (a b : znum) : bool :=
  match a, b with Int x, Int y => (x >=? y)%Z | _, _ => false end.

Definition znum_gt (a b : znum) : bool :=
  match a, b with Int x, Int y => (x >? y)%Z | _, _ => false end.

Definition znum_seq (a b : znum) : bool :=
  match a, b with Int x, Int y => (x =? y)%Z | _, _ => false end.

(** [String(x)]: decimal digits with a leading minus sign. *)
Definition znum_String (a : znum) : string :=
  match a with
  | Int z => NilZero.string_of_int (Z.to_int z)
  | NaN => "NaN"
  end.

(** The value of a numeral where it is an integer. *)
Definition znum_of_numeral (n : Numeral) : znum :=
  match n with
  | Dec neg m e =>
      let sign z := if neg then (- z)%Z else z in
      if (0 <=? e)%Z then Int (sign (Z.of_N m * 10 ^ e)%Z)
      else if (Z.of_N m mod 10 ^ (- e) =? 0)%Z then Int (sign (Z.of_N m / 10 ^ (- e))%Z)
      else NaN
  | Inf _ => NaN
  end.

(** [Number(s)] *)
Definition znum_Number (s : string) : znum :=
  match read_numeral s with
  | Some n => znum_of_numeral n
  | None => NaN
  end.

#[export] Instance znum_JsNumber : JsNumber znum := {|
  num_lit := Int;
  num_nan := NaN;
  num_add := znum_add;
  num_sub := znum_sub;
  num_ge := znum_ge;
  num_gt := znum_gt;
  num_seq := znum_seq;
  js_String := znum_String;
  js_Number := znum_Number;
|}.

(** ** Lemmas *)

Lemma is_int_lit `{JsNumber num} (z : Z) : is_int (num_lit z).
Proof. by exists z. Qed.

#[export] Hint Resolve is_int_lit : bank.

(** *** Reading a printed integer *)

#[local] Abbreviation digits_of := NilEmpty.string_of_uint.

Lemma append_empty_r (s : string) : s +:+ "" = s.
Proof.
  induction s as [|c s IH]; [done|]. change (String c (s +:+ "") = String c s).
  by rewrite IH.
Qed.

Lemma span_digits_digits (u : uint) : span_digits (digits_of u) = (digits_of u, "").
Proof.
  induction u as [|u IH|u IH|u IH|u IH|u IH|u IH|u IH|u IH|u IH|u IH]; cbn;
    [done | by rewrite IH..].
Qed.

Lemma trim_end_digits (u : uint) : trim_end (digits_of u) = digits_of u.
Proof.
  induction u as [|u IH|u IH|u IH|u IH|u IH|u IH|u IH|u IH|u IH|u IH]; cbn; [done|..];
    rewrite IH; by destruct u.
Qed.

(** Digits after a minus sign, or digits alone. *)
#[local] Abbreviation signed neg u :=
  (if neg then String "-"%char (digits_of u) else digits_of u).

Lemma trim_digits (neg : bool) (u : uint) : u ≠ Nil → trim (signed neg u) = signed neg u.
Proof.
  intros Hu. unfold trim.
  assert (trim_start (digits_of u) = digits_of u) as Hs by by destruct u.
  destruct neg; cbn; rewrite ?Hs, trim_end_digits; [|done]. by destruct u.
Qed.

(** A digit is none of the letters of a list. *)
Lemma digit_not_in (c : ascii) (l : list ascii) :
  Forall (λ x, is_digit x = false) l → is_digit c = true → bool_decide (c ∈ l) = false.
Proof.
  intros Hl Hc. apply bool_decide_eq_false. intros Hin.
  by rewrite (proj1 (list.Forall_forall _ _) Hl c Hin) in Hc.
Qed.

(** A string whose second character is a digit has no radix prefix. *)
Lemma read_prefixed_digit (a c : ascii) (s : string) :
  is_digit c = true → read_prefixed (String a (String c s)) = None.
Proof.
  intros Hc. unfold read_prefixed.
  destruct a as [[] [] [] [] [] [] [] []]; try done.
  destruct s; [done|]. by rewrite !digit_not_in by (done || by repeat constructor).
Qed.

Lemma read_prefixed_digits (u : uint) : read_prefixed (digits_of u) = None.
Proof.
  destruct u as [|u|u|u|u|u|u|u|u|u|u]; try done; destruct u; try done;
    by apply read_prefixed_digit.
Qed.

Lemma read_unsigned_digits (u : uint) :
  u ≠ Nil → read_unsigned (digits_of u) = Some (N.of_uint u, 0%Z).
Proof.
  intros Hu. unfold read_unsigned. rewrite span_digits_digits.
  rewrite bool_decide_eq_false_2 by (intros [? _]; by destruct u).
  cbn. unfold digits_value. by rewrite append_empty_r, NilEmpty.usu.
Qed.

(** Digits after an optional minus sign read as that numeral. *)
Lemma read_numeral_digits (neg : bool) (u : uint) :
  u ≠ Nil → read_numeral (signed neg u) = Some (Dec neg (N.of_uint u) 0).
Proof.
  intros Hu. unfold read_numeral. rewrite trim_digits by done.
  assert (read_decimal (signed neg u) = Some (Dec neg (N.of_uint u) 0)) as ->.
  { unfold read_decimal.
    assert (read_sign (signed neg u) = (neg, digits_of u))
      as -> by (destruct neg; [done | by destruct u]).
    rewrite bool_decide_eq_false_2 by by destruct u.
    by rewrite read_unsigned_digits. }
  destruct neg; cbn -[read_prefixed].
  - rewrite bool_decide_eq_false_2; [done | by destruct u].
  - rewrite read_prefixed_digits, bool_decide_eq_false_2; [done | by destruct u].
Qed.

Lemma read_numeral_String (z : Z) :
  read_numeral (znum_String (Int z)) = Some (Dec (bool_decide (z < 0)%Z) (Z.abs_N z) 0).
Proof.
  destruct z as [|p|p]; [done|..]; cbn [znum_String Z.to_int NilZero.string_of_int].
  - unfold NilZero.string_of_uint.
    pose proof (DecimalPos.Unsigned.to_uint_nonnil p) as Hp.
    destruct (Pos.to_uint p) eqn:E; try done;
      rewrite <- E in *; rewrite (read_numeral_digits false) by done;
      unfold N.of_uint; by rewrite DecimalPos.Unsigned.of_to.
  - unfold NilZero.string_of_uint.
    pose proof (DecimalPos.Unsigned.to_uint_nonnil p) as Hp.
    destruct (Pos.to_uint p) eqn:E; try done;
      rewrite <- E in *; rewrite (read_numeral_digits true) by done;
      unfold N.of_uint; by rewrite DecimalPos.Unsigned.of_to.
Qed.

(** A printed integer is a valid floating-point number. *)
Lemma valid_float_digits (neg : bool) (u : uint) :
  u ≠ Nil → valid_float (signed neg u) = true.
Proof.
  intros Hu.
  assert (valid_unsigned (digits_of u) = true) as Hv.
  { unfold valid_unsigned. rewrite span_digits_digits. cbn.
    rewrite bool_decide_eq_true_2; [done | by destruct u]. }
  destruct neg; [done|]. by destruct u.
Qed.

Lemma valid_float_String (z : Z) : valid_float (znum_String (Int z)) = true.
Proof.
  destruct z as [|p|p]; [done|..]; cbn [znum_String Z.to_int NilZero.string_of_int];
    unfold NilZero.string_of_uint;
    pose proof (DecimalPos.Unsigned.to_uint_nonnil p) as Hp;
    destruct (Pos.to_uint p) eqn:E; try done; rewrite <- E in *;
    first [by apply (valid_float_digits false) | by apply (valid_float_digits true)].
Qed.

Lemma znum_Number_String (z : Z) : znum_Number (znum_String (Int z)) = Int z.
Proof.
  unfold znum_Number. rewrite read_numeral_String. cbn.
  rewrite Z.mul_1_r, N2Z.inj_abs_N. f_equal. case_bool_decide; lia.
Qed.

(** ** Lemmas: a valid floating-point number is a numeric string *)

(** The end of a string that was trimmed stays when characters are put
    before it. *)
Lemma trim_end_cons (c : ascii) (s : string) :
  s ≠ "" → trim_end s = s → trim_end (String c s) = String c s.
Proof. intros Hs Ht. cbn. rewrite Ht. by destruct s. Qed.

Lemma is_digit_not_space (c : ascii) : is_digit c = true → is_space c = false.
Proof. by destruct c as [[] [] [] [] [] [] [] []]. Qed.

Lemma trim_end_digit (c : ascii) (s : string) :
  is_digit c = true → trim_end s = s → trim_end (String c s) = String c s.
Proof.
  intros Hc Ht. destruct s as [|c' s]; [|by apply trim_end_cons].
  cbn. by rewrite is_digit_not_space.
Qed.

(** Digits before a trimmed end. *)
Lemma trim_end_span (s : string) :
  trim_end (span_digits s).2 = (span_digits s).2 → trim_end s = s.
Proof.
  induction s as [|c s IH]; [done|]. cbn [span_digits].
  destruct (is_digit c) eqn:Hc; [|done]. cbn [snd]. intros Hr.
  by apply trim_end_digit, IH.
Qed.

Lemma span_digits_nonempty (s : string) : (span_digits s).1 ≠ "" → s ≠ "".
Proof. by destruct s. Qed.

(** An exponent part ends in a digit. *)
Lemma trim_end_exponent (s : string) : is_Some (read_exponent s) → trim_end s = s.
Proof.
  destruct s as [|c s]; [done|]. unfold read_exponent. case_bool_decide as Hc; [|by intros [? [=]]].
  destruct (read_sign s) as [neg s'] eqn:Hs.
  destruct (span_digits s') as [ds r] eqn:Hd. case_bool_decide as Hr; [|by intros [? [=]]].
  intros _. destruct Hr as [Hds ->].
  assert (trim_end s' = s') as Hs' by (apply trim_end_span; by rewrite Hd).
  assert (s' ≠ "") as Hne by (apply span_digits_nonempty; by rewrite Hd).
  apply trim_end_cons.
  - destruct s; [|done]. by injection Hs as _ <-.
  - unfold read_sign in Hs. destruct s as [|a s]; [by simplify_eq|].
    destruct a as [[] [] [] [] [] [] [] []]; simplify_eq; try done; by apply trim_end_cons.
Qed.

(** What passes [valid_unsigned] starts with a digit or a point, ends
    trimmed, and is a decimal numeral without sign. *)
Lemma valid_unsigned_shape (s : string) :
  valid_unsigned s = true →
  ((∃ c s', s = String c s' ∧ (is_digit c = true ∨ c = "."%char)) ∧ trim_end s = s) ∧
  is_Some (read_unsigned s).
Proof.
  unfold valid_unsigned, read_unsigned. intros Hv.
  assert (trim_end (span_digits s).2 = (span_digits s).2 →
          (span_digits s).1 ≠ "" ∨ (∃ r, (span_digits s).2 = String "."%char r) →
          (∃ c s', s = String c s' ∧ (is_digit c = true ∨ c = "."%char)) ∧ trim_end s = s)
    as Hshape.
  { intros Ht Hc. split; [|by apply trim_end_span].
    destruct s as [|c s]; [by destruct Hc as [?|[? ?]]|]. exists c, s. split; [done|].
    cbn [span_digits] in Hc. destruct (is_digit c); [by left|].
    destruct Hc as [?|[r [= -> _]]]; [done | by right]. }
  destruct (span_digits s) as [ip r]. cbn [fst snd] in Hshape.
  assert (∀ r', is_Some (read_exponent r') → ∀ (m : N) (k : Z),
            is_Some (e ← read_exponent r'; Some (m, (e - k)%Z))) as Hex
    by (by intros r' [e ->] m k).
  destruct r as [|c r1].
  { apply andb_true_split in Hv as [Hip%bool_decide_eq_true _].
    split; [by apply Hshape; [|left]|]. rewrite bool_decide_eq_false_2 by tauto.
    by apply Hex. }
  destruct (decide (c = "."%char)) as [->|Hc].
  - destruct (span_digits r1) as [fp r'] eqn:Hfp.
    apply andb_true_split in Hv as [Hf%bool_decide_eq_true He%bool_decide_eq_true].
    split.
    + apply Hshape; [|right; by eexists]. apply trim_end_cons.
      * apply span_digits_nonempty. by rewrite Hfp.
      * apply trim_end_span. rewrite Hfp. by apply trim_end_exponent.
    + rewrite bool_decide_eq_false_2 by tauto. by apply Hex.
  - assert (bool_decide (ip ≠ "") && bool_decide (is_Some (read_exponent (String c r1)))
            = true) as Hv' by (by destruct c as [[] [] [] [] [] [] [] []]).
    apply andb_true_split in Hv' as [Hip%bool_decide_eq_true He%bool_decide_eq_true].
    split; [apply Hshape; [by apply trim_end_exponent | by left]|].
    assert (match String c r1 with
            | String "."%char r2 => span_digits r2
            | _ => (EmptyString, String c r1)
            end = (EmptyString, String c r1)) as ->
      by (by destruct c as [[] [] [] [] [] [] [] []]).
    rewrite bool_decide_eq_false_2 by tauto. by apply Hex.
Qed.

(** What passes [valid_unsigned] has no radix prefix. *)
Lemma valid_unsigned_prefixed (s : string) :
  valid_unsigned s = true → read_prefixed s = None.
Proof.
  intros Hv. destruct (read_prefixed s) as [n|] eqn:E; [exfalso|done].
  unfold read_prefixed in E. destruct s as [|a [|c [|d s]]]; try done;
    destruct a as [[] [] [] [] [] [] [] []]; try done.
  repeat case_bool_decide; try done;
    repeat match goal with
           | H : _ ∈ _ :: _ |- _ => apply elem_of_cons in H as [->|H]
           | H : _ ∈ [] |- _ => by apply elem_of_nil in H
           end; by vm_compute in Hv.
Qed.

(** A valid floating-point number is a decimal numeral: [Number] reads what
    a number input holds as a number. *)
Lemma valid_float_numeral (s : string) :
  valid_float s = true → ∃ (sg : bool) (m : N) (e : Z), read_numeral s = Some (Dec sg m e).
Proof.
  intros Hv.
  assert (∃ (neg : bool) s', valid_unsigned s' = true ∧
            s = (if neg then String "-"%char s' else s')) as (neg & s' & Hu & ->).
  { destruct s as [|c s]; [done|]. destruct (decide (c = "-"%char)) as [->|Hc].
    - by exists true, s.
    - exists false, (String c s). split; [|done].
      by destruct c as [[] [] [] [] [] [] [] []]. }
  destruct (valid_unsigned_shape s' Hu) as [[(c & s'' & -> & Hc) Ht] [[m e] Hr]].
  exists neg, m, e. unfold read_numeral, trim.
  assert (is_space c = false ∧ c ≠ "+"%char ∧ c ≠ "-"%char ∧ c ≠ "I"%char)
    as (Hsp & Hp & Hm & HI)
    by (destruct Hc as [Hc| ->]; [|done]; by destruct c as [[] [] [] [] [] [] [] []]).
  assert (trim_end (trim_start (if neg then String "-"%char (String c s'') else String c s''))
          = (if neg then String "-"%char (String c s'') else String c s'')) as ->.
  { destruct neg; cbn [trim_start is_space]; rewrite ?Hsp; [by apply trim_end_cons | done]. }
  rewrite bool_decide_eq_false_2 by by destruct neg.
  assert (read_prefixed (if neg then String "-"%char (String c s'') else String c s'') = None)
    as -> by (destruct neg; [done | by apply valid_unsigned_prefixed]).
  unfold read_decimal.
  assert (read_sign (if neg then String "-"%char (String c s'') else String c s'')
          = (neg, String c s'')) as ->.
  { destruct neg; [done|]. by destruct c as [[] [] [] [] [] [] [] []]. }
  rewrite bool_decide_eq_false_2 by (intros [= -> _]; done). by rewrite Hr.
Qed.

#[export] Instance znum_JsExact : JsExact znum.
Proof.
  split; try done.
  - by intros x y [=].
  - intros [x|] y; [intros _; by exists x | done].
  - intros [x|] y; [intros _; by exists x | done].
  - intros [x|] y; [intros _; by exists x | done].
  - by intros [z ?].
  - apply znum_Number_String.
  - apply valid_float_String.
Qed.

(** ** Consequences of exactness, for the clients *)

Section Exact.
Context `{JsExact num}.
Implicit Types (a b : num) (x y : Z).

Lemma ge_lit_true x y : (num_lit x >= num_lit y)%js = true ↔ (y ≤ x)%Z.
Proof. rewrite ge_lit. rewrite Z.geb_le. done. Qed.

Lemma gt_lit_true x y : (num_lit x > num_lit y)%js = true ↔ (y < x)%Z.
Proof. rewrite gt_lit. rewrite Z.gtb_lt. done. Qed.

Lemma seq_lit_true x y : (num_lit x === num_lit y)%js = true ↔ x = y.
Proof. rewrite seq_lit. apply Z.eqb_eq. Qed.

Lemma seq_lit_false x y : (num_lit x === num_lit y)%js = false ↔ x ≠ y.
Proof. rewrite seq_lit. apply Z.eqb_neq. Qed.

Lemma ge_lit_false x y : (num_lit x >= num_lit y)%js = false ↔ (x < y)%Z.
Proof. rewrite ge_lit. rewrite Z.geb_leb. apply Z.leb_gt. Qed.

(** Strict equality with a literal identifies the number. *)
Lemma seq_lit_eq a y : (a === num_lit y)%js = true → a = num_lit y.
Proof.
  intros Hs. destruct (seq_is_int _ _ Hs) as [x ->].
  by apply seq_lit_true in Hs as ->.
Qed.

(** A number at least a literal is an integer at least that literal. *)
Lemma ge_lit_inv a y : (a >= num_lit y)%js = true → ∃ x, a = num_lit x ∧ (y ≤ x)%Z.
Proof.
  intros Hg. destruct (ge_is_int _ _ Hg) as [x ->].
  exists x. split; [done|]. by apply ge_lit_true.
Qed.

Lemma gt_lit_inv a y : (a > num_lit y)%js = true → ∃ x, a = num_lit x ∧ (y < x)%Z.
Proof.
  intros Hg. destruct (gt_is_int _ _ Hg) as [x ->].
  exists x. split; [done|]. by apply gt_lit_true.
Qed.

Lemma is_int_add a b : is_int a → is_int b → is_int (a + b)%js.
Proof. intros [x ->] [y ->]. rewrite add_lit. apply is_int_lit. Qed.

Lemma is_int_sub a b : is_int a → is_int b → is_int (a - b)%js.
Proof. intros [x ->] [y ->]. rewrite sub_lit. apply is_int_lit. Qed.

End Exact.

#[export] Hint Resolve is_int_add is_int_sub : bank.
#[export] Hint Rewrite @ge_lit_true @gt_lit_true @seq_lit_true @seq_lit_false
  @ge_lit_false using typeclasses eauto : bank_rw.
