(* ===== verification/Double.v ===== *)
(** * Double: JavaScript numbers as IEEE 754 doubles

    A JavaScript number is a binary64 float.  This file implements the
    interface [JsNumber] with the Standard Library's specification of IEEE
    arithmetic ([SpecFloat], precision 53, maximal exponent 1024): [+] and [-]
    are [SFadd] and [SFsub] with rounding to nearest, ties to even; [>=], [>]
    and [===] are read off [SFcompare], so they are false on NaN and do not
    tell the two zeros apart; a literal is the integer rounded to a double.

    [Number] gives a numeral of [JsNum.read_numeral] the nearest double:
    an integer times a power of ten by [binary_normalize], a quotient by a
    power of ten by the division of [SFdiv], which is carried on the
    integers, so that the only rounding is the last one.  Numerals of more
    than 20 significant digits, where ECMAScript leaves the rounding to the
    implementation, are rounded like the others.

    [String] is Number::toString: it looks for the least number of digits
    [k] for which some numeral of [k] digits reads as the double, takes the
    nearest of them, and sets the digits out plainly or with an exponent.

    The theorems of this file say when the arithmetic of doubles is the
    arithmetic of integers.  An integer [z] with
    [Z.abs z <= MAX_SAFE_INTEGER] is a [safe_integer]; its double is
    [canon z], a 53-bit mantissa with its exponent, and on safe integers with
    a safe result addition, subtraction and comparison are exact.  [agrees]
    relates a [znum] to the doubles that stand for it.  Reading and printing
    are treated in [DoubleText]; [App] is compared under the two number types
    in [DoubleApp].  Beyond the safe range the examples show what the program
    computes instead: absorption and ties to even at 2^53, and overflow to
    infinity. *)

From S2P Require Import Prelude JsNum.
From Stdlib Require Import Ascii Decimal DecimalString SpecFloat.

#[local] Open Scope Z_scope.

(** ** Definitions *)

(** The binary64 format. *)
Definition prec : Z := 53.
Definition emax : Z := 1024.

Definition double : Type := spec_float.

(** The double nearest to an integer. *)
Definition of_Z (z : Z) : double := binary_normalize prec emax z 0 false.

Definition dadd (x y : double) : double := SFadd prec emax x y.
Definition dsub (x y : double) : double := SFsub prec emax x y.
Definition dge (x y : double) : bool := SFleb y x.
Definition dgt (x y : double) : bool := SFltb y x.
Definition dseq (x y : double) : bool := SFeqb x y.

(** The integer a double holds, when it holds one. *)
Definition to_Z (x : double) : option Z :=
  match x with
  | S754_zero _ => Some 0
  | S754_finite s m e =>
      if 0 <=? e then Some (cond_Zopp s (Zpos m * 2 ^ e))
      else if Zpos m mod 2 ^ (- e) =? 0
           then Some (cond_Zopp s (Zpos m / 2 ^ (- e)))
           else None
  | _ => None
  end.

(** The double nearest to [(-1)^neg * m * 10^e], ties to even.  With a
    negative exponent the value is the quotient of [m] by a power of ten: the
    division is carried as far as rounding needs, and the remainder tells on
    which side of the quotient the value lies. *)
Definition of_decimal (neg : bool) (m : N) (e : Z) : double :=
  if (m =? 0)%N then S754_zero neg
  else if 0 <=? e then of_Z (cond_Zopp neg (Z.of_N m * 10 ^ e))
  else let '(q, e2, loc) := SFdiv_core_binary prec emax (Z.of_N m) 0 (10 ^ (- e)) 0 in
       binary_round_aux prec emax neg q e2 loc.

Definition of_numeral (n : Numeral) : double :=
  match n with
  | Dec neg m e => of_decimal neg m e
  | Inf neg => S754_infinity neg
  end.

(** [Number(s)] *)
Definition dNumber (s : string) : double :=
  match read_numeral s with
  | Some n => of_numeral n
  | None => S754_nan
  end.

(** ** Printing *)

#[export] Instance spec_float_eq_dec : EqDecision spec_float.
Proof. solve_decision. Defined.

(** A run of [n] zeros. *)
Fixpoint zeros (n : nat) : string :=
  match n with O => EmptyString | S n' => String "0"%char (zeros n') end.

(** The decimal digits of a natural number. *)
Definition digits_string (s : Z) : string := NilZero.string_of_uint (N.to_uint (Z.to_N s)).

(** [x / 10^j] for a fraction [x = a / b]. *)
Definition scale10 (a b j : Z) : Z * Z :=
  if 0 <=? j then (a, b * 10 ^ j) else (a * 10 ^ (- j), b).

(** The number of decimal digits of a positive integer. *)
Fixpoint digits10 (fuel : nat) (z : Z) : Z :=
  match fuel with
  | O => 0
  | S f => if z <? 10 then 1 else 1 + digits10 f (z / 10)
  end.

(** The position of the first significant digit of a fraction below 1. *)
Fixpoint leading10 (fuel : nat) (a b : Z) : Z :=
  match fuel with
  | O => 0
  | S f => if b <=? 10 * a then 1 else 1 + leading10 f (10 * a) b
  end.

(** The [n] with [10^(n-1) <= a / b < 10^n]. *)
Definition magnitude10 (a b : Z) : Z :=
  if b <=? a then digits10 400 (a / b) else 1 - leading10 400 a b.

Definition rounds_to (x : double) (s e : Z) : bool :=
  bool_decide (of_decimal false (Z.to_N s) e = x).

(** The numeral of [k] digits that reads as [x], if there is one: of the two
    that enclose [x], the one that reads as [x], and if both do the nearer,
    or the even one if they are as near. *)
Definition pick (x : double) (a b n k : Z) : option Z :=
  let '(a', b') := scale10 a b (n - k) in
  let lo := a' / b' in
  let r := a' mod b' in
  match rounds_to x lo (n - k), rounds_to x (lo + 1) (n - k) with
  | true, true =>
      Some (if (b' <? 2 * r) || ((b' =? 2 * r) && Z.odd lo) then lo + 1 else lo)
  | true, false => Some lo
  | false, true => Some (lo + 1)
  | false, false => None
  end.

(** The least number of digits [k] with such a numeral, and the numeral. *)
Fixpoint shortest (fuel : nat) (x : double) (a b n k : Z) : Z * Z :=
  match fuel with
  | O => ((scale10 a b (n - k)).1 / (scale10 a b (n - k)).2, k)
  | S f =>
      match pick x a b n k with
      | Some s => (s, k)
      | None => shortest f x a b n (k + 1)
      end
  end.

(** The [k] digits [ds] of [s] set out for the value [s * 10^(n - k)]:
    plainly if [n] is between -5 and 21, with an exponent otherwise. *)
Definition format (ds : string) (k n : Z) : string :=
  if (-5 <=? n) && (n <=? 21) then
    if k <=? n then ds +:+ zeros (Z.to_nat (n - k))
    else if 0 <? n then
      String.substring 0 (Z.to_nat n) ds +:+ "." +:+
      String.substring (Z.to_nat n) (Z.to_nat (k - n)) ds
    else "0." +:+ zeros (Z.to_nat (- n)) +:+ ds
  else
    let es := (if n - 1 <? 0 then "-" else "+") +:+ digits_string (Z.abs (n - 1)) in
    match ds with
    | String c EmptyString => ds +:+ "e" +:+ es
    | String c rest => String c ("." +:+ rest) +:+ "e" +:+ es
    | EmptyString => EmptyString
    end.

(** Number::toString of a positive finite double [m * 2^e]. *)
Definition print_finite (m : positive) (e : Z) : string :=
  let '(a, b) := if 0 <=? e then (Zpos m * 2 ^ e, 1) else (Zpos m, 2 ^ (- e)) in
  let n := magnitude10 a b in
  let '(s, k) := shortest 17 (S754_finite false m e) a b n 1 in
  if s =? 10 ^ k then format "1" 1 (n + 1) else format (digits_string s) k n.

(** [String(x)] *)
Definition dString (x : double) : string :=
  match x with
  | S754_nan => "NaN"
  | S754_zero _ => "0"
  | S754_infinity false => "Infinity"
  | S754_infinity true => "-Infinity"
  | S754_finite false m e => print_finite m e
  | S754_finite true m e => String "-"%char (print_finite m e)
  end.

#[export] Instance double_JsNumber : JsNumber double := {|
  num_lit := of_Z;
  num_nan := S754_nan;
  num_add := dadd;
  num_sub := dsub;
  num_ge := dge;
  num_gt := dgt;
  num_seq := dseq;
  js_String := dString;
  js_Number := dNumber;
|}.

#[global] Arguments of_Z : simpl never.
#[global] Arguments dadd : simpl never.
#[global] Arguments dsub : simpl never.

(** ** Safe integers and their doubles *)

Definition safe_integer (z : Z) : Prop := Z.abs z ≤ MAX_SAFE_INTEGER.

#[export] Instance safe_integer_dec (z : Z) : Decision (safe_integer z).
Proof. unfold safe_integer. apply _. Defined.

(** The number of binary digits of a positive number. *)
Definition digits (p : positive) : Z := Zpos (digits2_pos p).

(** The 53-bit mantissa of a positive number of at most 53 digits. *)
Definition mantissa (p : positive) : positive :=
  Z.to_pos (Zpos p * 2 ^ (53 - digits p)).

(** The double of a safe integer, written out. *)
Definition canon (z : Z) : double :=
  match z with
  | 0 => S754_zero false
  | Zpos p => S754_finite false (mantissa p) (digits p - 53)
  | Zneg p => S754_finite true (mantissa p) (digits p - 53)
  end.

(** A [znum] that is NaN or a safe integer. *)
Definition in_range (a : znum) : Prop :=
  match a with Int z => safe_integer z | NaN => True end.

(** The doubles that stand for a [znum]: NaN for NaN, and for a safe
    integer its double, or negative zero for 0. *)
Definition agrees (a : znum) (d : double) : Prop :=
  match a with
  | Int z => safe_integer z ∧ (d = canon z ∨ z = 0 ∧ d = S754_zero true)
  | NaN => d = S754_nan
  end.

(** ** Lemmas: binary digits *)

Lemma pow2_pred (d : Z) : 0 < d → 2 ^ d = 2 * 2 ^ (d - 1).
Proof. intros Hd. rewrite <- Z.pow_succ_r by lia. f_equal. lia. Qed.

Lemma safe_integer_lt (z : Z) : safe_integer z ↔ Z.abs z < 2 ^ 53.
Proof. unfold safe_integer, MAX_SAFE_INTEGER. lia. Qed.

Lemma digits_bounds (p : positive) :
  2 ^ (digits p - 1) ≤ Zpos p < 2 ^ digits p.
Proof.
  unfold digits. induction p as [p IH|p IH|]; cbn [digits2_pos]; [| |done];
    rewrite Pos2Z.inj_succ, ?(Pos2Z.inj_xI p), ?(Pos2Z.inj_xO p), Z.pow_succ_r by lia;
    replace (Z.succ (Zpos (digits2_pos p)) - 1) with (Zpos (digits2_pos p)) by lia;
    rewrite (pow2_pred (Zpos (digits2_pos p))) in * by lia;
    revert IH; generalize (2 ^ (Zpos (digits2_pos p) - 1)); lia.
Qed.

Lemma digits_pos (p : positive) : 1 ≤ digits p.
Proof. unfold digits. lia. Qed.

(** Powers of two are monotone; the form the digit arguments use. *)
Lemma pow2_le (a b : Z) : 0 ≤ a ≤ b → 2 ^ a ≤ 2 ^ b.
Proof. intros. apply Z.pow_le_mono_r; lia. Qed.

Lemma pow2_pos (k : Z) : 0 ≤ k → 0 < 2 ^ k.
Proof. intros. apply Z.pow_pos_nonneg; lia. Qed.

Lemma digits_unique (p : positive) (d : Z) :
  0 < d → 2 ^ (d - 1) ≤ Zpos p < 2 ^ d → digits p = d.
Proof.
  intros Hd [Hl Hu]. pose proof (digits_bounds p) as [Hl' Hu'].
  pose proof (digits_pos p).
  destruct (Z.lt_trichotomy (digits p) d) as [Hlt|[->|Hgt]]; [|done|].
  - pose proof (pow2_le (digits p) (d - 1)). lia.
  - pose proof (pow2_le d (digits p - 1)). lia.
Qed.

Lemma digits_lt (p q : positive) : digits p < digits q → (p < q)%positive.
Proof.
  intros Hd. pose proof (digits_bounds p) as [_ Hp].
  pose proof (digits_bounds q) as [Hq _]. pose proof (digits_pos p).
  pose proof (pow2_le (digits p) (digits q - 1)). lia.
Qed.

Lemma digits_small (p : positive) : safe_integer (Zpos p) → digits p ≤ 53.
Proof.
  intros Hp%safe_integer_lt. pose proof (digits_bounds p) as [Hl _].
  destruct (decide (digits p ≤ 53)); [done|].
  pose proof (pow2_le 53 (digits p - 1)). lia.
Qed.

Lemma iter_xO (p d : positive) : Zpos (Pos.iter xO p d) = Zpos p * 2 ^ Zpos d.
Proof.
  induction d as [|d IH] using Pos.peano_ind; [cbn; lia|].
  rewrite Pos.iter_succ, Pos2Z.inj_xO, IH, Pos2Z.inj_succ, Z.pow_succ_r by lia. lia.
Qed.

Lemma Zpos_shift (p : positive) (k : Z) :
  0 ≤ k → Zpos (Z.to_pos (Zpos p * 2 ^ k)) = Zpos p * 2 ^ k.
Proof. intros Hk. pose proof (pow2_pos k Hk). rewrite Z2Pos.id; nia. Qed.

Lemma digits_shift (p : positive) (k : Z) :
  0 ≤ k → digits (Z.to_pos (Zpos p * 2 ^ k)) = digits p + k.
Proof.
  intros Hk. pose proof (digits_bounds p) as [Hl Hu]. pose proof (digits_pos p).
  pose proof (pow2_pos k Hk). apply digits_unique; [lia|].
  rewrite Zpos_shift by done.
  replace (digits p + k - 1) with (digits p - 1 + k) by lia.
  rewrite !Z.pow_add_r by lia. nia.
Qed.

Lemma Zpos_mantissa (p : positive) :
  digits p ≤ 53 → Zpos (mantissa p) = Zpos p * 2 ^ (53 - digits p).
Proof. intros Hd. unfold mantissa. apply Zpos_shift. lia. Qed.

Lemma digits_mantissa (p : positive) : digits p ≤ 53 → digits (mantissa p) = 53.
Proof. intros Hd. unfold mantissa. rewrite digits_shift by lia. lia. Qed.

(** A shifted mantissa is the mantissa, shifted. *)
Lemma iter_mantissa (p j : positive) (k : Z) :
  digits p ≤ 53 → 0 ≤ k → Zpos j = digits p + k - 53 →
  Z.to_pos (Zpos p * 2 ^ k) = Pos.iter xO (mantissa p) j.
Proof.
  intros Hd Hk Hj. apply Pos2Z.inj.
  rewrite iter_xO, Zpos_mantissa, Zpos_shift, <- Z.mul_assoc, <- Z.pow_add_r by lia.
  f_equal. f_equal. lia.
Qed.

Lemma mantissa_iter (p j : positive) (k : Z) :
  digits p ≤ 53 → 0 ≤ k → Zpos j = 53 - digits p - k →
  Pos.iter xO (Z.to_pos (Zpos p * 2 ^ k)) j = mantissa p.
Proof.
  intros Hd Hk Hj. apply Pos2Z.inj.
  rewrite iter_xO, Zpos_mantissa, Zpos_shift, <- Z.mul_assoc, <- Z.pow_add_r by lia.
  f_equal. f_equal. lia.
Qed.

(** ** Lemmas: rounding a number that needs no rounding *)

#[local] Abbreviation exact m := (Build_shr_record m false false).

Lemma iter_shr_1 (q n : positive) :
  iter_pos shr_1 n (exact (Zpos (Pos.iter xO q n))) = exact (Zpos q).
Proof.
  revert q. induction n as [n IH|n IH|]; intros q; cbn [iter_pos Pos.iter shr_1 orb];
    by rewrite ?IH.
Qed.

Lemma fexp_normal (e : Z) : -1021 ≤ e → fexp prec emax e = e - 53.
Proof. unfold fexp, SpecFloat.emin, prec, emax. lia. Qed.

Lemma shr_fexp_canonical (m : positive) (e : Z) :
  digits m = 53 → -1074 ≤ e →
  shr_fexp prec emax (Zpos m) e loc_Exact = (exact (Zpos m), e).
Proof.
  intros Hd He. unfold shr_fexp. cbn [Zdigits2 shr_record_of_loc].
  fold (digits m). rewrite Hd, fexp_normal by lia.
  by replace (53 + e - 53 - e) with 0 by lia.
Qed.

Lemma exponent_ok (e : Z) : e ≤ 971 → (e <=? emax - prec) = true.
Proof. intros. apply Z.leb_le. unfold emax, prec. lia. Qed.

(** A mantissa of 53 digits is kept. *)
Lemma binary_round_aux_canonical (sx : bool) (m : positive) (e : Z) :
  digits m = 53 → -1074 ≤ e ≤ 971 →
  binary_round_aux prec emax sx (Zpos m) e loc_Exact = S754_finite sx m e.
Proof.
  intros Hd He. unfold binary_round_aux.
  rewrite shr_fexp_canonical by lia. cbn [shr_m loc_of_shr_record round_nearest_even].
  rewrite shr_fexp_canonical by lia. cbn [shr_m]. by rewrite exponent_ok by lia.
Qed.

(** A mantissa of 53 digits followed by zeros loses the zeros. *)
Lemma binary_round_aux_shift (sx : bool) (q k : positive) (e : Z) :
  digits q = 53 → -1074 ≤ e + Zpos k ≤ 971 →
  binary_round_aux prec emax sx (Zpos (Pos.iter xO q k)) e loc_Exact =
    S754_finite sx q (e + Zpos k).
Proof.
  intros Hd He. unfold binary_round_aux at 1. unfold shr_fexp at 1.
  cbn [Zdigits2 shr_record_of_loc].
  assert (digits (Pos.iter xO q k) = 53 + Zpos k) as Hk.
  { rewrite <- Hd, <- (digits_shift q (Zpos k)) by lia. f_equal.
    by rewrite <- iter_xO, Pos2Z.id. }
  fold (digits (Pos.iter xO q k)). rewrite Hk, fexp_normal by lia.
  replace (53 + Zpos k + e - 53 - e) with (Zpos k) by lia.
  cbn [shr]. rewrite iter_shr_1. cbn [shr_m loc_of_shr_record round_nearest_even].
  rewrite shr_fexp_canonical by lia. cbn [shr_m]. by rewrite exponent_ok by lia.
Qed.

(** Rounding [p * 2^k] at exponent [-k] gives the double of [p], whatever
    [k] is: the three cases are a mantissa to shift left, one that fits, and
    one to shift right. *)
Lemma binary_round_int (sx : bool) (p : positive) (k : Z) :
  digits p ≤ 53 → 0 ≤ k →
  binary_round prec emax sx (Z.to_pos (Zpos p * 2 ^ k)) (- k) =
    S754_finite sx (mantissa p) (digits p - 53).
Proof.
  intros Hd Hk. pose proof (digits_pos p) as Hp.
  pose proof (digits_mantissa p Hd) as Hm.
  unfold binary_round. fold (digits (Z.to_pos (Zpos p * 2 ^ k))).
  rewrite digits_shift, fexp_normal by lia. unfold shl_align.
  destruct (digits p + k + - k - 53 - - k) as [|j|j] eqn:Hj.
  - assert (k = 53 - digits p) as -> by lia. fold (mantissa p).
    replace (- (53 - digits p)) with (digits p - 53) by lia.
    apply binary_round_aux_canonical; lia.
  - rewrite (iter_mantissa p j k), binary_round_aux_shift by lia. f_equal. lia.
  - rewrite (mantissa_iter p j k) by lia.
    replace (digits p + k + - k - 53) with (digits p - 53) by lia.
    apply binary_round_aux_canonical; lia.
Qed.

Lemma normalize_int (z k : Z) :
  safe_integer z → 0 ≤ k →
  binary_normalize prec emax (z * 2 ^ k) (- k) false = canon z.
Proof.
  intros Hz Hk. pose proof (pow2_pos k Hk).
  destruct z as [|p|p]; [done| |]; pose proof (digits_small p Hz) as Hd.
  - destruct (Zpos p * 2 ^ k) as [|q|q] eqn:E; [lia| |lia].
    cbn [binary_normalize canon]. rewrite <- (binary_round_int false p k Hd Hk).
    by rewrite E.
  - destruct (Zneg p * 2 ^ k) as [|q|q] eqn:E; [lia|lia|].
    cbn [binary_normalize canon]. rewrite <- (binary_round_int true p k Hd Hk).
    do 2 f_equal. lia.
Qed.

(** The double nearest to a safe integer is the integer. *)
Lemma of_Z_canon (z : Z) : safe_integer z → of_Z z = canon z.
Proof.
  intros Hz. unfold of_Z. rewrite <- (normalize_int z 0) by done.
  by rewrite Z.mul_1_r.
Qed.

(** ** Lemmas: the operations on doubles of safe integers *)

Lemma shl_align_value (m : positive) (e e' : Z) :
  e' ≤ e → Zpos (fst (shl_align m e e')) = Zpos m * 2 ^ (e - e').
Proof.
  intros He. unfold shl_align. destruct (e' - e) as [|d|d] eqn:E; cbn [fst]; [|lia|].
  - replace (e - e') with 0 by lia. lia.
  - rewrite iter_xO. do 2 f_equal. lia.
Qed.

(** The mantissa of an integer's double, aligned to a lower exponent, is the
    integer scaled. *)
Lemma canon_aligned (x : Z) (s : bool) (m : positive) (e ez : Z) :
  canon x = S754_finite s m e → safe_integer x → ez ≤ e →
  cond_Zopp s (Zpos (fst (shl_align m e ez))) = x * 2 ^ (- ez) ∧ e ≤ 0.
Proof.
  intros Hc Hx He. destruct x as [|p|p]; [done| |]; cbn in Hc; simplify_eq;
    pose proof (digits_small p Hx) as Hd; pose proof (digits_pos p);
    (split; [|lia]);
    rewrite shl_align_value, Zpos_mantissa, <- Z.mul_assoc, <- Z.pow_add_r by lia;
    replace (53 - digits p + (digits p - 53 - ez)) with (- ez) by lia; cbn; lia.
Qed.

Lemma canon_finite (x : Z) : x ≠ 0 → ∃ s m e, canon x = S754_finite s m e.
Proof. destruct x; [done| |]; by eexists _, _, _. Qed.

Lemma dadd_canon (x y : Z) :
  safe_integer x → safe_integer y → safe_integer (x + y) →
  dadd (canon x) (canon y) = canon (x + y).
Proof.
  intros Hx Hy Hxy.
  destruct (decide (x = 0)) as [->|Hx0]; [by destruct y|].
  destruct (decide (y = 0)) as [->|Hy0]; [rewrite Z.add_0_r; by destruct x|].
  destruct (canon_finite x Hx0) as (sx & mx & ex & Ex).
  destruct (canon_finite y Hy0) as (sy & my & ey & Ey).
  rewrite Ex, Ey. unfold dadd. cbn [SFadd].
  destruct (canon_aligned x sx mx ex (Z.min ex ey) Ex Hx ltac:(lia)) as [-> ?].
  destruct (canon_aligned y sy my ey (Z.min ex ey) Ey Hy ltac:(lia)) as [-> ?].
  rewrite <- Z.mul_add_distr_r.
  set (k := - Z.min ex ey). replace (Z.min ex ey) with (- k) by lia.
  apply normalize_int; [done | lia].
Qed.

Lemma dsub_canon (x y : Z) :
  safe_integer x → safe_integer y → safe_integer (x - y) →
  dsub (canon x) (canon y) = canon (x - y).
Proof.
  intros Hx Hy Hxy.
  destruct (decide (y = 0)) as [->|Hy0]; [rewrite Z.sub_0_r; by destruct x|].
  destruct (decide (x = 0)) as [->|Hx0]; [by destruct y|].
  destruct (canon_finite x Hx0) as (sx & mx & ex & Ex).
  destruct (canon_finite y Hy0) as (sy & my & ey & Ey).
  rewrite Ex, Ey. unfold dsub. cbn [SFsub].
  destruct (canon_aligned x sx mx ex (Z.min ex ey) Ex Hx ltac:(lia)) as [-> ?].
  destruct (canon_aligned y sy my ey (Z.min ex ey) Ey Hy ltac:(lia)) as [-> ?].
  rewrite <- Z.mul_sub_distr_r.
  set (k := - Z.min ex ey). replace (Z.min ex ey) with (- k) by lia.
  apply normalize_int; [done | lia].
Qed.

Lemma compare_mantissa (p q : positive) :
  digits p ≤ 53 → digits q ≤ 53 →
  match digits p - 53 ?= digits q - 53 with
  | Lt => Lt
  | Gt => Gt
  | Eq => Pos.compare_cont Eq (mantissa p) (mantissa q)
  end = (p ?= q)%positive.
Proof.
  intros Hp Hq. destruct (Z.compare_spec (digits p - 53) (digits q - 53)) as [E|E|E].
  - change (Pos.compare_cont Eq ?a ?b) with (a ?= b)%positive.
    rewrite !Pos2Z.inj_compare, !Zpos_mantissa by done.
    replace (digits q) with (digits p) by lia.
    symmetry. apply Zmult_compare_compat_r, Z.lt_gt, pow2_pos. lia.
  - symmetry. apply Pos.compare_lt_iff, digits_lt. lia.
  - symmetry. apply Pos.compare_gt_iff, digits_lt. lia.
Qed.

Lemma compare_canon (x y : Z) :
  safe_integer x → safe_integer y → SFcompare (canon x) (canon y) = Some (x ?= y).
Proof.
  intros Hx Hy.
  destruct x as [|p|p], y as [|q|q]; try reflexivity; cbn [canon SFcompare Z.compare];
    f_equal; rewrite <- (compare_mantissa p q) by (by apply digits_small);
    by destruct (digits p - 53 ?= digits q - 53).
Qed.

Lemma to_Z_canon (z : Z) : safe_integer z → to_Z (canon z) = Some z.
Proof.
  intros Hz. destruct z as [|p|p]; [done| |];
    pose proof (digits_small p Hz) as Hd; cbn [canon to_Z];
    rewrite Zpos_mantissa by done;
    (destruct (Z.leb_spec 0 (digits p - 53));
     [replace (digits p - 53) with 0 by lia; replace (53 - digits p) with 0 by lia;
      cbn; f_equal; lia|]);
    replace (- (digits p - 53)) with (53 - digits p) by lia;
    rewrite Z.mod_mul, Z.div_mul by (apply Z.pow_nonzero; lia); done.
Qed.

(** ** Lemmas: each operation preserves agreement *)

Lemma agrees_lit (z : Z) :
  safe_integer z → agrees (num_lit z) (num_lit z : double).
Proof. intros Hz. split; [done|]. left. by apply of_Z_canon. Qed.

Lemma agrees_nan : agrees NaN S754_nan.
Proof. done. Qed.

Lemma agrees_in_range (a : znum) (d : double) : agrees a d → in_range a.
Proof. destruct a; [by intros [? _] | done]. Qed.

Lemma agrees_add (a b : znum) (d e : double) :
  agrees a d → agrees b e → in_range (a + b)%js → agrees (a + b)%js (d + e)%js.
Proof.
  destruct a as [x|], b as [y|]; cbn; [|by intros _ ->; destruct d | by intros -> ..].
  intros [Hx Hd] [Hy He] Hxy. split; [done|].
  destruct Hd as [->|[-> ->]], He as [->|[-> ->]]; [| | |by right]; left.
  - by apply dadd_canon.
  - rewrite Z.add_0_r. by destruct x.
  - by destruct y.
Qed.

Lemma agrees_sub (a b : znum) (d e : double) :
  agrees a d → agrees b e → in_range (a - b)%js → agrees (a - b)%js (d - e)%js.
Proof.
  destruct a as [x|], b as [y|]; cbn; [|by intros _ ->; destruct d | by intros -> ..].
  intros [Hx Hd] [Hy He] Hxy. split; [done|].
  destruct Hd as [->|[-> ->]], He as [->|[-> ->]]; [| | |by left].
  - left. by apply dsub_canon.
  - left. rewrite Z.sub_0_r. by destruct x.
  - destruct y; [by right | by left ..].
Qed.

Lemma compare_nan_r (d : double) : SFcompare d S754_nan = None.
Proof. by destruct d. Qed.

Lemma agrees_compare (x y : Z) (d e : double) :
  agrees (Int x) d → agrees (Int y) e → SFcompare d e = Some (x ?= y).
Proof.
  intros [Hx Hd] [Hy He].
  destruct Hd as [->|[-> ->]], He as [->|[-> ->]]; [|by destruct x|by destruct y|done].
  by apply compare_canon.
Qed.

Lemma agrees_ge (a b : znum) (d e : double) :
  agrees a d → agrees b e → (d >= e)%js = (a >= b)%js.
Proof.
  destruct a as [x|], b as [y|]; cbn; unfold dge, SFleb;
    [|by intros _ -> | by intros -> _; rewrite compare_nan_r | by intros -> ->].
  intros Ha Hb. rewrite (agrees_compare y x e d Hb Ha), Z.compare_antisym.
  unfold Z.geb. by destruct (x ?= y).
Qed.

Lemma agrees_gt (a b : znum) (d e : double) :
  agrees a d → agrees b e → (d > e)%js = (a > b)%js.
Proof.
  destruct a as [x|], b as [y|]; cbn; unfold dgt, SFltb;
    [|by intros _ -> | by intros -> _; rewrite compare_nan_r | by intros -> ->].
  intros Ha Hb. rewrite (agrees_compare y x e d Hb Ha), Z.compare_antisym.
  unfold Z.gtb. by destruct (x ?= y).
Qed.

Lemma agrees_seq (a b : znum) (d e : double) :
  agrees a d → agrees b e → (d === e)%js = (a === b)%js.
Proof.
  destruct a as [x|], b as [y|]; cbn; unfold dseq, SFeqb;
    [|by intros _ ->; rewrite compare_nan_r | by intros -> _ | by intros -> ->].
  intros Ha Hb. rewrite (agrees_compare x y d e Ha Hb).
  destruct (Z.compare_spec x y); symmetry; [by apply Z.eqb_eq | apply Z.eqb_neq; lia ..].
Qed.

(** ** The interface on safe integers, and beyond them *)

(** Doubles add and subtract safe integers exactly: when the operands and
    the result are at most [MAX_SAFE_INTEGER] in absolute value, [+] and [-]
    on doubles give the double of the integer sum and difference. *)
Lemma double_arith_exact (x y : Z) :
  safe_integer x → safe_integer y →
  (safe_integer (x + y) →
   (num_lit x + num_lit y)%js = (num_lit (x + y) : double)) ∧
  (safe_integer (x - y) →
   (num_lit x - num_lit y)%js = (num_lit (x - y) : double)).
Proof.
  intros Hx Hy. split; intros Hxy; cbn; rewrite !of_Z_canon by done;
    [by apply dadd_canon | by apply dsub_canon].
Qed.

(** Doubles compare safe integers as integers: [>=], [>] and [===] on the
    doubles of two safe integers are the comparisons of the integers. *)
Lemma double_compare_exact (x y : Z) :
  safe_integer x → safe_integer y →
  (num_lit x >= (num_lit y : double))%js = (x >=? y) ∧
  (num_lit x > (num_lit y : double))%js = (x >? y) ∧
  (num_lit x === (num_lit y : double))%js = (x =? y).
Proof.
  intros Hx%agrees_lit Hy%agrees_lit. split_and!.
  - apply (agrees_ge (Int x) (Int y)); done.
  - apply (agrees_gt (Int x) (Int y)); done.
  - apply (agrees_seq (Int x) (Int y)); done.
Qed.

(** Printing and reading back: [Number(String(x))] is [x] for the double of
    every safe integer. *)
(** Beyond the safe range doubles round.  At 2^53 adding 1 is absorbed
    and the literal 2^53 + 1 is the double 2^53; adding 3 gives 2^53 + 4, the
    even neighbour; 2^1024 is infinity, and infinity minus infinity is NaN. *)
Example double_rounds :
  (num_lit (2 ^ 53) + num_lit 1)%js = (num_lit (2 ^ 53) : double) ∧
  (num_lit (2 ^ 53 + 1) : double) = num_lit (2 ^ 53) ∧
  (num_lit (2 ^ 53) + num_lit 3)%js = (num_lit (2 ^ 53 + 4) : double) ∧
  (num_lit (2 ^ 1024) : double) = S754_infinity false ∧
  (num_lit (2 ^ 1024) - num_lit (2 ^ 1024))%js = (num_nan : double).
Proof. by vm_compute. Qed.

#[export] Hint Resolve agrees_lit agrees_nan : bank.

(** Doubles are not exact integers: two literals are the same double. *)
Lemma double_not_exact : ¬ JsExact double.
Proof.
  intros Hex. assert ((2 ^ 53 + 1 : Z) = 2 ^ 53) as Heq; [|done].
  apply (lit_inj (num := double)). by vm_compute.
Qed.
