(* ===== verification/DoubleText.v ===== *)
(** * DoubleText: doubles read and printed

    [Number] and [String] on doubles against [Number] and [String] on
    integers.  A numeral whose value is a safe integer reads as the double of
    that integer, also when it is written with a fraction or an exponent
    ([agrees_Number]): for a negative exponent the division that [SFdiv]
    carries out is exact.  The double of a safe integer prints as the decimal
    digits of the integer ([agrees_String]): the search for the shortest
    numeral ends on digits that, followed by zeros, denote the integer,
    because no other integer numeral reads as its double.  So printing and
    reading back gives the double again ([double_Number_String]).

    A numeral never reads as NaN ([of_decimal_not_nan]); so what a number
    input holds, a valid floating-point number, reads as a number
    ([dNumber_valid]).

    The examples show reading and printing outside the integers. *)

From S2P Require Import Prelude JsNum Double.
From Stdlib Require Import Ascii Decimal DecimalFacts DecimalString DecimalPos SpecFloat.

#[local] Open Scope Z_scope.
#[local] Abbreviation digits := Double.digits.

(** ** Definitions *)

(** A digit 0 at the end of a numeral. *)
Fixpoint snoc0 (u : uint) : uint :=
  match u with
  | Nil => D0 Nil
  | D0 u' => D0 (snoc0 u') | D1 u' => D1 (snoc0 u') | D2 u' => D2 (snoc0 u')
  | D3 u' => D3 (snoc0 u') | D4 u' => D4 (snoc0 u') | D5 u' => D5 (snoc0 u')
  | D6 u' => D6 (snoc0 u') | D7 u' => D7 (snoc0 u') | D8 u' => D8 (snoc0 u')
  | D9 u' => D9 (snoc0 u')
  end.

(** A numeral that starts with a digit other than 0. *)
Definition headed (u : uint) : Prop :=
  match u with Nil | D0 _ => False | _ => True end.

(** ** Lemmas: numerals with a negative exponent *)

(** The digits of a product. *)
Lemma digits_mul (p d : positive) :
  digits (p * d) = digits p + digits d - 1 ∨ digits (p * d) = digits p + digits d.
Proof.
  pose proof (digits_bounds p) as Hp. pose proof (digits_bounds d) as Hd.
  pose proof (digits_pos p). pose proof (digits_pos d).
  assert (2 ^ (digits p + digits d - 2) ≤ Zpos (p * d) < 2 ^ (digits p + digits d)) as Hb.
  { replace (digits p + digits d - 2) with ((digits p - 1) + (digits d - 1)) by lia.
    rewrite !Z.pow_add_r, Pos2Z.inj_mul by lia. nia. }
  destruct (Z.lt_ge_cases (Zpos (p * d)) (2 ^ (digits p + digits d - 1))).
  - left. apply digits_unique; [lia|].
    replace (digits p + digits d - 1 - 1) with (digits p + digits d - 2) by lia. lia.
  - right. apply digits_unique; [lia|]. lia.
Qed.

Lemma new_location_exact (d : Z) : new_location d 0 = loc_Exact.
Proof. unfold new_location. by destruct (IntDef.Z.even d). Qed.

(** Dividing a multiple of [d] by [d], as [SFdiv] carries it out: the
    quotient comes with just enough binary digits, and exactly. *)
Lemma div_core_exact (p d : positive) :
  digits p ≤ 53 →
  ∃ s, 0 ≤ s ∧ (digits p + s = 53 ∨ digits p + s = 54) ∧
       SFdiv_core_binary prec emax (Zpos (p * d)) 0 (Zpos d) 0 =
         (Zpos p * 2 ^ s, - s, loc_Exact).
Proof.
  intros Hp. pose proof (digits_pos p). pose proof (digits_pos d).
  unfold SFdiv_core_binary. cbn [Zdigits2]. fold (digits (p * d)) (digits d).
  set (δ := digits (p * d) + 0 - (digits d + 0)).
  assert (δ = digits p - 1 ∨ δ = digits p) as Hδ by (destruct (digits_mul p d); lia).
  exists (53 - δ). split; [lia|]. split; [lia|].
  rewrite fexp_normal by lia. replace (Z.min (δ - 53) (0 - 0)) with (δ - 53) by lia.
  replace (0 - 0 - (δ - 53)) with (53 - δ) by lia.
  assert (match 53 - δ with
          | 0 => Zpos (p * d) | Zpos _ => Z.shiftl (Zpos (p * d)) (53 - δ) | Zneg _ => 0
          end = Zpos p * 2 ^ (53 - δ) * Zpos d) as ->.
  { destruct (53 - δ) eqn:E; [lia | rewrite Z.shiftl_mul_pow2 by lia; lia | lia]. }
  change IntDef.Z.div_eucl with Z.div_eucl.
  rewrite (surjective_pairing (Z.div_eucl _ _)).
  change (Z.div_eucl ?a ?b).1 with (a / b). change (Z.div_eucl ?a ?b).2 with (a mod b).
  rewrite Z.div_mul, Z.mod_mul, new_location_exact by done. do 2 f_equal. lia.
Qed.

(** Rounding the exact quotient gives the double of the integer. *)
Lemma round_quotient (neg : bool) (p : positive) (s : Z) :
  digits p ≤ 53 → 0 ≤ s → digits p + s = 53 ∨ digits p + s = 54 →
  binary_round_aux prec emax neg (Zpos p * 2 ^ s) (- s) loc_Exact =
    S754_finite neg (mantissa p) (digits p - 53).
Proof.
  intros Hp Hs [Hd|Hd]; pose proof (digits_pos p); pose proof (digits_mantissa p Hp).
  - replace s with (53 - digits p) by lia. rewrite <- Zpos_mantissa by done.
    replace (- (53 - digits p)) with (digits p - 53) by lia.
    apply binary_round_aux_canonical; lia.
  - replace (Zpos p * 2 ^ s) with (Zpos (Pos.iter xO (mantissa p) 1)).
    + rewrite binary_round_aux_shift by lia. f_equal. lia.
    + rewrite iter_xO, Zpos_mantissa by done. replace s with (53 - digits p + 1) by lia.
      rewrite Z.pow_add_r by lia. lia.
Qed.

(** A numeral with a negative exponent whose value is a safe integer reads
    as the double of that integer. *)
Lemma of_decimal_quotient (neg : bool) (p : positive) (k : Z) :
  0 < k → digits p ≤ 53 →
  of_decimal neg (Z.to_N (Zpos p * 10 ^ k)) (- k) = canon (cond_Zopp neg (Zpos p)).
Proof.
  intros Hk Hp. assert (0 < 10 ^ k) as Hd by (apply Z.pow_pos_nonneg; lia).
  unfold of_decimal. rewrite Z2N.id, Z.opp_involutive by lia.
  rewrite (proj2 (N.eqb_neq _ 0)), (proj2 (Z.leb_gt 0 (- k))) by lia.
  destruct (10 ^ k) as [|d|d] eqn:E; [lia| |lia]. rewrite <- Pos2Z.inj_mul.
  destruct (div_core_exact p d Hp) as (s & Hs & Hds & ->).
  rewrite round_quotient by done. by destruct neg.
Qed.

(** ** Lemmas: a numeral never reads as NaN *)

Lemma shr_1_nonneg (mrs : shr_record) : 0 ≤ shr_m mrs → 0 ≤ shr_m (shr_1 mrs).
Proof. destruct mrs as [[|[p|p|]|p] r s]; cbn; lia. Qed.

Lemma iter_shr_1_nonneg (n : positive) (mrs : shr_record) :
  0 ≤ shr_m mrs → 0 ≤ shr_m (iter_pos shr_1 n mrs).
Proof.
  revert mrs. induction n as [n IH|n IH|]; intros mrs Hm; cbn [iter_pos];
    auto using shr_1_nonneg.
Qed.

Lemma shr_fexp_nonneg (m e : Z) (l : location) :
  0 ≤ m → 0 ≤ shr_m (shr_fexp prec emax m e l).1.
Proof.
  intros Hm. unfold shr_fexp, shr.
  assert (0 ≤ shr_m (shr_record_of_loc m l)) by by destruct l as [|[]].
  destruct (fexp _ _ _ - e); cbn [fst]; auto using iter_shr_1_nonneg.
Qed.

Lemma round_nearest_even_nonneg (m : Z) (l : location) :
  0 ≤ m → 0 ≤ round_nearest_even m l.
Proof. intros Hm. destruct l as [|[]]; cbn; [done| |done|lia]. case_if; lia. Qed.

Lemma binary_round_aux_not_nan (sx : bool) (mx ex : Z) (lx : location) :
  0 ≤ mx → binary_round_aux prec emax sx mx ex lx ≠ S754_nan.
Proof.
  intros Hm. unfold binary_round_aux. pose proof (shr_fexp_nonneg mx ex lx Hm) as H1.
  destruct (shr_fexp prec emax mx ex lx) as [mrs' e']. cbn [fst] in H1.
  pose proof (shr_fexp_nonneg _ e' loc_Exact
                (round_nearest_even_nonneg _ (loc_of_shr_record mrs') H1)) as H2.
  destruct (shr_fexp prec emax _ e' loc_Exact) as [mrs'' e'']. cbn [fst] in H2.
  destruct (shr_m mrs''); [done| |lia]. by case_if.
Qed.

Lemma of_Z_not_nan (z : Z) : of_Z z ≠ S754_nan.
Proof.
  unfold of_Z. destruct z as [|p|p]; [done|..]; cbn [binary_normalize]; unfold binary_round;
    destruct (shl_align _ _ _) as [mz ez]; by apply binary_round_aux_not_nan.
Qed.

(** The quotient of the division is not negative. *)
Lemma div_core_nonneg (m1 m2 : Z) :
  0 ≤ m1 → 0 < m2 → 0 ≤ (SFdiv_core_binary prec emax m1 0 m2 0).1.1.
Proof.
  intros H1 H2. unfold SFdiv_core_binary.
  match goal with |- context [IntDef.Z.div_eucl ?a _] => set (m' := a) end.
  assert (0 ≤ m') as Hm.
  { subst m'. destruct (0 - 0 - _); [done | by apply Z.shiftl_nonneg | done]. }
  change IntDef.Z.div_eucl with Z.div_eucl.
  rewrite (surjective_pairing (Z.div_eucl m' m2)). cbn [fst].
  change (0 ≤ m' / m2). by apply Z.div_pos.
Qed.

Lemma of_decimal_not_nan (neg : bool) (m : N) (e : Z) : of_decimal neg m e ≠ S754_nan.
Proof.
  unfold of_decimal. case_if; [done|]. case_if; [apply of_Z_not_nan|].
  pose proof (div_core_nonneg (Z.of_N m) (10 ^ (- e)) ltac:(lia)
                ltac:(apply Z.pow_pos_nonneg; lia)) as Hq.
  destruct (SFdiv_core_binary _ _ _ _ _ _) as [[q e2] loc].
  by apply binary_round_aux_not_nan.
Qed.

(** What a number input holds reads as a number. *)
Lemma dNumber_valid (s : string) : valid_float s = true → dNumber s ≠ S754_nan.
Proof.
  intros (sg & m & e & Hr)%valid_float_numeral. unfold dNumber. rewrite Hr.
  apply of_decimal_not_nan.
Qed.

(** ** Lemmas: decimal digits *)

Lemma digits10_spec (fuel : nat) (z : Z) :
  0 < z < 10 ^ Z.of_nat fuel →
  1 ≤ digits10 fuel z ∧ 10 ^ (digits10 fuel z - 1) ≤ z < 10 ^ digits10 fuel z.
Proof.
  revert z. induction fuel as [|f IH]; intros z Hz; [cbn in Hz; lia|].
  cbn [digits10]. destruct (Z.ltb_spec z 10) as [H10|H10]; [cbn; lia|].
  rewrite Nat2Z.inj_succ, Z.pow_succ_r in Hz by lia.
  destruct (IH (z / 10)) as [H1 H2].
  { split; [apply Z.div_str_pos; lia | apply Z.div_lt_upper_bound; lia]. }
  split; [lia|].
  replace (1 + digits10 f (z / 10) - 1) with (Z.succ (digits10 f (z / 10) - 1)) by lia.
  replace (1 + digits10 f (z / 10)) with (Z.succ (digits10 f (z / 10))) by lia.
  rewrite !Z.pow_succ_r by lia.
  pose proof (Z.div_mod z 10 ltac:(lia)). pose proof (Z.mod_pos_bound z 10 ltac:(lia)).
  lia.
Qed.

Lemma string_snoc0 (u : uint) :
  NilEmpty.string_of_uint (snoc0 u) = NilEmpty.string_of_uint u +:+ "0".
Proof. induction u; cbn [snoc0 NilEmpty.string_of_uint]; [done | by rewrite IHu..]. Qed.

Lemma of_uint_acc_snoc0 (u : uint) (acc : positive) :
  Pos.of_uint_acc (snoc0 u) acc = (10 * Pos.of_uint_acc u acc)%positive.
Proof.
  revert acc. induction u; intros acc; cbn [snoc0 Pos.of_uint_acc]; [done | by rewrite IHu..].
Qed.

Lemma of_uint_snoc0 (u : uint) : Pos.of_uint (snoc0 u) = (10 * Pos.of_uint u)%N.
Proof.
  induction u; cbn [snoc0 Pos.of_uint]; [done | done | by rewrite of_uint_acc_snoc0..].
Qed.

Lemma headed_to_uint (p : positive) : headed (Pos.to_uint p).
Proof.
  pose proof (DecimalPos.Unsigned.to_of (Pos.to_uint p)) as Hn.
  rewrite DecimalPos.Unsigned.of_to in Hn. cbn [N.to_uint] in Hn.
  pose proof (DecimalPos.Unsigned.to_uint_nonzero p) as Hz.
  destruct (Pos.to_uint p) as [|u| | | | | | | | | ]; try done.
  - unfold unorm in Hn. cbn [nzhead] in Hn. pose proof (nb_digits_nzhead u) as Hd.
    destruct (nzhead u) eqn:E; [by injection Hn as -> |..];
      rewrite <- Hn in Hd; cbn in Hd; lia.
Qed.

Lemma to_uint_snoc0 (p : positive) : Pos.to_uint (10 * p) = snoc0 (Pos.to_uint p).
Proof.
  pose proof (headed_to_uint p) as Hh.
  pose proof (DecimalPos.Unsigned.to_of (snoc0 (Pos.to_uint p))) as Hn.
  rewrite of_uint_snoc0, DecimalPos.Unsigned.of_to in Hn.
  change (N.to_uint (10 * N.pos p)) with (Pos.to_uint (10 * p)) in Hn.
  rewrite Hn. by destruct (Pos.to_uint p).
Qed.

Lemma zeros_snoc (n : nat) : zeros n +:+ "0" = zeros (S n).
Proof.
  induction n as [|n IH]; [done|]. change (String "0" (zeros n +:+ "0") = zeros (S (S n))).
  by rewrite IH.
Qed.

Lemma append_assoc (s1 s2 s3 : string) : (s1 +:+ s2) +:+ s3 = s1 +:+ (s2 +:+ s3).
Proof.
  induction s1 as [|c s1 IH]; [done|].
  change (String c ((s1 +:+ s2) +:+ s3) = String c (s1 +:+ (s2 +:+ s3))). by rewrite IH.
Qed.

(** The digits of a multiple of a power of ten end in zeros. *)
Lemma digits_string_pow10 (p : positive) (t : nat) :
  digits_string (Zpos p * 10 ^ Z.of_nat t) = digits_string (Zpos p) +:+ zeros t.
Proof.
  induction t as [|t IH]; [by rewrite Z.mul_1_r, append_empty_r|].
  rewrite Nat2Z.inj_succ, Z.pow_succ_r, <- zeros_snoc, <- append_assoc, <- IH by lia.
  assert (0 < 10 ^ Z.of_nat t) by (apply Z.pow_pos_nonneg; lia).
  destruct (Zpos p * 10 ^ Z.of_nat t) as [|q|q] eqn:E; [lia| |lia].
  replace (Zpos p * (10 * 10 ^ Z.of_nat t)) with (Zpos (10 * q)) by lia.
  unfold digits_string. cbn [Z.to_N N.to_uint]. rewrite to_uint_snoc0.
  pose proof (headed_to_uint q) as Hq. pose proof (string_snoc0 (Pos.to_uint q)) as Hs.
  by destruct (Pos.to_uint q).
Qed.

(** ** Lemmas: what reads as the double of a safe integer *)

(** Rounding never lowers the exponent below the one of the format. *)
Lemma shr_fexp_exponent (m e : Z) (l : location) :
  fexp prec emax (Zdigits2 m + e) ≤ (shr_fexp prec emax m e l).2 ∧
  e ≤ (shr_fexp prec emax m e l).2.
Proof. unfold shr_fexp, shr. destruct (fexp _ _ _ - e) eqn:E; cbn; lia. Qed.

Lemma binary_round_aux_exponent (sx s : bool) (mx ex e : Z) (lx : location) (m : positive) :
  binary_round_aux prec emax sx mx ex lx = S754_finite s m e →
  fexp prec emax (Zdigits2 mx + ex) ≤ e.
Proof.
  unfold binary_round_aux. pose proof (shr_fexp_exponent mx ex lx) as [H1 _].
  destruct (shr_fexp prec emax mx ex lx) as [mrs' e'].
  pose proof (shr_fexp_exponent (round_nearest_even (shr_m mrs') (loc_of_shr_record mrs'))
                e' loc_Exact) as [_ H2].
  destruct (shr_fexp prec emax _ e' loc_Exact) as [mrs'' e''].
  destruct (shr_m mrs''); [done| |done]. case_if; [|done]. intros [= _ _ <-]. cbn in *. lia.
Qed.

(** An integer from 2^53 on is not the double of a safe integer. *)
Lemma of_Z_unsafe (v : Z) (p : positive) :
  2 ^ 53 ≤ v → safe_integer (Zpos p) → of_Z v ≠ canon (Zpos p).
Proof.
  intros Hv Hp Heq. destruct v as [|q|q]; [lia| |lia].
  assert (54 ≤ digits q) as Hq.
  { pose proof (digits_bounds q). destruct (Z.lt_ge_cases (digits q) 54); [|done].
    pose proof (pow2_le (digits q) 53 ltac:(pose proof (digits_pos q); lia)). lia. }
  unfold of_Z in Heq. cbn [binary_normalize canon] in Heq. unfold binary_round in Heq.
  fold (digits q) in Heq. rewrite fexp_normal in Heq by lia. unfold shl_align in Heq.
  destruct (digits q + 0 - 53 - 0) as [|j|j] eqn:E; try lia.
  apply binary_round_aux_exponent in Heq. cbn [Zdigits2] in Heq. fold (digits q) in Heq.
  rewrite fexp_normal in Heq by lia. pose proof (digits_small p Hp). lia.
Qed.

Lemma canon_inj (x y : Z) : safe_integer x → safe_integer y → canon x = canon y → x = y.
Proof.
  intros Hx Hy Heq. pose proof (to_Z_canon x Hx) as H1. rewrite Heq, to_Z_canon in H1 by done.
  by injection H1.
Qed.

(** The numerals with a non-negative exponent that read as the double of a
    safe integer are those that denote it. *)
Lemma rounds_to_int (p : positive) (s e : Z) :
  safe_integer (Zpos p) → 0 ≤ s → 0 ≤ e →
  rounds_to (canon (Zpos p)) s e = bool_decide (s * 10 ^ e = Zpos p).
Proof.
  intros Hp Hs He. unfold rounds_to. apply bool_decide_ext. unfold of_decimal.
  assert (0 < 10 ^ e) by (apply Z.pow_pos_nonneg; lia).
  destruct (N.eqb_spec (Z.to_N s) 0) as [Hs0|Hs0]; [split; [done | lia]|].
  rewrite (proj2 (Z.leb_le 0 e)), Z2N.id by done. cbn [cond_Zopp]. split.
  - intros Heq. destruct (decide (safe_integer (s * 10 ^ e))) as [Hv|Hv].
    + rewrite of_Z_canon in Heq by done. by apply canon_inj.
    + destruct (of_Z_unsafe (s * 10 ^ e) p); [|done..].
      apply Z.nlt_ge. intros Hlt. apply Hv, safe_integer_lt. nia.
  - intros ->. by apply of_Z_canon.
Qed.

(** ** Lemmas: printing the double of a safe integer *)

Section PrintInt.
Context (p : positive) (c n : Z).
Context (Hp : safe_integer (Zpos p)) (Hc : 0 < c).

(** With [k] digits the search finds the integer if it ends in [n - k]
    zeros, and nothing otherwise. *)
Lemma pick_int (k : Z) :
  k ≤ n →
  pick (canon (Zpos p)) (Zpos p * c) c n k =
    if Zpos p mod 10 ^ (n - k) =? 0 then Some (Zpos p / 10 ^ (n - k)) else None.
Proof.
  intros Hk. assert (0 < 10 ^ (n - k)) as Hd by (apply Z.pow_pos_nonneg; lia).
  unfold pick, scale10. rewrite (proj2 (Z.leb_le 0 (n - k))) by lia.
  rewrite (Z.mul_comm (Zpos p) c), Z.div_mul_cancel_l by lia.
  pose proof (Z.div_mod (Zpos p) (10 ^ (n - k)) ltac:(lia)) as Hdm.
  pose proof (Z.mod_pos_bound (Zpos p) (10 ^ (n - k)) Hd) as Hm.
  assert (0 ≤ Zpos p / 10 ^ (n - k)) by (apply Z.div_pos; lia).
  rewrite !rounds_to_int by (done || lia).
  rewrite (bool_decide_eq_false_2 ((_ + 1) * _ = _)) by (rewrite Z.mul_add_distr_r; lia).
  destruct (Z.eqb_spec (Zpos p mod 10 ^ (n - k)) 0) as [H0|H0].
  - rewrite bool_decide_eq_true_2; [done | lia].
  - rewrite bool_decide_eq_false_2; [done | lia].
Qed.

(** The search ends on digits that, followed by zeros, denote the integer. *)
Lemma shortest_int (fuel : nat) (k : Z) :
  1 ≤ k ≤ n → n < k + Z.of_nat fuel →
  ∃ s k', shortest fuel (canon (Zpos p)) (Zpos p * c) c n k = (s, k') ∧
          k ≤ k' ≤ n ∧ s * 10 ^ (n - k') = Zpos p.
Proof.
  revert k. induction fuel as [|f IH]; intros k Hk Hn; [lia|].
  cbn [shortest]. rewrite pick_int by lia.
  destruct (Z.eqb_spec (Zpos p mod 10 ^ (n - k)) 0) as [H0|H0].
  - exists (Zpos p / 10 ^ (n - k)), k. split; [done|]. split; [lia|].
    assert (0 < 10 ^ (n - k)) by (apply Z.pow_pos_nonneg; lia).
    pose proof (Z.div_mod (Zpos p) (10 ^ (n - k)) ltac:(lia)). lia.
  - assert (k ≠ n) by (intros ->; rewrite Z.sub_diag, Z.mod_1_r in H0; done).
    destruct (IH (k + 1)) as (s & k' & -> & Hk' & Hs); [lia..|].
    exists s, k'. split; [done|]. split; [lia | done].
Qed.

End PrintInt.

(** The double of a safe positive integer prints as its decimal digits. *)
Lemma print_finite_int (p : positive) :
  safe_integer (Zpos p) →
  print_finite (mantissa p) (digits p - 53) = digits_string (Zpos p).
Proof.
  intros Hp. pose proof (digits_small p Hp) as Hd. pose proof (digits_pos p).
  set (c := 2 ^ (53 - digits p)). assert (0 < c) as Hc by (apply pow2_pos; lia).
  unfold print_finite.
  assert ((if 0 <=? digits p - 53 then (Zpos (mantissa p) * 2 ^ (digits p - 53), 1)
           else (Zpos (mantissa p), 2 ^ (- (digits p - 53)))) = (Zpos p * c, c)) as ->.
  { rewrite Zpos_mantissa by done. fold c. case_if.
    - assert (digits p = 53) as E by lia. unfold c. rewrite E.
      change (2 ^ (53 - 53)) with 1. by rewrite !Z.mul_1_r.
    - unfold c. do 2 f_equal. lia. }
  change (S754_finite false (mantissa p) (digits p - 53)) with (canon (Zpos p)).
  unfold magnitude10. rewrite (proj2 (Z.leb_le c (Zpos p * c))), Z.div_mul by nia.
  destruct (digits10_spec 400 (Zpos p)) as [Hn1 Hn].
  { apply safe_integer_lt in Hp. split; [lia|].
    assert (2 ^ 53 < 10 ^ Z.of_nat 400) by by vm_compute. lia. }
  set (n := digits10 400 (Zpos p)) in *.
  assert (n ≤ 16) as Hn16.
  { apply safe_integer_lt in Hp. assert (2 ^ 53 < 10 ^ 16) by by vm_compute.
    destruct (Z.le_gt_cases n 16); [done|].
    pose proof (Z.pow_le_mono_r 10 16 (n - 1) ltac:(lia) ltac:(lia)). lia. }
  destruct (shortest_int p c n Hp Hc 17 1) as (s & k & -> & Hk & Hs); [lia..|].
  assert (0 < 10 ^ (n - k)) by (apply Z.pow_pos_nonneg; lia).
  assert (s < 10 ^ k) as Hsk.
  { replace n with (k + (n - k)) in Hn at 2 by lia. rewrite Z.pow_add_r in Hn by lia. nia. }
  rewrite (proj2 (Z.eqb_neq s (10 ^ k))) by lia. unfold format.
  rewrite (proj2 (Z.leb_le (-5) n)), (proj2 (Z.leb_le n 21)), (proj2 (Z.leb_le k n)) by lia.
  cbn [andb]. destruct s as [|q|q]; [lia| |lia].
  rewrite <- digits_string_pow10, Z2Nat.id by lia. by rewrite Hs.
Qed.
(** ** Lemmas: reading and printing preserve agreement *)

Lemma agrees_String (a : znum) (d : double) :
  agrees a d → js_String d = js_String a.
Proof.
  destruct a as [z|]; [|by intros ->]. intros [Hz [->|[-> ->]]]; [|done].
  change (dString (canon z) = znum_String (Int z)).
  destruct z as [|p|p]; [done|..]; cbn [canon dString]; rewrite print_finite_int by done;
    [done|]. unfold digits_string, znum_String. cbn.
  unfold NilZero.string_of_uint. pose proof (headed_to_uint p). by destruct (Pos.to_uint p).
Qed.

Lemma agrees_zero (neg : bool) : agrees (Int 0) (S754_zero neg).
Proof. split; [done|]. destruct neg; [by right | by left]. Qed.

(** A numeral whose value is a safe integer reads as its double. *)
Lemma agrees_numeral (n : Numeral) (z : Z) :
  znum_of_numeral n = Int z → safe_integer z → agrees (Int z) (of_numeral n).
Proof.
  destruct n as [neg m e|]; [|done]. cbn [znum_of_numeral of_numeral].
  destruct (N.eqb_spec m 0) as [->|Hm].
  { unfold of_decimal. cbn [N.eqb]. rewrite Z.mul_0_l, Zmod_0_l, Zdiv_0_l. cbn [Z.eqb Z.of_N].
    intros Hz _. replace z with 0 by (by destruct neg, (0 <=? e); simplify_eq).
    apply agrees_zero. }
  destruct (Z.leb_spec 0 e) as [He|He].
  - intros [= <-] Hz. unfold of_decimal.
    rewrite (proj2 (N.eqb_neq m 0)), (proj2 (Z.leb_le 0 e)) by done.
    by apply (agrees_lit _ Hz).
  - destruct (Z.eqb_spec (Z.of_N m mod 10 ^ (- e)) 0) as [Hmod|]; [|done].
    assert (0 < 10 ^ (- e)) as Hd by (apply Z.pow_pos_nonneg; lia).
    apply Z.div_exact in Hmod; [|lia].
    destruct (Z.of_N m / 10 ^ (- e)) as [|p|p] eqn:E; [lia| |lia].
    intros [= <-] Hz. assert (digits p ≤ 53) as Hp by (apply digits_small; by destruct neg).
    replace m with (Z.to_N (Zpos p * 10 ^ (- e))) by lia.
    replace e with (- - e) at 2 by lia. rewrite of_decimal_quotient by lia.
    split; [done | left; by destruct neg].
Qed.

Lemma agrees_Number (s : string) (z : Z) :
  js_Number s = Int z → safe_integer z → agrees (Int z) (js_Number s : double).
Proof.
  cbn. unfold znum_Number, dNumber. destruct (read_numeral s) as [n|]; [|done].
  apply agrees_numeral.
Qed.

(** ** Reading back what was printed *)

Lemma double_Number_String (z : Z) :
  safe_integer z →
  js_Number (js_String (num_lit z : double)) = (num_lit z : double).
Proof.
  intros Hz. rewrite (agrees_String (Int z)) by by apply agrees_lit.
  change (@js_String znum _ ?a) with (znum_String a).
  destruct (decide (z = 0)) as [->|Hz0]; [done|].
  destruct (agrees_Number (znum_String (Int z)) z (znum_Number_String z) Hz)
    as [_ [->|[? _]]]; [|done].
  symmetry. by apply of_Z_canon.
Qed.

(** Numerals with a fraction or an exponent read as the nearest double:
    one tenth, whose sum with two tenths is not three tenths; the smallest
    double and half of it; the largest double and what lies beyond. *)
Example double_reads_fractions :
  (js_Number "0.1" : double) = S754_finite false 7205759403792794 (-56) ∧
  (js_Number "0.1" + js_Number "0.2")%js ≠ (js_Number "0.3" : double) ∧
  (js_Number "5e-324" : double) = S754_finite false 1 (-1074) ∧
  (js_Number "-2e-324" : double) = S754_zero true ∧
  (js_Number "1.7976931348623157e308" : double) = S754_finite false (2 ^ 53 - 1) 971 ∧
  (js_Number "1.7976931348623159e308" : double) = S754_infinity false ∧
  (js_Number " 0x1F " : double) = num_lit 31 ∧
  (js_Number "12.5e1" : double) = num_lit 125 ∧
  (js_Number "1e" : double) = num_nan.
Proof. by vm_compute. Qed.

(** Printing outside the integers: the shortest digits that read back as
    the same double, plainly up to 21 digits before the point and 6 zeros
    after it, with an exponent beyond. *)
Example double_prints :
  js_String (js_Number "0.1" + js_Number "0.2")%js = "0.30000000000000004" ∧
  js_String (js_Number "4.35" : double) = "4.35" ∧
  js_String (js_Number "-1234.5678" : double) = "-1234.5678" ∧
  js_String (js_Number "0.000001" : double) = "0.000001" ∧
  js_String (js_Number "0.0000001" : double) = "1e-7" ∧
  js_String (js_Number "123456789012345680000" : double) = "123456789012345680000" ∧
  js_String (js_Number "1000000000000000000000" : double) = "1e+21" ∧
  js_String (js_Number "1e23" : double) = "1e+23" ∧
  js_String (js_Number "5e-324" : double) = "5e-324" ∧
  js_String (js_Number "1.7976931348623157e308" : double) = "1.7976931348623157e+308" ∧
  js_String (js_Number "9007199254740993" : double) = "9007199254740992" ∧
  js_String (num_lit (2 ^ 68) : double) = "295147905179352830000" ∧
  js_String (js_Number "-0" : double) = "0".
Proof. by vm_compute. Qed.

