(* ===== verification/DoubleExact.v ===== *)
(** * DoubleExact: finite doubles and the decimals that read as them

    A double is zero, a finite number [m * 2^e], an infinity or NaN.  Every
    finite double has a decimal numeral whose value is the double exactly:
    the integer [m * 2^e] when [e] is not negative, and [m * 5^(-e)] with
    the decimal exponent [e] when it is, since [m / 2^k] is [m * 5^k / 10^k].
    [magnitude_text] is that numeral as a text.  It is a valid
    floating-point number, so a number input keeps it, and [Number] reads it
    as the double without rounding ([magnitude_text_reads]): the division by
    the power of ten that [Double.of_decimal] carries out leaves no
    remainder, and the quotient is a mantissa of the format followed by
    zeros.

    The file also has the arithmetic that is exact on every finite double (a
    number minus itself, a negative number plus its magnitude, zero plus a
    number) and the facts on infinities and NaN that [DoubleLive] uses. *)

From S2P Require Import Prelude JsNum Double DoubleText.
From Stdlib Require Import Ascii Decimal DecimalFacts DecimalString DecimalPos SpecFloat.

#[local] Open Scope Z_scope.
#[local] Abbreviation digits := Double.digits.
#[local] Abbreviation digits_of := NilEmpty.string_of_uint.

(** ** Definitions *)

(** Zero or a finite number, as opposed to an infinity or NaN. *)
Definition is_finite (x : double) : bool :=
  match x with S754_zero _ | S754_finite _ _ _ => true | _ => false end.

(** A double of the format: a finite one has a mantissa of 53 digits, or
    fewer at the least exponent. *)
Definition well_formed (x : double) : bool := valid_binary prec emax x.

(** The decimal numeral whose value is exactly [m * 2^e]: the integer
    itself, or for a negative [e] the integer [m * 5^(-e)] with the
    exponent [e]. *)
Definition magnitude_text (m : positive) (e : Z) : string :=
  if 0 <=? e then digits_string (Zpos m * 2 ^ e)
  else digits_string (Zpos m * 5 ^ (- e)) +:+ "e-" +:+ digits_string (- e).

(** ** Lemmas: rounding a number of the format *)

#[local] Abbreviation exact m := (Build_shr_record m false false).

Lemma bounded_canonical (m : positive) (e : Z) :
  bounded prec emax m e = true →
  fexp prec emax (digits m + e) = e ∧ -1074 ≤ e ≤ 971.
Proof.
  unfold bounded, canonical_mantissa. intros [Hc%Z.eqb_eq He%Z.leb_le]%andb_true_split.
  fold (digits m) in Hc. split; [done|].
  unfold fexp, SpecFloat.emin, emax, prec in *. pose proof (digits_pos m). lia.
Qed.

(** A mantissa of the format followed by zeros loses the zeros. *)
Lemma binary_round_aux_exact (sx : bool) (m : positive) (j e : Z) :
  bounded prec emax m e = true → 0 ≤ j →
  binary_round_aux prec emax sx (Zpos (Z.to_pos (Zpos m * 2 ^ j))) (e - j) loc_Exact =
    S754_finite sx m e.
Proof.
  intros [Hc He]%bounded_canonical Hj. unfold binary_round_aux.
  assert (shr_fexp prec emax (Zpos (Z.to_pos (Zpos m * 2 ^ j))) (e - j) loc_Exact =
            (exact (Zpos m), e)) as ->.
  { unfold shr_fexp. cbn [Zdigits2 shr_record_of_loc].
    fold (digits (Z.to_pos (Zpos m * 2 ^ j))). rewrite digits_shift by done.
    replace (digits m + j + (e - j)) with (digits m + e) by lia. rewrite Hc.
    replace (e - (e - j)) with j by lia. unfold shr.
    destruct j as [|j'|j']; [|
      |lia].
    - rewrite Z.mul_1_r, Pos2Z.id. f_equal. lia.
    - replace (Z.to_pos (Zpos m * 2 ^ Zpos j')) with (Pos.iter xO m j')
        by (apply Pos2Z.inj; rewrite iter_xO, Zpos_shift by lia; done).
      rewrite iter_shr_1. f_equal. lia. }
  cbn [shr_m loc_of_shr_record round_nearest_even].
  assert (shr_fexp prec emax (Zpos m) e loc_Exact = (exact (Zpos m), e)) as ->.
  { unfold shr_fexp. cbn [Zdigits2 shr_record_of_loc]. fold (digits m).
    rewrite Hc, Z.sub_diag. done. }
  cbn [shr_m]. by rewrite exponent_ok by lia.
Qed.

Lemma fexp_mono (a b : Z) : a ≤ b → fexp prec emax a ≤ fexp prec emax b.
Proof. unfold fexp. lia. Qed.

(** An integer of the format reads as itself. *)
Lemma of_decimal_int (m : positive) (e : Z) :
  bounded prec emax m e = true → 0 ≤ e →
  of_decimal false (Z.to_N (Zpos m * 2 ^ e)) 0 = S754_finite false m e.
Proof.
  intros Hb He. pose proof (bounded_canonical m e Hb) as [Hc _].
  pose proof (pow2_pos e He).
  unfold of_decimal. rewrite (proj2 (N.eqb_neq _ 0)) by lia. cbn [Z.leb Z.compare].
  rewrite Z2N.id, Z.mul_1_r by lia. cbn [cond_Zopp]. unfold of_Z.
  destruct (Zpos m * 2 ^ e) as [|p|p] eqn:E; [lia| |lia]. cbn [binary_normalize].
  assert (p = Z.to_pos (Zpos m * 2 ^ e)) as -> by (rewrite E; done).
  unfold binary_round. fold (digits (Z.to_pos (Zpos m * 2 ^ e))).
  rewrite digits_shift by done.
  replace (digits m + e + 0) with (digits m + e) by lia. rewrite Hc.
  unfold shl_align. replace (e - 0) with e by lia.
  destruct e as [|e'|e'] eqn:Ee; [| |lia].
  - rewrite <- (binary_round_aux_exact false m 0 0 Hb) by lia. done.
  - rewrite <- (binary_round_aux_exact false m (Zpos e') (Zpos e') Hb) by lia.
    by rewrite Z.sub_diag.
Qed.

(** The digits of a power of ten. *)
Lemma digits_pow10 (k : Z) (f t : positive) :
  0 ≤ k → Zpos f = 5 ^ k → Zpos t = 10 ^ k → digits t = digits f + k.
Proof.
  intros Hk Hf Ht. rewrite <- (digits_shift f k Hk). f_equal. apply Pos2Z.inj.
  rewrite Zpos_shift, Ht, Hf by done.
  change 10 with (5 * 2). by rewrite Z.pow_mul_l.
Qed.

(** A quotient by a power of ten that is of the format reads as itself. *)
Lemma of_decimal_frac (m : positive) (k : Z) :
  bounded prec emax m (- k) = true → 0 < k →
  of_decimal false (Z.to_N (Zpos m * 5 ^ k)) (- k) = S754_finite false m (- k).
Proof.
  intros Hb Hk. pose proof (bounded_canonical m (- k) Hb) as [Hc _].
  assert (0 < 5 ^ k) as H5 by (apply Z.pow_pos_nonneg; lia).
  assert (0 < 10 ^ k) as H10 by (apply Z.pow_pos_nonneg; lia).
  pose proof (pow2_pos k ltac:(lia)) as H2.
  unfold of_decimal. rewrite (proj2 (N.eqb_neq _ 0)), (proj2 (Z.leb_gt 0 (- k))) by lia.
  rewrite Z2N.id, Z.opp_involutive by lia.
  destruct (5 ^ k) as [|f|f] eqn:Ef; [lia| |lia].
  destruct (10 ^ k) as [|t|t] eqn:Et; [lia| |lia].
  rewrite <- Pos2Z.inj_mul. unfold SFdiv_core_binary. cbn [Zdigits2].
  fold (digits (m * f)) (digits t).
  rewrite (digits_pow10 k f t) by lia.
  set (e' := Z.min (fexp prec emax (digits (m * f) + 0 - (digits f + k + 0))) (0 - 0)).
  assert (e' ≤ - k) as He'.
  { unfold e'. pose proof (fexp_mono (digits (m * f) + 0 - (digits f + k + 0))
      (digits m + - k)) as Hm. destruct (digits_mul m f); lia. }
  assert (match 0 - 0 - e' with
          | 0 => Zpos (m * f) | Zpos _ => Z.shiftl (Zpos (m * f)) (0 - 0 - e') | Zneg _ => 0
          end = Zpos (Z.to_pos (Zpos m * 2 ^ (- e' - k))) * Zpos t) as ->.
  { assert (Zpos t = Zpos f * 2 ^ k) as ->
      by (rewrite <- Et, <- Ef; change 10 with (5 * 2); apply Z.pow_mul_l).
    destruct (0 - 0 - e') eqn:E; [lia | | lia]. rewrite Z.shiftl_mul_pow2 by lia.
    rewrite Zpos_shift, <- E, Pos2Z.inj_mul by lia.
    replace (0 - 0 - e') with ((- e' - k) + k) by lia. rewrite Z.pow_add_r by lia.
    lia. }
  change IntDef.Z.div_eucl with Z.div_eucl.
  rewrite (surjective_pairing (Z.div_eucl _ _)).
  change (Z.div_eucl ?a ?b).1 with (a / b). change (Z.div_eucl ?a ?b).2 with (a mod b).
  rewrite Z.div_mul, Z.mod_mul, new_location_exact by done.
  rewrite <- (binary_round_aux_exact false m (- e' - k) (- k) Hb) by lia.
  f_equal. lia.
Qed.

(** ** Lemmas: reading a numeral with an exponent *)

Lemma digits_string_pos (p : positive) : digits_string (Zpos p) = digits_of (Pos.to_uint p).
Proof.
  unfold digits_string. cbn [Z.to_N N.to_uint]. unfold NilZero.string_of_uint.
  pose proof (DecimalPos.Unsigned.to_uint_nonnil p). by destruct (Pos.to_uint p).
Qed.

(** Digits before something that is no digit. *)
Lemma span_digits_app (u : uint) (c : ascii) (s : string) :
  is_digit c = false →
  span_digits (digits_of u +:+ String c s) = (digits_of u, String c s).
Proof.
  intros Hc.
  induction u as [|u IH|u IH|u IH|u IH|u IH|u IH|u IH|u IH|u IH|u IH];
    cbn [NilEmpty.string_of_uint];
    [change (span_digits (String c s) = ("", String c s)); cbn; by rewrite Hc|..];
    match goal with
    | |- span_digits (String ?d ?a +:+ ?b) = _ =>
        change (span_digits (String d (a +:+ b)) = (String d a, b))
    end; cbn [span_digits]; by rewrite IH.
Qed.

Lemma digits_value_digits (u : uint) : digits_value (digits_of u) = N.of_uint u.
Proof. unfold digits_value. by rewrite NilEmpty.usu. Qed.

Lemma digits_of_nonempty (u : uint) : u ≠ Nil → digits_of u ≠ "".
Proof. by destruct u. Qed.

Lemma read_exponent_minus (v : uint) :
  v ≠ Nil →
  read_exponent (String "e" (String "-" (digits_of v))) = Some (- Z.of_N (N.of_uint v)).
Proof.
  intros Hv. unfold read_exponent. rewrite bool_decide_eq_true_2 by set_solver.
  cbn [read_sign]. rewrite span_digits_digits.
  rewrite bool_decide_eq_true_2 by (split; [by apply digits_of_nonempty | done]).
  by rewrite digits_value_digits.
Qed.

(** The text of a numeral with a negative exponent. *)
#[local] Abbreviation with_exponent u v :=
  (digits_of u +:+ String "e" (String "-" (digits_of v))).

Lemma read_unsigned_exponent (u v : uint) :
  u ≠ Nil → v ≠ Nil →
  read_unsigned (with_exponent u v) = Some (N.of_uint u, - Z.of_N (N.of_uint v)).
Proof.
  intros Hu Hv. unfold read_unsigned. rewrite span_digits_app by done.
  rewrite bool_decide_eq_false_2 by (intros [? _]; by apply (digits_of_nonempty u)).
  rewrite read_exponent_minus by done. cbn.
  by rewrite append_empty_r, digits_value_digits, Z.sub_0_r.
Qed.

Lemma valid_float_exponent (u v : uint) :
  headed u → v ≠ Nil → valid_float (with_exponent u v) = true.
Proof.
  intros Hu Hv.
  assert (valid_unsigned (with_exponent u v) = true) as Hval.
  { unfold valid_unsigned. rewrite span_digits_app by done.
    rewrite read_exponent_minus by done.
    rewrite !bool_decide_eq_true_2; [done | done | apply digits_of_nonempty; by destruct u]. }
  by destruct u.
Qed.

Lemma read_numeral_exponent (u v : uint) :
  headed u → v ≠ Nil →
  read_numeral (with_exponent u v) = Some (Dec false (N.of_uint u) (- Z.of_N (N.of_uint v))).
Proof.
  intros Hu Hv. assert (u ≠ Nil) as Hn by (by destruct u).
  pose proof (valid_float_exponent u v Hu Hv) as Hval.
  assert (valid_unsigned (with_exponent u v) = true) as Hun by (by destruct u).
  destruct (valid_unsigned_shape _ Hun) as [[(c & s' & Hs & Hc) Ht] _].
  unfold read_numeral, trim.
  assert (trim_start (with_exponent u v) = with_exponent u v) as ->.
  { rewrite Hs. cbn. destruct Hc as [Hc| ->]; [by rewrite is_digit_not_space | done]. }
  rewrite Ht, valid_unsigned_prefixed by done.
  rewrite bool_decide_eq_false_2 by (rewrite Hs; done).
  unfold read_decimal.
  assert (read_sign (with_exponent u v) = (false, with_exponent u v)) as ->
    by (by destruct u).
  rewrite bool_decide_eq_false_2 by (by destruct u).
  by rewrite read_unsigned_exponent.
Qed.

(** ** Lemmas: the exact text of a finite double *)

Lemma of_uint_to_uint (p : positive) : N.of_uint (Pos.to_uint p) = Npos p.
Proof. unfold N.of_uint. by rewrite DecimalPos.Unsigned.of_to. Qed.

Lemma magnitude_text_shape (m : positive) (e : Z) :
  (0 ≤ e ∧ ∃ p, Zpos p = Zpos m * 2 ^ e ∧ magnitude_text m e = digits_of (Pos.to_uint p)) ∨
  (e < 0 ∧ ∃ p k, Zpos p = Zpos m * 5 ^ (- e) ∧ Zpos k = - e ∧
     magnitude_text m e = with_exponent (Pos.to_uint p) (Pos.to_uint k)).
Proof.
  unfold magnitude_text. destruct (Z.leb_spec 0 e) as [He|He]; [left|right]; (split; [done|]).
  - pose proof (pow2_pos e He). destruct (Zpos m * 2 ^ e) as [|p|p] eqn:E; [lia| |lia].
    exists p. by rewrite digits_string_pos.
  - assert (0 < 5 ^ (- e)) by (apply Z.pow_pos_nonneg; lia).
    destruct (Zpos m * 5 ^ (- e)) as [|p|p] eqn:E; [lia| |lia].
    destruct (- e) as [|k|k] eqn:Ek; [lia| |lia].
    exists p, k. by rewrite !digits_string_pos.
Qed.

Lemma magnitude_text_valid (m : positive) (e : Z) : valid_float (magnitude_text m e) = true.
Proof.
  destruct (magnitude_text_shape m e) as [[_ (p & _ & ->)]|[_ (p & k & _ & _ & ->)]].
  - apply (valid_float_digits false), DecimalPos.Unsigned.to_uint_nonnil.
  - apply valid_float_exponent;
      [apply headed_to_uint | apply DecimalPos.Unsigned.to_uint_nonnil].
Qed.

(** The exact text of a finite double of the format reads as its
    magnitude. *)
Lemma magnitude_text_reads (m : positive) (e : Z) :
  bounded prec emax m e = true → dNumber (magnitude_text m e) = S754_finite false m e.
Proof.
  intros Hb. unfold dNumber.
  destruct (magnitude_text_shape m e) as [[He (p & Hp & ->)]|[He (p & k & Hp & Hk & ->)]].
  - rewrite (read_numeral_digits false) by apply DecimalPos.Unsigned.to_uint_nonnil.
    cbn [of_numeral]. rewrite of_uint_to_uint, <- (of_decimal_int m e Hb He), <- Hp. done.
  - rewrite read_numeral_exponent
      by (apply headed_to_uint || apply DecimalPos.Unsigned.to_uint_nonnil).
    cbn [of_numeral]. rewrite !of_uint_to_uint. cbn [Z.of_N]. rewrite Hk, Z.opp_involutive.
    replace e with (- - e) in Hb |- * by lia.
    rewrite <- (of_decimal_frac m (- e) Hb) by lia. rewrite Z.opp_involutive, <- Hp. done.
Qed.

(** ** Lemmas: arithmetic that is exact on every finite double *)

Lemma lit_zero : (num_lit 0 : double) = S754_zero false.
Proof. done. Qed.

Lemma compare_refl (s : bool) (m : positive) (e : Z) :
  SFcompare (S754_finite s m e) (S754_finite s m e) = Some Eq.
Proof. cbn. rewrite Z.compare_refl, Pos.compare_cont_refl. by destruct s. Qed.

(** A finite number minus itself is zero. *)
Lemma dsub_diag (x : double) : is_finite x = true → dsub x x = S754_zero false.
Proof.
  destruct x as [[]|[]| |s m e]; try done. intros _. unfold dsub. cbn [SFsub].
  match goal with
  | |- binary_normalize _ _ (?c - ?c) _ _ = _ => by replace (c - c) with 0 by lia
  end.
Qed.

(** A negative number plus its magnitude is zero. *)
Lemma dadd_opp (m : positive) (e : Z) :
  dadd (S754_finite true m e) (S754_finite false m e) = S754_zero false.
Proof.
  unfold dadd. cbn [SFadd cond_Zopp].
  match goal with
  | |- binary_normalize _ _ (- ?c + ?c) _ _ = _ => by replace (- c + c) with 0 by lia
  end.
Qed.

Lemma dge_refl (x : double) : is_finite x = true → dge x x = true.
Proof.
  destruct x as [[]|[]| |s m e]; try done. intros _. unfold dge, SFleb.
  by rewrite compare_refl.
Qed.

(** What is not finite stays so under addition and subtraction. *)
Lemma dadd_nonfinite (x y : double) : is_finite x = false → is_finite (dadd x y) = false.
Proof. by destruct x as [|[]| |], y as [|[]| |]. Qed.

Lemma dsub_nonfinite (x y : double) : is_finite x = false → is_finite (dsub x y) = false.
Proof. by destruct x as [|[]| |], y as [|[]| |]. Qed.

Lemma dsub_nonfinite_r (x y : double) : is_finite y = false → is_finite (dsub x y) = false.
Proof. by destruct x as [|[]| |], y as [|[]| |]. Qed.

(** What is not finite is not zero. *)
Lemma dseq_nonfinite (x : double) : is_finite x = false → dseq x (num_lit 0) = false.
Proof. by destruct x as [|[]| |]. Qed.

(** Zero is neutral, and comparisons with zero read the sign. *)
Lemma dadd_zero_l (z s : bool) (m : positive) (e : Z) :
  dadd (S754_zero z) (S754_finite s m e) = S754_finite s m e.
Proof. done. Qed.

Lemma dsub_zero_l (z s : bool) (m : positive) (e : Z) :
  dsub (S754_zero z) (S754_finite s m e) = S754_finite (negb s) m e.
Proof. done. Qed.

Lemma dseq_finite (s : bool) (m : positive) (e : Z) :
  dseq (S754_finite s m e) (num_lit 0) = false.
Proof. by destruct s. Qed.

Lemma dseq_zero (z : bool) : dseq (S754_zero z) (num_lit 0) = true.
Proof. done. Qed.

Lemma dgt_positive (m : positive) (e : Z) : dgt (S754_finite false m e) (num_lit 0) = true.
Proof. done. Qed.

Lemma dge_zero_negative (z : bool) (m : positive) (e : Z) :
  dge (S754_zero z) (S754_finite true m e) = true.
Proof. done. Qed.

(** ** Examples *)

(** One half, the least positive double and the greatest double, written
    exactly and read back. *)
Example magnitude_text_half :
  dNumber "0.5" = S754_finite false 4503599627370496 (-53) ∧
  magnitude_text 4503599627370496 (-53) = "5" +:+ zeros 52 +:+ "e-53" ∧
  magnitude_text 4503599627370496 1 = "9007199254740992".
Proof. by vm_compute. Qed.

Example magnitude_text_extremes :
  dNumber (magnitude_text 1 (-1074)) = S754_finite false 1 (-1074) ∧
  dNumber (magnitude_text 9007199254740991 971) = S754_finite false 9007199254740991 971.
Proof. by vm_compute. Qed.
