(* ===== verification/DoubleValid.v ===== *)
(** * DoubleValid: the arithmetic stays in the format

    A finite double is a mantissa and an exponent; it belongs to binary64
    when the exponent is the canonical one for the mantissa's digits and is
    in range ([valid_binary] of the Standard Library, [well_formed] here).
    Comparison presupposes it: [SFcompare] compares exponents first.

    This file shows that everything the program computes is such a double:
    rounding yields one from every mantissa whose exponent is not above the
    canonical one ([binary_round_aux_valid]); sums and differences align
    their operands first, so they satisfy that ([dadd_valid], [dsub_valid]);
    and the quotient that reading a decimal fraction divides out has
    enough digits ([div_core_fits]), so [Number] of any text is one
    ([dNumber_well_formed]). *)

From S2P Require Import Prelude JsNum Double DoubleText DoubleExact.
From Stdlib Require Import SpecFloat.

#[local] Open Scope Z_scope.
#[local] Abbreviation digits := Double.digits.

(** ** Lemmas: binary digits of a quotient by a power of two *)

Lemma Zdigits2_nonneg (m : Z) : 0 ≤ Zdigits2 m.
Proof. destruct m; cbn; lia. Qed.

Lemma Zdigits2_bounds (m : Z) :
  0 < m → 2 ^ (Zdigits2 m - 1) ≤ m < 2 ^ Zdigits2 m.
Proof. destruct m as [|p|p]; try lia. intros _. apply digits_bounds. Qed.

Lemma Zdigits2_unique (m d : Z) :
  0 < d → 2 ^ (d - 1) ≤ m < 2 ^ d → Zdigits2 m = d.
Proof.
  intros Hd Hm. assert (0 < m) by (pose proof (pow2_pos (d - 1)); lia).
  destruct m as [|p|p]; try lia. by apply digits_unique.
Qed.

Lemma Zdigits2_mono (m n : Z) : 0 ≤ m ≤ n → Zdigits2 m ≤ Zdigits2 n.
Proof.
  intros [Hm Hn]. destruct (decide (m = 0)) as [->|]; [apply Zdigits2_nonneg|].
  pose proof (Zdigits2_bounds m ltac:(lia)) as [Hl _].
  pose proof (Zdigits2_bounds n ltac:(lia)) as [_ Hu].
  destruct (decide (Zdigits2 m ≤ Zdigits2 n)); [done|].
  pose proof (pow2_le (Zdigits2 n) (Zdigits2 m - 1)).
  pose proof (Zdigits2_nonneg n). lia.
Qed.

(** The digits that a shift to the right leaves. *)
Lemma Zdigits2_div (m n : Z) :
  0 ≤ n → 2 ^ n ≤ m → Zdigits2 (m / 2 ^ n) = Zdigits2 m - n.
Proof.
  intros Hn Hm. pose proof (pow2_pos n Hn) as Hp.
  pose proof (Zdigits2_bounds m ltac:(lia)) as [Hl Hu].
  assert (n < Zdigits2 m) as Hd.
  { destruct (decide (n < Zdigits2 m)); [done|].
    pose proof (pow2_le (Zdigits2 m) n). pose proof (Zdigits2_nonneg m). lia. }
  apply Zdigits2_unique; [lia|]. split.
  - apply Z.div_le_lower_bound; [done|].
    rewrite Z.mul_comm, <- Z.pow_add_r by lia.
    by replace (Zdigits2 m - n - 1 + n) with (Zdigits2 m - 1) by lia.
  - apply Z.div_lt_upper_bound; [done|]. rewrite <- Z.pow_add_r by lia.
    by replace (n + (Zdigits2 m - n)) with (Zdigits2 m) by lia.
Qed.

(** ** Lemmas: what a shift to the right leaves of the mantissa *)

Lemma shr_1_m (mrs : shr_record) : 0 ≤ shr_m mrs → shr_m (shr_1 mrs) = shr_m mrs / 2.
Proof.
  destruct mrs as [[|[p|p|]|p] r s]; cbn [shr_m shr_1]; try lia; intros _.
  - done.
  - rewrite Pos2Z.inj_xI. apply Z.div_unique with 1; lia.
  - rewrite Pos2Z.inj_xO. apply Z.div_unique with 0; lia.
  - done.
Qed.

Lemma pow2_xO (n : positive) : 2 ^ Zpos n~0 = 2 ^ Zpos n * 2 ^ Zpos n.
Proof. rewrite <- Z.pow_add_r by lia. f_equal. lia. Qed.

Lemma pow2_xI (n : positive) : 2 ^ Zpos n~1 = 2 * (2 ^ Zpos n * 2 ^ Zpos n).
Proof.
  rewrite <- pow2_xO. replace (Zpos n~1) with (Z.succ (Zpos n~0)) by lia.
  apply Z.pow_succ_r. lia.
Qed.

Lemma iter_shr_1_m (n : positive) (mrs : shr_record) :
  0 ≤ shr_m mrs → shr_m (iter_pos shr_1 n mrs) = shr_m mrs / 2 ^ Zpos n.
Proof.
  revert mrs. induction n as [n IH|n IH|]; intros mrs Hm; cbn [iter_pos].
  - rewrite !IH, shr_1_m by (repeat first [apply iter_shr_1_nonneg | apply shr_1_nonneg | done]).
    rewrite !Z.div_div by (pose proof (pow2_pos (Zpos n)); lia). by rewrite pow2_xI.
  - rewrite !IH by (repeat first [apply iter_shr_1_nonneg | done]).
    rewrite Z.div_div by (pose proof (pow2_pos (Zpos n)); lia). by rewrite pow2_xO.
  - by rewrite shr_1_m.
Qed.

(** ** Lemmas: rounding yields a canonical mantissa *)

(** A mantissa below the power of two has at most that many digits. *)
Lemma Zdigits2_below (m n : Z) : 0 ≤ m < 2 ^ n → 0 ≤ n → Zdigits2 m ≤ n.
Proof.
  intros [Hm Hn] Hp. destruct (decide (m = 0)) as [->|]; [done|].
  pose proof (Zdigits2_bounds m ltac:(lia)) as [Hl _].
  destruct (decide (Zdigits2 m ≤ n)); [done|].
  pose proof (pow2_le n (Zdigits2 m - 1)). lia.
Qed.

(** Where the exponent is not above the one of the format, the shift that
    brings it there leaves a mantissa for which the exponent is canonical.
    This includes the mantissa 0, which the shift leaves at the least
    exponent only. *)
Lemma shr_fexp_fits (m e : Z) (l : location) :
  0 ≤ m → e ≤ fexp prec emax (Zdigits2 m + e) →
  fexp prec emax (Zdigits2 (shr_m (shr_fexp prec emax m e l).1) +
                  (shr_fexp prec emax m e l).2) = (shr_fexp prec emax m e l).2.
Proof.
  intros Hm He. unfold shr_fexp, shr.
  assert (shr_m (shr_record_of_loc m l) = m) as Hr by by destruct l as [|[]].
  destruct (fexp _ _ _ - e) as [|n|n] eqn:En; cbn [fst snd]; [|
    |lia].
  - rewrite Hr. lia.
  - rewrite iter_shr_1_m, Hr by lia. destruct (decide (2 ^ Zpos n ≤ m)) as [Hn|Hn].
    + rewrite Zdigits2_div by lia.
      replace (Zdigits2 m - Zpos n + (e + Zpos n)) with (Zdigits2 m + e) by lia. lia.
    + rewrite Z.div_small by lia.
      pose proof (Zdigits2_below m (Zpos n) ltac:(lia) ltac:(lia)).
      cbn [Zdigits2]. unfold fexp, SpecFloat.emin, emax, prec in *. lia.
Qed.

(** Rounding to nearest keeps the mantissa or takes the next. *)
Lemma round_nearest_even_next (m : Z) (l : location) :
  m ≤ round_nearest_even m l ≤ m + 1.
Proof. destruct l as [|[]]; cbn; [lia| |lia|lia]. case_if; lia. Qed.

(** Rounding yields a double of the format, from every mantissa whose
    exponent is not above the one of the format. *)
Lemma binary_round_aux_valid (sx : bool) (mx ex : Z) (lx : location) :
  0 ≤ mx → ex ≤ fexp prec emax (Zdigits2 mx + ex) →
  valid_binary prec emax (binary_round_aux prec emax sx mx ex lx) = true.
Proof.
  intros Hm He. unfold binary_round_aux.
  pose proof (shr_fexp_fits mx ex lx Hm He) as H1.
  pose proof (shr_fexp_nonneg mx ex lx Hm) as N1.
  destruct (shr_fexp prec emax mx ex lx) as [mrs' e']. cbn [fst snd] in H1, N1.
  pose proof (round_nearest_even_next (shr_m mrs') (loc_of_shr_record mrs')) as Hr.
  set (m2 := round_nearest_even _ _) in *.
  assert (e' ≤ fexp prec emax (Zdigits2 m2 + e')) as He'.
  { rewrite <- H1 at 1. apply fexp_mono. pose proof (Zdigits2_mono (shr_m mrs') m2). lia. }
  pose proof (shr_fexp_fits m2 e' loc_Exact ltac:(lia) He') as H2.
  pose proof (shr_fexp_nonneg m2 e' loc_Exact ltac:(lia)) as N2.
  destruct (shr_fexp prec emax m2 e' loc_Exact) as [mrs'' e'']. cbn [fst snd] in H2, N2.
  destruct (shr_m mrs'') as [|m|m]; [done| |done].
  case_if; [|done]. cbn [valid_binary]. unfold bounded, canonical_mantissa.
  apply andb_true_intro. split; [by apply Z.eqb_eq | done].
Qed.

(** ** Lemmas: the arithmetic yields doubles of the format *)

Lemma binary_round_valid (sx : bool) (mx : positive) (ex : Z) :
  valid_binary prec emax (binary_round prec emax sx mx ex) = true.
Proof.
  unfold binary_round, shl_align. fold (digits mx).
  destruct (fexp prec emax (digits mx + ex) - ex) as [|d|d] eqn:Ed;
    apply binary_round_aux_valid; cbn [Zdigits2]; try fold (digits mx); try lia.
  fold (digits (Pos.iter xO mx d)).
  replace (Pos.iter xO mx d) with (Z.to_pos (Zpos mx * 2 ^ Zpos d))
    by (apply Pos2Z.inj; rewrite iter_xO, Zpos_shift by lia; done).
  rewrite digits_shift by lia. apply Z.eq_le_incl, eq_sym. f_equal. lia.
Qed.

Lemma binary_normalize_valid (m e : Z) (szero : bool) :
  valid_binary prec emax (binary_normalize prec emax m e szero) = true.
Proof. destruct m; [done|apply binary_round_valid..]. Qed.

Lemma of_Z_valid (z : Z) : well_formed (of_Z z) = true.
Proof. apply binary_normalize_valid. Qed.

Lemma dadd_valid (x y : double) :
  well_formed x = true → well_formed y = true → well_formed (dadd x y) = true.
Proof.
  unfold well_formed, dadd. destruct x as [[]|[]| |sx mx ex], y as [[]|[]| |sy my ey];
    try done; intros _ _; apply binary_normalize_valid.
Qed.

Lemma dsub_valid (x y : double) :
  well_formed x = true → well_formed y = true → well_formed (dsub x y) = true.
Proof.
  unfold well_formed, dsub. destruct x as [[]|[]| |sx mx ex], y as [[]|[]| |sy my ey];
    try done; intros _ _; apply binary_normalize_valid.
Qed.

(** ** Lemmas: the quotient of a division has the digits that rounding needs *)

Lemma pow2_lt_inv (a b : Z) : 0 ≤ b → 2 ^ a < 2 ^ b → a < b.
Proof.
  intros Hb H. destruct (decide (a < b)); [done|]. pose proof (pow2_le b a). lia.
Qed.

Lemma Zdigits2_pos (m : Z) : 0 < m → 1 ≤ Zdigits2 m.
Proof. intros Hm. apply (Zdigits2_mono 1 m). lia. Qed.

Lemma quotient_digits (n d s : Z) :
  0 < n → 0 < d → 0 ≤ s → d ≤ n * 2 ^ s →
  Zdigits2 n + s - Zdigits2 d ≤ Zdigits2 (n * 2 ^ s / d).
Proof.
  intros Hn Hd Hs Hq. pose proof (pow2_pos s Hs) as Hp.
  pose proof (Zdigits2_bounds n Hn) as [Hl _]. pose proof (Zdigits2_bounds d Hd) as [_ Hu].
  pose proof (Zdigits2_pos n Hn). pose proof (Zdigits2_pos d Hd).
  assert (1 ≤ n * 2 ^ s / d) as H1 by (apply Z.div_le_lower_bound; lia).
  pose proof (Zdigits2_bounds (n * 2 ^ s / d) ltac:(lia)) as [_ Hqu].
  pose proof (Zdigits2_pos (n * 2 ^ s / d) ltac:(lia)).
  destruct (decide (0 ≤ Zdigits2 n - 1 + s - Zdigits2 d)) as [Ht|Ht]; [|lia].
  remember (Zdigits2 n - 1 + s - Zdigits2 d) as t eqn:Et.
  assert (2 ^ t ≤ n * 2 ^ s / d) as Hlow.
  { apply Z.div_le_lower_bound; [done|].
    assert (2 ^ Zdigits2 d * 2 ^ t = 2 ^ (Zdigits2 n - 1) * 2 ^ s) as Hpow
      by (rewrite <- !Z.pow_add_r by lia; f_equal; lia).
    pose proof (pow2_pos t Ht). nia. }
  pose proof (pow2_lt_inv t (Zdigits2 (n * 2 ^ s / d))). lia.
Qed.

Lemma quotient_zero (n d s : Z) :
  0 < n → 0 < d → 0 ≤ s → n * 2 ^ s < d → Zdigits2 n + s ≤ Zdigits2 d.
Proof.
  intros Hn Hd Hs Hq. pose proof (pow2_pos s Hs) as Hp.
  pose proof (Zdigits2_bounds n Hn) as [Hl _]. pose proof (Zdigits2_bounds d Hd) as [_ Hu].
  pose proof (Zdigits2_pos n Hn). pose proof (Zdigits2_pos d Hd).
  assert (2 ^ (Zdigits2 n - 1 + s) < 2 ^ Zdigits2 d) as Hlt
    by (rewrite Z.pow_add_r by lia; nia).
  apply pow2_lt_inv in Hlt; lia.
Qed.

(** The division hands rounding a quotient whose exponent is not above the
    one of the format. *)
Lemma div_core_fits (m1 m2 : Z) :
  0 < m1 → 0 < m2 →
  (SFdiv_core_binary prec emax m1 0 m2 0).1.2 ≤
    fexp prec emax (Zdigits2 (SFdiv_core_binary prec emax m1 0 m2 0).1.1 +
                    (SFdiv_core_binary prec emax m1 0 m2 0).1.2).
Proof.
  intros H1 H2. unfold SFdiv_core_binary.
  set (e' := IntDef.Z.min _ _).
  assert (e' ≤ 0 ∧ e' ≤ fexp prec emax (Zdigits2 m1 - Zdigits2 m2)) as [He0 He]
    by (subst e'; change IntDef.Z.min with Z.min;
        replace (Zdigits2 m1 + 0 - (Zdigits2 m2 + 0)) with (Zdigits2 m1 - Zdigits2 m2) by lia;
        lia).
  match goal with |- context [IntDef.Z.div_eucl ?a _] => set (m' := a) end.
  assert (m' = m1 * 2 ^ (- e')) as Hm'.
  { subst m'. change (IntDef.Z.sub (IntDef.Z.sub 0 0) e') with (0 - 0 - e').
    destruct (0 - 0 - e') as [|s|s] eqn:Es; [|
      |lia].
    - replace (- e') with 0 by lia. lia.
    - rewrite Z.shiftl_mul_pow2 by lia. do 2 f_equal. lia. }
  change IntDef.Z.div_eucl with Z.div_eucl.
  rewrite (surjective_pairing (Z.div_eucl m' m2)). cbn [fst snd].
  change (Z.div_eucl m' m2).1 with (m' / m2). rewrite Hm'.
  destruct (decide (m2 ≤ m1 * 2 ^ (- e'))) as [Hq|Hq].
  - pose proof (quotient_digits m1 m2 (- e') H1 H2 ltac:(lia) Hq).
    etrans; [exact He|]. apply fexp_mono. lia.
  - pose proof (quotient_zero m1 m2 (- e') H1 H2 ltac:(lia) ltac:(lia)).
    rewrite Z.div_small by (pose proof (pow2_pos (- e')); nia). cbn [Zdigits2].
    unfold fexp, SpecFloat.emin, emax, prec in *. lia.
Qed.

(** ** Lemmas: what is read is a double of the format *)

Lemma of_decimal_valid (neg : bool) (m : N) (e : Z) : well_formed (of_decimal neg m e) = true.
Proof.
  unfold of_decimal. destruct (N.eqb_spec m 0) as [|Hm0]; [done|].
  case_if; [apply of_Z_valid|]. assert (0 < Z.of_N m) as Hm by lia.
  assert (0 < 10 ^ (- e)) as Hd by (apply Z.pow_pos_nonneg; lia).
  pose proof (div_core_fits _ _ Hm Hd) as Hf.
  pose proof (div_core_nonneg (Z.of_N m) (10 ^ (- e)) ltac:(lia) Hd) as Hq.
  destruct (SFdiv_core_binary _ _ _ _ _ _) as [[q e2] loc].
  by apply binary_round_aux_valid.
Qed.

(** [Number] of any text is a double of the format. *)
Lemma dNumber_well_formed (s : string) : well_formed (dNumber s) = true.
Proof.
  unfold dNumber. destruct (read_numeral s) as [[neg m e|neg]|]; [|done..].
  apply of_decimal_valid.
Qed.
