(* ===== verification/Dom.v ===== *)
(** * Dom: what the component touches outside its account

    [App] creates four refs (App-ref.js 30-36), each attached to one number
    input of the page; the handlers read an input as [ref.current.value] and
    the reducer writes [withdrawInput.current.value].  The reducer also writes
    to the console.  [Dom] is that store: the current value of each of the
    four inputs, a string as the DOM has it, and the console's lines, oldest
    first.  The operations are computations of the monad [Eff] over [Dom].

    The inputs have [type="number"] (114, 137, 160, 183).  Such an input
    keeps only text that is a valid floating-point number: whatever else is
    assigned to its [value], by a script or by the user, becomes the empty
    string ([sanitize], the value sanitization algorithm of HTML). *)

From S2P Require Import Prelude JsNum.

(** The refs of [App]. *)
Inductive Ref : Type :=
| openInput
| depositInput
| withdrawInput
| loanInput.

#[export] Instance Ref_eq_dec : EqDecision Ref.
Proof. solve_decision. Defined.

(** The value of the input behind each ref. *)
Record Inputs : Type := mkInputs {
  openValue : string;
  depositValue : string;
  withdrawValue : string;
  loanValue : string;
}.

Record Dom : Type := mkDom {
  inputs : Inputs;
  console : list string;
}.

#[export] Instance Inputs_eq_dec : EqDecision Inputs.
Proof. solve_decision. Defined.

#[export] Instance Dom_eq_dec : EqDecision Dom.
Proof. solve_decision. Defined.

(** [new Error(message)] *)
Record Error : Type := mkError { message : string }.

#[export] Instance Error_eq_dec : EqDecision Error.
Proof. solve_decision. Defined.

(** [ref.current.value] *)
Definition value_of (r : Ref) (i : Inputs) : string :=
  match r with
  | openInput => openValue i
  | depositInput => depositValue i
  | withdrawInput => withdrawValue i
  | loanInput => loanValue i
  end.

(** [ref.current.value = v] *)
Definition set_value_of (r : Ref) (v : string) (i : Inputs) : Inputs :=
  match r with
  | openInput => mkInputs v (depositValue i) (withdrawValue i) (loanValue i)
  | depositInput => mkInputs (openValue i) v (withdrawValue i) (loanValue i)
  | withdrawInput => mkInputs (openValue i) (depositValue i) v (loanValue i)
  | loanInput => mkInputs (openValue i) (depositValue i) (withdrawValue i) v
  end.

(** What a number input makes of a string assigned to its value. *)
Definition sanitize (v : string) : string := if valid_float v then v else "".

#[global] Arguments sanitize : simpl never.

(** What an input of a given [type] keeps of a string assigned to its
    value: only number inputs sanitise. *)
Definition kept (type v : string) : string :=
  if String.eqb type "number" then sanitize v else v.

(** The operations as computations. *)
Definition read_value (r : Ref) : Eff Dom Error string :=
  d ← get; mret (value_of r (inputs d)).

Definition write_value (r : Ref) (v : string) : Eff Dom Error unit :=
  modify (λ d, mkDom (set_value_of r (sanitize v) (inputs d)) (console d)).

Definition console_log (msg : string) : Eff Dom Error unit :=
  modify (λ d, mkDom (inputs d) (console d ++ [msg])).

(** ** Lemmas: reading after writing *)

Lemma value_of_set_eq (r : Ref) (v : string) (i : Inputs) :
  value_of r (set_value_of r v i) = v.
Proof. by destruct r. Qed.

Lemma value_of_set_ne (r r' : Ref) (v : string) (i : Inputs) :
  r ≠ r' → value_of r' (set_value_of r v i) = value_of r' i.
Proof. by destruct r, r'. Qed.

Lemma set_value_of_same (r : Ref) (i : Inputs) :
  set_value_of r (value_of r i) i = i.
Proof. by destruct r, i. Qed.

Lemma set_value_of_twice (r : Ref) (v v' : string) (i : Inputs) :
  set_value_of r v' (set_value_of r v i) = set_value_of r v' i.
Proof. by destruct r. Qed.

(** Two input stores with the same four values are the same store. *)
Lemma Inputs_ext (i j : Inputs) :
  (∀ r, value_of r i = value_of r j) → i = j.
Proof.
  intros Hv. destruct i, j.
  pose proof (Hv openInput). pose proof (Hv depositInput).
  pose proof (Hv withdrawInput). pose proof (Hv loanInput).
  simplify_eq/=. done.
Qed.

#[export] Hint Rewrite value_of_set_eq set_value_of_same set_value_of_twice : bank_rw.
#[export] Hint Rewrite value_of_set_ne using done : bank_rw.

(** Running the operations. *)
Lemma read_value_run (r : Ref) (d : Dom) :
  read_value r d = (Ok (value_of r (inputs d)), d).
Proof. done. Qed.

Lemma write_value_run (r : Ref) (v : string) (d : Dom) :
  write_value r v d = (Ok tt, mkDom (set_value_of r (sanitize v) (inputs d)) (console d)).
Proof. done. Qed.

(** ** Lemmas: sanitisation *)

Lemma sanitize_valid (v : string) : valid_float v = true → sanitize v = v.
Proof. unfold sanitize. by intros ->. Qed.

Lemma sanitize_empty : sanitize "" = "".
Proof. done. Qed.

(** Sanitising twice is sanitising once. *)
Lemma sanitize_idemp (v : string) : sanitize (sanitize v) = sanitize v.
Proof. unfold sanitize. by destruct (valid_float v) eqn:E; [rewrite E|]. Qed.

(** A printed integer passes. *)
Lemma sanitize_String `{JsExact num} (z : Z) :
  sanitize (js_String (num_lit z : num)) = js_String (num_lit z : num).
Proof. apply sanitize_valid, String_valid. Qed.

#[export] Hint Rewrite sanitize_idemp : bank_rw.
#[export] Hint Rewrite @sanitize_String using typeclasses eauto : bank_rw.

Lemma console_log_run (msg : string) (d : Dom) :
  console_log msg d = (Ok tt, mkDom (inputs d) (console d ++ [msg])).
Proof. done. Qed.
