(* ===== verification/Account.v ===== *)
(** * Account: the account state and its reducer

    [AccountState] and [initialState] are App-ref.js 22-26; [bankReducer] is
    the function of lines 38-90.  An action is the object the handlers
    dispatch, [{type, amount}]; the reducer switches on the string [type] and
    throws on a string it does not know.  Each [case] of the switch is one
    definition here ([openAccount], [deposit], [withdraw], [requestLoan],
    [payLoan], [closeAccount], the names the program's own instructions give
    the transitions) and [bankReducer] selects among them as the switch does.

    The reducer runs in [Eff Dom Error]: it logs to the console when an
    account is opened and when funds are insufficient, in the latter case it
    also overwrites the withdraw input, and it throws [Error] on an unknown
    type.  An object spread [{...state, f: v}] is written as the record with
    the fields not named copied from [state].

    An action whose [amount] is absent reads [undefined], which arithmetic and
    comparison turn into [NaN]; in this model such an action carries the
    instance's [NaN].  [payLoan] and [closeAccount] never read [amount]. *)

From S2P Require Import Prelude JsNum Dom.

#[local] Open Scope js_scope.

(** ** Data *)

Record AccountState (num : Type) : Type := mkAccount {
  balance : num;
  loan : num;
  isActive : bool;
}.

Arguments mkAccount {num} balance loan isActive.
Arguments balance {num} a.
Arguments loan {num} a.
Arguments isActive {num} a.

Record Action (num : Type) : Type := mkAction {
  type : string;
  amount : num;
}.

Arguments mkAction {num} type amount.
Arguments type {num} a.
Arguments amount {num} a.

#[export] Instance AccountState_eq_dec `{EqDecision num} : EqDecision (AccountState num).
Proof. solve_decision. Defined.

#[export] Instance Action_eq_dec `{EqDecision num} : EqDecision (Action num).
Proof. solve_decision. Defined.

(** The action types the switch knows, in its order. *)
Definition action_types : list string :=
  ["OPEN_ACCOUNT"; "DEPOSIT"; "WITHDRAW"; "REQUEST_LOAN"; "PAY_LOAN"; "CLOSE_ACCOUNT"].

(** ** Operations *)

Section Reducer.
Context `{JsNumber num}.
Implicit Types (state : AccountState num) (action : Action num).

Definition initialState : AccountState num :=
  {| balance := num_lit 0; loan := num_lit 0; isActive := false |}.

(** case "OPEN_ACCOUNT" *)
Definition openAccount state action : Eff Dom Error (AccountState num) :=
  if negb (isActive state) then
    console_log "account opened";;
    mret {| balance := amount action; loan := loan state; isActive := true |}
  else mret state.

(** case "DEPOSIT" *)
Definition deposit state action : Eff Dom Error (AccountState num) :=
  mret {| balance := balance state + amount action;
          loan := loan state; isActive := isActive state |}.

(** case "WITHDRAW" *)
Definition withdraw state action : Eff Dom Error (AccountState num) :=
  if balance state >= amount action then
    mret {| balance := balance state - amount action;
            loan := loan state; isActive := isActive state |}
  else
    console_log "Insufficient funds";;
    write_value withdrawInput (js_String (balance state));;
    mret state.

(** case "REQUEST_LOAN" *)
Definition requestLoan state action : Eff Dom Error (AccountState num) :=
  if loan state === num_lit 0 then
    mret {| balance := balance state + amount action;
            loan := loan state + amount action;
            isActive := isActive state |}
  else mret state.

(** case "PAY_LOAN" *)
Definition payLoan state action : Eff Dom Error (AccountState num) :=
  if loan state !== num_lit 0 then
    mret {| balance := balance state - loan state;
            loan := num_lit 0; isActive := isActive state |}
  else mret state.

(** case "CLOSE_ACCOUNT" *)
Definition closeAccount state action : Eff Dom Error (AccountState num) :=
  if (balance state === num_lit 0) && (loan state === num_lit 0) then
    mret {| balance := num_lit 0; loan := num_lit 0; isActive := false |}
  else mret state.

(** The switch. *)
Definition bankReducer state action : Eff Dom Error (AccountState num) :=
  if String.eqb (type action) "OPEN_ACCOUNT" then openAccount state action
  else if String.eqb (type action) "DEPOSIT" then deposit state action
  else if String.eqb (type action) "WITHDRAW" then withdraw state action
  else if String.eqb (type action) "REQUEST_LOAN" then requestLoan state action
  else if String.eqb (type action) "PAY_LOAN" then payLoan state action
  else if String.eqb (type action) "CLOSE_ACCOUNT" then closeAccount state action
  else throw (mkError "Unknown Transaction").

(** The state a dispatch leaves: the reducer's result, or the state as it was
    when the reducer threw. *)
Definition next_state state action (d : Dom) : AccountState num :=
  match (bankReducer state action d).1 with
  | Ok state' => state'
  | Throw _ => state
  end.

End Reducer.

(** ** The branch the switch takes *)

(** [taken state action m]: [m] is the code the switch runs for [action]. *)
Inductive taken `{JsNumber num} (state : AccountState num) (action : Action num)
  : Eff Dom Error (AccountState num) → Prop :=
| taken_open : type action = "OPEN_ACCOUNT" →
    taken state action (openAccount state action)
| taken_deposit : type action = "DEPOSIT" →
    taken state action (deposit state action)
| taken_withdraw : type action = "WITHDRAW" →
    taken state action (withdraw state action)
| taken_loan : type action = "REQUEST_LOAN" →
    taken state action (requestLoan state action)
| taken_pay : type action = "PAY_LOAN" →
    taken state action (payLoan state action)
| taken_close : type action = "CLOSE_ACCOUNT" →
    taken state action (closeAccount state action)
| taken_default : type action ∉ action_types →
    taken state action (throw (mkError "Unknown Transaction")).

(** [applied state action]: the guard of the action's case holds, so the
    reducer returns a new object rather than [state]. *)
Definition applied `{JsNumber num} (state : AccountState num) (action : Action num) : bool :=
  if String.eqb (type action) "OPEN_ACCOUNT" then negb (isActive state)
  else if String.eqb (type action) "DEPOSIT" then true
  else if String.eqb (type action) "WITHDRAW" then balance state >= amount action
  else if String.eqb (type action) "REQUEST_LOAN" then loan state === num_lit 0
  else if String.eqb (type action) "PAY_LOAN" then loan state !== num_lit 0
  else if String.eqb (type action) "CLOSE_ACCOUNT" then
    (balance state === num_lit 0) && (loan state === num_lit 0)
  else false.

(** An account whose balance and loan are integers. *)
Definition int_state `{JsNumber num} (state : AccountState num) : Prop :=
  is_int (balance state) ∧ is_int (loan state).

(** ** Theorems for every number implementation *)

Section ReducerFacts.
Context `{JsNumber num}.
Implicit Types (state : AccountState num) (action : Action num) (d : Dom).

Lemma bankReducer_taken state action :
  taken state action (bankReducer state action).
Proof.
  unfold bankReducer.
  repeat match goal with
         | |- context [String.eqb ?a ?b] =>
             destruct (String.eqb_spec a b); [by constructor |]
         end.
  apply taken_default. unfold action_types.
  rewrite !elem_of_cons, elem_of_nil. tauto.
Qed.

(** A type that is none of the switch's cases differs from each of them. *)
Lemma unknown_type_not_taken action :
  type action ∉ action_types →
  type action ≠ "OPEN_ACCOUNT" ∧ type action ≠ "DEPOSIT" ∧
  type action ≠ "WITHDRAW" ∧ type action ≠ "REQUEST_LOAN" ∧
  type action ≠ "PAY_LOAN" ∧ type action ≠ "CLOSE_ACCOUNT".
Proof.
  unfold action_types. rewrite !elem_of_cons, elem_of_nil. naive_solver.
Qed.

(** Every string is one of the six types or none of them. *)
Lemma type_cases (ty : string) :
  ty = "OPEN_ACCOUNT" ∨ ty = "DEPOSIT" ∨ ty = "WITHDRAW" ∨ ty = "REQUEST_LOAN" ∨
  ty = "PAY_LOAN" ∨ ty = "CLOSE_ACCOUNT" ∨ ty ∉ action_types.
Proof.
  destruct (decide (ty ∈ action_types)) as [Hin|Hnin]; [|tauto].
  unfold action_types in Hin. rewrite !elem_of_cons, elem_of_nil in Hin. tauto.
Qed.

(** What each case does to the store and returns. *)
Lemma openAccount_run state action d :
  openAccount state action d =
    if isActive state then (Ok state, d)
    else (Ok (mkAccount (amount action) (loan state) true),
          mkDom (inputs d) (console d ++ ["account opened"])).
Proof. unfold openAccount. by destruct (isActive state). Qed.

Lemma deposit_run state action d :
  deposit state action d =
    (Ok (mkAccount (balance state + amount action) (loan state) (isActive state)), d).
Proof. done. Qed.

Lemma withdraw_run state action d :
  withdraw state action d =
    if balance state >= amount action
    then (Ok (mkAccount (balance state - amount action) (loan state) (isActive state)), d)
    else (Ok state,
          mkDom (set_value_of withdrawInput (sanitize (js_String (balance state))) (inputs d))
                (console d ++ ["Insufficient funds"])).
Proof. unfold withdraw. by case_if. Qed.

Lemma requestLoan_run state action d :
  requestLoan state action d =
    if loan state === num_lit 0
    then (Ok (mkAccount (balance state + amount action) (loan state + amount action)
                        (isActive state)), d)
    else (Ok state, d).
Proof. unfold requestLoan. by case_if. Qed.

Lemma payLoan_run state action d :
  payLoan state action d =
    if loan state === num_lit 0 then (Ok state, d)
    else (Ok (mkAccount (balance state - loan state) (num_lit 0) (isActive state)), d).
Proof. unfold payLoan. by destruct (loan state === num_lit 0). Qed.

Lemma closeAccount_run state action d :
  closeAccount state action d =
    if (balance state === num_lit 0) && (loan state === num_lit 0)
    then (Ok (mkAccount (num_lit 0) (num_lit 0) false), d)
    else (Ok state, d).
Proof. unfold closeAccount. by case_if. Qed.

End ReducerFacts.

Create Rewrite HintDb reducer_run.
#[export] Hint Rewrite @openAccount_run @deposit_run @withdraw_run
  @requestLoan_run @payLoan_run @closeAccount_run : reducer_run.

(** [reducer_cases state action]: one goal per case of the switch, each case's
    code run on the store. *)
Ltac reducer_cases state action :=
  let Ht := fresh "Htype" in
  destruct (bankReducer_taken state action) as [Ht|Ht|Ht|Ht|Ht|Ht|Ht];
  autorewrite with reducer_run.

Section ReducerTheorems.
Context `{JsNumber num}.
Implicit Types (state : AccountState num) (action : Action num) (d : Dom).

(** C4. The reducer throws exactly when the action's type is none of the six
    cases of the switch; the error is "Unknown Transaction" and nothing was
    written before it.  On the six known types it returns a state. *)
Theorem bankReducer_throws state action d :
  match bankReducer state action d with
  | (Throw e, d') =>
      (type action ∉ action_types) ∧ e = mkError "Unknown Transaction" ∧ d' = d
  | (Ok _, _) => type action ∈ action_types
  end.
Proof.
  reducer_cases state action; repeat case_if;
    try (rewrite Htype; unfold action_types; set_solver).
  done.
Qed.

Lemma bankReducer_ok state action d :
  type action ∈ action_types → ∃ state', (bankReducer state action d).1 = Ok state'.
Proof.
  intros Hin. reducer_cases state action; [| | | | | |done];
    repeat case_if; by eexists.
Qed.

(** The reducer's only write to an input is the printed balance, as far as a
    number input keeps it, into the withdraw input, on a refused withdrawal. *)
Lemma bankReducer_inputs state action d :
  inputs (bankReducer state action d).2 = inputs d ∨
  type action = "WITHDRAW" ∧ (balance state >= amount action) = false ∧
  inputs (bankReducer state action d).2 =
    set_value_of withdrawInput (sanitize (js_String (balance state))) (inputs d).
Proof. reducer_cases state action; repeat case_if; cbn; auto. Qed.

(** An action whose guard fails leaves the state as it was. *)
Lemma not_applied_same state action d :
  applied state action = false → next_state state action d = state.
Proof.
  unfold next_state, applied.
  reducer_cases state action; [rewrite Htype; cbn .. | done].
  - by destruct (isActive state).
  - done.
  - by intros ->.
  - by intros ->.
  - by intros ->%negb_false_iff.
  - by intros ->.
Qed.

(** C23. The reducer writes to three places only.  The open, deposit and loan
    inputs keep their values; the console only grows; and the withdraw input
    changes only on a refused withdrawal, to the printed balance as a number
    input keeps it. *)
Theorem bankReducer_frame state action d :
  let d' := (bankReducer state action d).2 in
  openValue (inputs d') = openValue (inputs d) ∧
  depositValue (inputs d') = depositValue (inputs d) ∧
  loanValue (inputs d') = loanValue (inputs d) ∧
  console d `prefix_of` console d' ∧
  (withdrawValue (inputs d') = withdrawValue (inputs d) ∨
   type action = "WITHDRAW" ∧ (balance state >= amount action) = false ∧
   withdrawValue (inputs d') = sanitize (js_String (balance state))).
Proof.
  reducer_cases state action; repeat case_if; cbn;
    repeat split; auto using prefix_app_r; by right.
Qed.

(** C24. Activity changes in two ways only: an open on an inactive account,
    whose balance becomes the amount, and a close on an active account with
    zero balance and zero loan, which gives the initial state. *)
Theorem isActive_changes state action d state' :
  (bankReducer state action d).1 = Ok state' →
  isActive state' ≠ isActive state →
  (type action = "OPEN_ACCOUNT" ∧ isActive state = false ∧
   state' = mkAccount (amount action) (loan state) true) ∨
  (type action = "CLOSE_ACCOUNT" ∧ isActive state = true ∧
   (balance state === num_lit 0) = true ∧ (loan state === num_lit 0) = true ∧
   state' = initialState).
Proof.
  reducer_cases state action; repeat case_if; cbn; intros [= <-]; cbn; try done.
  - intros _. left. by destruct (isActive state).
  - intros Hact. right. apply andb_true_split in Hif as [-> ->].
    by destruct (isActive state).
Qed.

End ReducerTheorems.

(** ** Theorems for exact integer arithmetic *)

(** The account with integer balance [b] and loan [l]. *)
Definition acct `{JsNumber num} (b l : Z) (act : bool) : AccountState num :=
  mkAccount (num_lit b) (num_lit l) act.

Section ExactTheorems.
Context `{JsExact num}.
Implicit Types (state : AccountState num) (action : Action num) (d : Dom).
Implicit Types (a b l : Z) (act : bool).

Lemma int_state_acct state : int_state state ↔ ∃ b l, state = acct b l (isActive state).
Proof.
  split.
  - intros [[b Hb] [l Hl]]. exists b, l. destruct state; cbn in *. by subst.
  - intros (b & l & ->). split; apply is_int_lit.
Qed.

(** The six transitions on integers. *)
Lemma next_state_open b l act a d :
  next_state (acct b l act) (mkAction "OPEN_ACCOUNT" (num_lit a)) d =
    if act then acct b l act else acct a l true.
Proof. unfold next_state, acct; cbn. rewrite openAccount_run. by destruct act. Qed.

Lemma next_state_deposit b l act a d :
  next_state (acct b l act) (mkAction "DEPOSIT" (num_lit a)) d = acct (b + a) l act.
Proof. unfold next_state, acct; cbn. by rewrite add_lit. Qed.

Lemma next_state_withdraw b l act a d :
  next_state (acct b l act) (mkAction "WITHDRAW" (num_lit a)) d =
    if (a <=? b)%Z then acct (b - a) l act else acct b l act.
Proof.
  unfold next_state, acct; cbn. rewrite withdraw_run; cbn.
  rewrite ge_lit, Z.geb_leb, sub_lit. by case_if.
Qed.

Lemma next_state_loan b l act a d :
  next_state (acct b l act) (mkAction "REQUEST_LOAN" (num_lit a)) d =
    if (l =? 0)%Z then acct (b + a) (l + a) act else acct b l act.
Proof.
  unfold next_state, acct; cbn. rewrite requestLoan_run; cbn.
  rewrite seq_lit, !add_lit. by case_if.
Qed.

Lemma next_state_pay b l act (x : num) d :
  next_state (acct b l act) (mkAction "PAY_LOAN" x) d =
    if (l =? 0)%Z then acct b l act else acct (b - l) 0 act.
Proof.
  unfold next_state, acct; cbn. rewrite payLoan_run; cbn.
  rewrite seq_lit, sub_lit. by case_if.
Qed.

Lemma next_state_close b l act (x : num) d :
  next_state (acct b l act) (mkAction "CLOSE_ACCOUNT" x) d =
    if (b =? 0)%Z && (l =? 0)%Z then acct 0 0 false else acct b l act.
Proof.
  unfold next_state, acct; cbn. rewrite closeAccount_run; cbn.
  rewrite !seq_lit. by case_if.
Qed.

Lemma next_state_unknown state action d :
  type action ∉ action_types → next_state state action d = state.
Proof.
  intros Hty. apply not_applied_same. unfold applied.
  apply unknown_type_not_taken in Hty as (?&?&?&?&?&?).
  by rewrite !(proj2 (String.eqb_neq _ _)).
Qed.

Lemma int_state_lit b l act : int_state (acct b l act : AccountState num).
Proof. split; apply is_int_lit. Qed.


(** C29. Taking a loan, paying it back and closing the account move money
    between balance and loan only: balance minus loan is the same before and
    after, whatever the guards decide. *)
Theorem loan_actions_keep_equity b l act a ty d :
  ty ∈ ["REQUEST_LOAN"; "PAY_LOAN"; "CLOSE_ACCOUNT"] →
  ∃ b' l' act', next_state (acct b l act) (mkAction ty (num_lit a)) d = acct b' l' act'
                ∧ (b' - l' = b - l)%Z.
Proof.
  rewrite !elem_of_cons, elem_of_nil. intros [->|[->|[->|[]]]].
  - rewrite next_state_loan. case_if; eexists _, _, _; split; try done; lia.
  - rewrite next_state_pay. case_if; eexists _, _, _; split; try done; lia.
  - rewrite next_state_close. case_if; eexists _, _, _; split; try done.
    apply andb_true_split in Hif as [?%Z.eqb_eq ?%Z.eqb_eq]. lia.
Qed.

(** C30. A withdrawal of a non-negative amount never overdraws: the balance
    ends between 0 and what it was, reduced by the amount when the amount is
    covered and unchanged when it is not; the loan is untouched. *)
Theorem withdraw_never_overdraws b l act a d :
  (0 ≤ b)%Z → (0 ≤ a)%Z →
  ∃ b', next_state (acct b l act) (mkAction "WITHDRAW" (num_lit a)) d = acct b' l act
        ∧ (0 ≤ b' ≤ b)%Z
        ∧ (b' = if (a <=? b)%Z then b - a else b)%Z.
Proof.
  intros Hb Ha. rewrite next_state_withdraw.
  destruct (Z.leb_spec a b); eexists; (split; [done|]); lia.
Qed.

(** C31. One loan at a time: a loan of a non-zero amount on a loan-free
    account is registered in loan and balance, and while it stands every
    further request returns the state unchanged. *)
Theorem loan_exclusive b act a a' d d' :
  a ≠ 0%Z →
  let state1 := next_state (acct b 0 act) (mkAction "REQUEST_LOAN" (num_lit a)) d in
  state1 = acct (b + a) a act ∧
  next_state state1 (mkAction "REQUEST_LOAN" (num_lit a')) d' = state1.
Proof.
  intros Ha. cbn. rewrite next_state_loan. cbn. rewrite !Z.add_0_l.
  split; [done|]. rewrite next_state_loan. by rewrite (proj2 (Z.eqb_neq a 0)).
Qed.

End ExactTheorems.

(** ** Witnesses on the integer instance *)

Definition dom0 : Dom := mkDom (mkInputs "500" "500" "300" "5000") [].

Lemma isActive_changes_witness :
  let state := acct 0 0 true : AccountState znum in
  let action := mkAction "CLOSE_ACCOUNT" NaN in
  (bankReducer state action dom0).1 = Ok initialState ∧
  isActive (initialState : AccountState znum) ≠ isActive state ∧
  type action = "CLOSE_ACCOUNT".
Proof.
  cbn. split; [done|]. split; [done|].
  destruct (isActive_changes (acct 0 0 true : AccountState znum)
              (mkAction "CLOSE_ACCOUNT" NaN) dom0 initialState)
    as [[? _]|[? _]]; done.
Defined.

Lemma loan_actions_keep_equity_witness :
  ∃ b' l' act',
    next_state (acct 100 2000 true : AccountState znum) (mkAction "PAY_LOAN" (Int 0)) dom0
      = acct b' l' act' ∧ (b' - l' = 100 - 2000)%Z.
Proof.
  apply (loan_actions_keep_equity (num := znum) 100 2000 true 0 "PAY_LOAN" dom0).
  set_solver.
Defined.

Lemma withdraw_never_overdraws_witness :
  ∃ b', next_state (acct 300 0 true : AccountState znum)
          (mkAction "WITHDRAW" (Int 301)) dom0 = acct b' 0 true
        ∧ (0 ≤ b' ≤ 300)%Z ∧ (b' = if (301 <=? 300)%Z then 300 - 301 else 300)%Z.
Proof.
  exact (withdraw_never_overdraws (num := znum) 300 0 true 301 dom0
           ltac:(lia) ltac:(lia)).
Defined.

Lemma loan_exclusive_witness :
  let state1 := next_state (acct 1000 0 true : AccountState znum)
                  (mkAction "REQUEST_LOAN" (Int 2000)) dom0 in
  state1 = acct 3000 2000 true ∧
  next_state state1 (mkAction "REQUEST_LOAN" (Int 5000)) dom0 = state1.
Proof. exact (loan_exclusive (num := znum) 1000 true 2000 5000 dom0 dom0 ltac:(lia)). Defined.
