(* ===== verification/AccountSpec.v ===== *)
(** * AccountSpec: the transition function the specification describes

    This file is modelled from spec.md, sections 3, 4 and 7, not from code:
    it is what [bankReducer] is compared with in [Refinement].

    The specification's action is a tagged variant; [PayLoan] and
    [CloseAccount] carry no amount.  Its transition function [apply] checks
    [isActive] once, before the per-action logic, for every action but
    [OpenAccount], and returns the state unchanged on an inactive account.
    [classify] is the outcome kind of section 7: the action was applied, was
    a silent no-op, or was rejected for insufficient funds. *)

From S2P Require Import Prelude JsNum Dom Account.

#[local] Open Scope js_scope.

Inductive SpecAction (num : Type) : Type :=
| OpenAccount (amount : num)
| Deposit (amount : num)
| Withdraw (amount : num)
| RequestLoan (amount : num)
| PayLoan
| CloseAccount.

Arguments OpenAccount {num} amount.
Arguments Deposit {num} amount.
Arguments Withdraw {num} amount.
Arguments RequestLoan {num} amount.
Arguments PayLoan {num}.
Arguments CloseAccount {num}.

Inductive OutcomeKind : Type :=
| Applied
| NoOp
| RejectedInsufficientFunds.

#[export] Instance OutcomeKind_eq_dec : EqDecision OutcomeKind.
Proof. solve_decision. Defined.

Section Spec.
Context `{JsNumber num}.
Implicit Types (state : AccountState num) (action : SpecAction num).

(** The per-action table of section 4.1, for an account that passed the
    activity guard. *)
Definition apply_active state action : AccountState num :=
  match action with
  | OpenAccount a => state
  | Deposit a => mkAccount (balance state + a) (loan state) (isActive state)
  | Withdraw a =>
      if balance state >= a
      then mkAccount (balance state - a) (loan state) (isActive state)
      else state
  | RequestLoan a =>
      if loan state === num_lit 0
      then mkAccount (balance state + a) (loan state + a) (isActive state)
      else state
  | PayLoan =>
      if loan state !== num_lit 0
      then mkAccount (balance state - loan state) (num_lit 0) (isActive state)
      else state
  | CloseAccount =>
      if (balance state === num_lit 0) && (loan state === num_lit 0)
      then mkAccount (num_lit 0) (num_lit 0) false
      else state
  end.

(** [apply(state, action)]: the guard first. *)
Definition apply state action : AccountState num :=
  match action with
  | OpenAccount a =>
      if isActive state then state
      else mkAccount a (loan state) true
  | _ => if isActive state then apply_active state action else state
  end.

(** The outcome kind of section 7. *)
Definition classify state action : OutcomeKind :=
  match action with
  | OpenAccount _ => if isActive state then NoOp else Applied
  | _ =>
      if negb (isActive state) then NoOp
      else match action with
           | OpenAccount _ => NoOp
           | Deposit _ => Applied
           | Withdraw a =>
               if balance state >= a then Applied else RejectedInsufficientFunds
           | RequestLoan _ => if loan state === num_lit 0 then Applied else NoOp
           | PayLoan => if loan state !== num_lit 0 then Applied else NoOp
           | CloseAccount =>
               if (balance state === num_lit 0) && (loan state === num_lit 0)
               then Applied else NoOp
           end
  end.

(** The action object a specification action is dispatched as.  [PayLoan]
    carries the loan, as the pay button sends it; [CloseAccount] has no
    amount. *)
Definition encode state action : Action num :=
  match action with
  | OpenAccount a => mkAction "OPEN_ACCOUNT" a
  | Deposit a => mkAction "DEPOSIT" a
  | Withdraw a => mkAction "WITHDRAW" a
  | RequestLoan a => mkAction "REQUEST_LOAN" a
  | PayLoan => mkAction "PAY_LOAN" (loan state)
  | CloseAccount => mkAction "CLOSE_ACCOUNT" num_nan
  end.

(** The specification action an action object of a known type stands for. *)
Definition decode (a : Action num) : option (SpecAction num) :=
  if String.eqb (type a) "OPEN_ACCOUNT" then Some (OpenAccount (amount a))
  else if String.eqb (type a) "DEPOSIT" then Some (Deposit (amount a))
  else if String.eqb (type a) "WITHDRAW" then Some (Withdraw (amount a))
  else if String.eqb (type a) "REQUEST_LOAN" then Some (RequestLoan (amount a))
  else if String.eqb (type a) "PAY_LOAN" then Some PayLoan
  else if String.eqb (type a) "CLOSE_ACCOUNT" then Some CloseAccount
  else None.

(** The specification's guard: what lets an action reach its table row. *)
Definition guard_passed state action : bool :=
  match action with
  | OpenAccount _ => true
  | _ => isActive state
  end.

(** ** Properties of the specification itself (section 8) *)

Lemma apply_inactive_noop state action :
  isActive state = false →
  (∀ a, action ≠ OpenAccount a) →
  apply state action = state.
Proof.
  intros Hact Hopen. destruct action as [a| | | | |]; cbn; rewrite ?Hact; try done.
  by destruct (Hopen a).
Qed.

Lemma classify_noop_same state action :
  classify state action ≠ Applied → apply state action = state.
Proof.
  destruct action; cbn; destruct (isActive state); cbn; try done;
    repeat case_if; done.
Qed.

Lemma decode_encode state action : decode (encode state action) = Some action.
Proof. by destruct action. Qed.

Lemma decode_known (a : Action num) : is_Some (decode a) ↔ type a ∈ action_types.
Proof.
  unfold decode.
  destruct (type_cases (type a)) as [E|[E|[E|[E|[E|[E|Hty]]]]]];
    try (rewrite E; cbn; split; [intros _; unfold action_types; set_solver | by eauto]).
  split; [|done].
  apply unknown_type_not_taken in Hty as (?&?&?&?&?&?).
  rewrite !(proj2 (String.eqb_neq _ _)) by done. by intros [? ?].
Qed.

End Spec.
