(* ===== verification/Refinement.v ===== *)
(** * Refinement: the reducer against the specification

    The specification's [apply] guards every action but [OpenAccount] with
    [isActive]; [bankReducer] has no such guard.  This file states where the
    two agree and where they do not:

    - when the specification's guard passes (the account is active, or the
      action is an open), the reducer returns exactly [apply state action],
      and its console and DOM effects determine the specification's outcome
      kind;
    - the reducer's money logic does not look at [isActive] at all, so on an
      inactive account a deposit, withdrawal, loan or repayment is carried
      out where the specification returns the state unchanged. *)

From S2P Require Import Prelude JsNum Dom Account AccountSpec.

#[local] Open Scope js_scope.

(** The lines the reducer logs for an outcome of the specification. *)
Definition logged `{JsNumber num} (action : SpecAction num) (k : OutcomeKind) : list string :=
  match action, k with
  | OpenAccount _, Applied => ["account opened"]
  | _, RejectedInsufficientFunds => ["Insufficient funds"]
  | _, _ => []
  end.

Section Refinement.
Context `{JsNumber num}.
Implicit Types (state : AccountState num) (action : SpecAction num) (d : Dom).

(** The pay and close cases never read the amount. *)
Lemma amount_irrelevant state ty (x y : num) :
  ty = "PAY_LOAN" ∨ ty = "CLOSE_ACCOUNT" →
  bankReducer state (mkAction ty x) = bankReducer state (mkAction ty y).
Proof. by intros [-> | ->]. Qed.

(** Where the specification's guard passes, the reducer returns the state of
    the specification. *)
Lemma reducer_state_spec state action d :
  guard_passed state action = true →
  (bankReducer state (encode state action) d).1 = Ok (apply state action).
Proof.
  intros Hg. destruct action; cbn in *;
    autorewrite with reducer_run; cbn; rewrite ?Hg; repeat (case_if; cbn); done.
Qed.

(** C5. Where the specification's guard passes, the reducer implements the
    specification: it returns the state [apply] gives, appends to the console
    exactly the lines of the outcome kind, and writes the printed balance to
    the withdraw input exactly when the outcome is a rejection. *)
Theorem reducer_implements_spec state action d :
  guard_passed state action = true →
  bankReducer state (encode state action) d =
    (Ok (apply state action),
     mkDom (if decide (classify state action = RejectedInsufficientFunds)
            then set_value_of withdrawInput (sanitize (js_String (balance state))) (inputs d)
            else inputs d)
           (console d ++ logged action (classify state action))).
Proof.
  intros Hg. destruct d as [i c]. destruct action; cbn in *;
    autorewrite with reducer_run; cbn; rewrite ?Hg;
    repeat (case_if; cbn); repeat case_decide; try done;
    by rewrite ?app_nil_r.
Qed.

(** C8. The reducer has no activity guard.  For every action type other than
    open and close, the balance and loan it computes are the same on an
    inactive account as on an active one, and [isActive] is returned as it
    came. *)
Theorem reducer_ignores_isActive (b l : num) (a : Action num) d :
  type a ≠ "OPEN_ACCOUNT" → type a ≠ "CLOSE_ACCOUNT" →
  let on := next_state (mkAccount b l true) a d in
  let off := next_state (mkAccount b l false) a d in
  balance off = balance on ∧ loan off = loan on ∧
  isActive on = true ∧ isActive off = false.
Proof.
  intros Hopen Hclose. unfold next_state.
  destruct (bankReducer_taken (mkAccount b l true) a) as [Ht|Ht|Ht|Ht|Ht|Ht|Ht];
    destruct (bankReducer_taken (mkAccount b l false) a) as [Ht'|Ht'|Ht'|Ht'|Ht'|Ht'|Ht'];
    try congruence; try (exfalso; rewrite Ht' in Ht; by set_solver);
    try (exfalso; rewrite Ht in Ht'; by set_solver);
    autorewrite with reducer_run; cbn; repeat case_if; done.
Qed.

End Refinement.

Section Divergence.
Context `{JsExact num}.

(** C7. Specification and code differ on inactive accounts: a deposit of a
    non-zero amount on the initial, inactive account is returned unchanged by
    the specification and credited by the reducer. *)
Theorem inactive_deposit_diverges (a : Z) d :
  a ≠ 0%Z →
  apply initialState (Deposit (num_lit a)) = (initialState : AccountState num) ∧
  next_state initialState (mkAction "DEPOSIT" (num_lit a)) d = acct a 0 false ∧
  next_state initialState (mkAction "DEPOSIT" (num_lit a)) d
    ≠ apply initialState (Deposit (num_lit a)).
Proof.
  intros Ha. split; [done|].
  change (initialState : AccountState num) with (acct 0 0 false : AccountState num).
  rewrite next_state_deposit. rewrite Z.add_0_l. split; [done|].
  cbn. unfold acct. intros [= E%lit_inj]. done.
Qed.

End Divergence.

(** ** Witnesses *)

Lemma reducer_implements_spec_witness :
  guard_passed (acct 300 0 true : AccountState znum) (Withdraw (Int 301)) = true ∧
  bankReducer (acct 300 0 true) (mkAction "WITHDRAW" (Int 301)) dom0 =
    (Ok (acct 300 0 true),
     mkDom (mkInputs "500" "500" "300" "5000") ["Insufficient funds"]).
Proof.
  split; [done|].
  exact (reducer_implements_spec (acct 300 0 true : AccountState znum)
           (Withdraw (Int 301)) dom0 eq_refl).
Defined.

Lemma reducer_ignores_isActive_witness :
  let a := mkAction "WITHDRAW" (Int 100) in
  let on := next_state (mkAccount (Int 300) (Int 0) true) a dom0 in
  let off := next_state (mkAccount (Int 300) (Int 0) false) a dom0 in
  balance off = balance on ∧ loan off = loan on ∧
  isActive on = true ∧ isActive off = false.
Proof.
  exact (reducer_ignores_isActive (Int 300) (Int 0) (mkAction "WITHDRAW" (Int 100)) dom0
           ltac:(done) ltac:(done)).
Defined.

Lemma inactive_deposit_diverges_witness :
  apply initialState (Deposit (Int 5)) = (initialState : AccountState znum) ∧
  next_state initialState (mkAction "DEPOSIT" (Int 5)) dom0 = acct 5 0 false ∧
  next_state initialState (mkAction "DEPOSIT" (Int 5)) dom0
    ≠ apply initialState (Deposit (Int 5)).
Proof. exact (inactive_deposit_diverges (num := znum) 5 dom0 ltac:(lia)). Defined.
