(* ===== verification/View.v ===== *)
(** * View: the element tree [App] returns

    App-ref.js 93-223 is one JSX expression: a [div] with a heading, two
    paragraphs that show the balance and the loan, and six paragraphs with a
    button each, four of them with a number input.  [render] is that
    expression as a value of [Element], attribute by attribute: a button's
    [disabled] is the condition the source writes, its [onClick] the action
    the handler dispatches; an input has its ref, [defaultValue], [min],
    [max], [step] and [disabled].

    A handler is data: the action type it dispatches and where the amount
    comes from (an input read through its ref and converted with [Number],
    a value captured from the account at render time, or no amount at all).
    [run_handler] is what calling it does up to the dispatch. *)

From S2P Require Import Prelude JsNum Dom Account.

#[local] Open Scope js_scope.

(** ** Data *)

Inductive AmountSource (num : Type) : Type :=
| FromInput (r : Ref)
| FromState (n : num)
| NoAmount.

Arguments FromInput {num} r.
Arguments FromState {num} n.
Arguments NoAmount {num}.

Record Handler (num : Type) : Type := mkHandler {
  h_type : string;
  h_amount : AmountSource num;
}.

Arguments mkHandler {num} h_type h_amount.
Arguments h_type {num} h.
Arguments h_amount {num} h.

Record Button (num : Type) : Type := mkButton {
  btn_label : string;
  btn_onClick : Handler num;
  btn_disabled : bool;
}.

Arguments mkButton {num} btn_label btn_onClick btn_disabled.
Arguments btn_label {num} b.
Arguments btn_onClick {num} b.
Arguments btn_disabled {num} b.

Record Input (num : Type) : Type := mkInput {
  in_type : string;
  in_ref : Ref;
  in_defaultValue : num;
  in_min : num;
  in_max : num;
  in_step : num;
  in_disabled : bool;
}.

Arguments mkInput {num} in_type in_ref in_defaultValue in_min in_max in_step in_disabled.
Arguments in_type {num} i.
Arguments in_ref {num} i.
Arguments in_defaultValue {num} i.
Arguments in_min {num} i.
Arguments in_max {num} i.
Arguments in_step {num} i.
Arguments in_disabled {num} i.

Inductive Element (num : Type) : Type :=
| Div (className : string) (children : list (Element num))
| H1 (text : string)
| P (children : list (Element num))
| Text (text : string)
| Expr (value : num)
| ButtonEl (b : Button num)
| InputEl (i : Input num).

Arguments Div {num} className children.
Arguments H1 {num} text.
Arguments P {num} children.
Arguments Text {num} text.
Arguments Expr {num} value.
Arguments ButtonEl {num} b.
Arguments InputEl {num} i.

(** ** The six controls *)

Section Render.
Context `{JsNumber num}.
Implicit Types (account : AccountState num).

(** Opening Account (lines 101-122) *)
Definition open_button account : Button num :=
  mkButton "Open account with"
    (mkHandler "OPEN_ACCOUNT" (FromInput openInput))
    (isActive account).

Definition open_input account : Input num :=
  mkInput "number" openInput (num_lit 500) (num_lit 500) (num_lit 2000) (num_lit 100)
    (isActive account).

(** Money Deposit (lines 124-145) *)
Definition deposit_button account : Button num :=
  mkButton "Deposit"
    (mkHandler "DEPOSIT" (FromInput depositInput))
    (negb (isActive account)).

Definition deposit_input account : Input num :=
  mkInput "number" depositInput (num_lit 500) (num_lit 100) (num_lit 5000) (num_lit 100)
    (negb (isActive account)).

(** Money Withdrawal (lines 147-168) *)
Definition withdraw_button account : Button num :=
  mkButton "Withdraw"
    (mkHandler "WITHDRAW" (FromInput withdrawInput))
    (negb (isActive account && (balance account > num_lit 0))).

Definition withdraw_input account : Input num :=
  mkInput "number" withdrawInput (num_lit 300) (num_lit 100) (balance account) (num_lit 100)
    (negb (isActive account && (balance account > num_lit 0))).

(** Request Loan (lines 170-191) *)
Definition loan_button account : Button num :=
  mkButton "Request a loan"
    (mkHandler "REQUEST_LOAN" (FromInput loanInput))
    (negb (isActive account && (loan account === num_lit 0))).

Definition loan_input account : Input num :=
  mkInput "number" loanInput (num_lit 5000) (num_lit 5000) (num_lit 50000) (num_lit 1000)
    (negb (isActive account && (loan account === num_lit 0))).

(** Pay Loan (lines 193-208) *)
Definition pay_button account : Button num :=
  mkButton "Pay your loan"
    (mkHandler "PAY_LOAN" (FromState (loan account)))
    (negb ((loan account !== num_lit 0) && isActive account &&
           (balance account >= loan account))).

(** Close Account (lines 210-221) *)
Definition close_button account : Button num :=
  mkButton "Close account"
    (mkHandler "CLOSE_ACCOUNT" NoAmount)
    (negb (isActive account && (balance account === num_lit 0) &&
           (loan account === num_lit 0))).

(** The return statement of [App]. *)
Definition render account : Element num :=
  Div "App" [
    H1 "useReducer Bank Account";
    P [Text "Balance: "; Expr (balance account)];
    P [Text "Loan: "; Expr (loan account)];
    P [ButtonEl (open_button account); InputEl (open_input account)];
    P [ButtonEl (deposit_button account); InputEl (deposit_input account)];
    P [ButtonEl (withdraw_button account); InputEl (withdraw_input account)];
    P [ButtonEl (loan_button account); InputEl (loan_input account)];
    P [ButtonEl (pay_button account)];
    P [ButtonEl (close_button account)]
  ].

(** ** Reading the tree *)

Fixpoint buttons (e : Element num) : list (Button num) :=
  match e with
  | Div _ children | P children => flat_map buttons children
  | ButtonEl b => [b]
  | _ => []
  end.

Fixpoint inputs_of (e : Element num) : list (Input num) :=
  match e with
  | Div _ children | P children => flat_map inputs_of children
  | InputEl i => [i]
  | _ => []
  end.

(** The button with a given label, the input behind a given ref. *)
Definition find_button (label : string) (e : Element num) : option (Button num) :=
  List.find (λ b, String.eqb (btn_label b) label) (buttons e).

Definition find_input (r : Ref) (e : Element num) : option (Input num) :=
  List.find (λ i, bool_decide (in_ref i = r)) (inputs_of e).

(** ** Handlers *)

(** The amount of the dispatched action. *)
Definition amount_from (src : AmountSource num) : Eff Dom Error num :=
  match src with
  | FromInput r => v ← read_value r; mret (js_Number v)
  | FromState n => mret n
  | NoAmount => mret num_nan
  end.

(** The action object the handler builds. *)
Definition run_handler (h : Handler num) : Eff Dom Error (Action num) :=
  a ← amount_from (h_amount h); mret (mkAction (h_type h) a).

End Render.

(** ** Lemmas *)

Section ViewFacts.
Context `{JsNumber num}.
Implicit Types (account : AccountState num).

Lemma buttons_render account :
  buttons (render account) =
    [open_button account; deposit_button account; withdraw_button account;
     loan_button account; pay_button account; close_button account].
Proof. done. Qed.

Lemma inputs_render account :
  inputs_of (render account) =
    [open_input account; deposit_input account; withdraw_input account;
     loan_input account].
Proof. done. Qed.

(** Handlers read the store and leave it as it is; they do not throw. *)
Lemma run_handler_run (h : Handler num) (d : Dom) :
  run_handler h d =
    (Ok (mkAction (h_type h)
           match h_amount h with
           | FromInput r => js_Number (value_of r (inputs d))
           | FromState n => n
           | NoAmount => num_nan
           end), d).
Proof. unfold run_handler. by destruct (h_amount h). Qed.

(** Every ref has its input, whatever the account. *)
Lemma find_input_render (r : Ref) account :
  find_input r (render account) =
    Some match r with
         | openInput => open_input account
         | depositInput => deposit_input account
         | withdrawInput => withdraw_input account
         | loanInput => loan_input account
         end.
Proof. by destruct r. Qed.

(** The labels of the six buttons are distinct, so a label finds its button. *)
Lemma find_button_render (label : string) account (b : Button num) :
  find_button label (render account) = Some b ↔
  b ∈ buttons (render account) ∧ btn_label b = label.
Proof.
  unfold find_button. rewrite buttons_render. split.
  - intros Hf. apply find_some in Hf as [Hin Hl].
    apply String.eqb_eq in Hl. by apply list_elem_of_In in Hin.
  - intros [Hin <-]. rewrite !elem_of_cons, elem_of_nil in Hin.
    destruct Hin as [->|[->|[->|[->|[->|[->|[]]]]]]]; done.
Qed.

End ViewFacts.
