(* ===== verification/App.v ===== *)
(** * App: the running component

    [App] (App-ref.js 28-224) holds the account in [useReducer(bankReducer,
    initialState)] (line 91) and four refs (30-36), and returns the tree of
    [View.render].  A running instance is a [World]: the current account, the
    DOM store the refs point into (input values and console), and whether the
    reducer has thrown.  The user acts on it by clicking a button or editing
    an input; a disabled control ignores both.

    [bankDispatch] is the dispatch function the hook returns: one application
    of the reducer to the current account, atomically.  [click] is a click on
    the button with a given label: nothing when the button is disabled,
    otherwise its handler runs and its action is dispatched.  [edit] replaces
    an enabled input's value.  [step] applies one event, [run] a list of
    them, and a world is [reachable] when some list of events leads to it
    from [mount], the world after the first render. *)

From S2P Require Import Prelude JsNum Dom Account AccountSpec Refinement View.

#[local] Open Scope js_scope.

(** ** Data *)

Record World (num : Type) : Type := mkWorld {
  account : AccountState num;
  dom : Dom;
  crashed : option Error;
}.

Arguments mkWorld {num} account dom crashed.
Arguments account {num} w.
Arguments dom {num} w.
Arguments crashed {num} w.

Inductive Event : Type :=
| Click (label : string)
| Edit (r : Ref) (value : string).

#[export] Instance Event_eq_dec : EqDecision Event.
Proof. solve_decision. Defined.

(** ** Operations *)

Section App.
Context `{JsNumber num}.
Implicit Types (w : World num) (e : Event).

(** The value an input shows after the first render: its [defaultValue]. *)
Definition default_value (r : Ref) : string :=
  match find_input r (render initialState) with
  | Some i => js_String (in_defaultValue i)
  | None => ""
  end.

(** The world after mounting. *)
Definition mount : World num :=
  mkWorld initialState
    (mkDom (mkInputs (default_value openInput) (default_value depositInput)
                     (default_value withdrawInput) (default_value loanInput)) [])
    None.

(** [bankDispatch(action)] *)
Definition bankDispatch (action : Action num) w : World num :=
  match bankReducer (account w) action (dom w) with
  | (Ok account', dom') => mkWorld account' dom' (crashed w)
  | (Throw err, dom') => mkWorld (account w) dom' (Some err)
  end.

(** A click on the button labelled [label]. *)
Definition click (label : string) w : World num :=
  match find_button label (render (account w)) with
  | Some b =>
      if btn_disabled b then w
      else match run_handler (btn_onClick b) (dom w) with
           | (Ok action, dom') =>
               bankDispatch action (mkWorld (account w) dom' (crashed w))
           | (Throw err, dom') => mkWorld (account w) dom' (Some err)
           end
  | None => w
  end.

(** The user replaces the value of the input behind [r].  What the input
    keeps of the text depends on its [type]: a number input keeps what is a
    valid floating-point number of it, any other input keeps the text. *)
Definition edit (r : Ref) (value : string) w : World num :=
  match find_input r (render (account w)) with
  | Some i =>
      if in_disabled i then w
      else mkWorld (account w)
             (mkDom (set_value_of r (kept (in_type i) value) (inputs (dom w)))
                    (console (dom w)))
             (crashed w)
  | None => w
  end.

(** One event.  After an uncaught error nothing is rendered any more. *)
Definition step w e : World num :=
  match crashed w with
  | Some _ => w
  | None =>
      match e with
      | Click label => click label w
      | Edit r value => edit r value w
      end
  end.

Definition run w (es : list Event) : World num := foldl step w es.

Definition reachable w : Prop := ∃ es, run mount es = w.

(** The labels of the rendered buttons. *)
Definition labels : list string :=
  ["Open account with"; "Deposit"; "Withdraw"; "Request a loan";
   "Pay your loan"; "Close account"].

(** The safety invariant: no crash, and an inactive account is the initial
    one. *)
Definition safe w : Prop :=
  crashed w = None ∧ (isActive (account w) = false → account w = initialState).

End App.

(** [click_run]: run a click on a literal label, by cases on the tests of the
    button's [disabled] condition. *)
Ltac click_run lem :=
  (erewrite lem by reflexivity); cbn -[bankDispatch];
  repeat match goal with
         | |- context [isActive ?a] => destruct (isActive a); cbn -[bankDispatch]
         | |- context [num_gt ?a ?b] => destruct (num_gt a b); cbn -[bankDispatch]
         | |- context [num_ge ?a ?b] => destruct (num_ge a b); cbn -[bankDispatch]
         | |- context [num_seq ?a ?b] => destruct (num_seq a b); cbn -[bankDispatch]
         end;
  reflexivity.

(** ** Lemmas: what a click does, button by button *)

Section Clicks.
Context `{JsNumber num}.
Implicit Types (w : World num) (e : Event).

Lemma run_app w es1 es2 : run w (es1 ++ es2) = run (run w es1) es2.
Proof. apply foldl_app. Qed.

Lemma run_snoc w es e : run w (es ++ [e]) = step (run w es) e.
Proof. by rewrite run_app. Qed.

(** Induction over reachable worlds. *)
Lemma reachable_ind (Q : World num → Prop) :
  Q mount → (∀ w e, reachable w → Q w → Q (step w e)) → ∀ w, reachable w → Q w.
Proof.
  intros Hm Hs w [es <-]. induction es as [|e es IH] using rev_ind; [done|].
  rewrite run_snoc. apply Hs; [by exists es | done].
Qed.

Lemma reachable_mount : reachable (mount : World num).
Proof. by exists []. Qed.

Lemma reachable_step w e : reachable w → reachable (step w e).
Proof. intros [es <-]. exists (es ++ [e]). apply run_snoc. Qed.

(** A label that is on no button finds nothing. *)
Lemma find_button_unknown label (acc : AccountState num) :
  label ∉ labels → find_button label (render acc) = None.
Proof.
  intros Hl. destruct (find_button label (render acc)) as [b|] eqn:Hf; [|done].
  apply find_button_render in Hf as [Hin <-]. exfalso. apply Hl.
  rewrite buttons_render, !elem_of_cons, elem_of_nil in Hin.
  destruct Hin as [->|[->|[->|[->|[->|[->|[]]]]]]]; unfold labels; set_solver.
Qed.

Lemma click_unknown label w : label ∉ labels → click label w = w.
Proof. intros Hl. unfold click. by rewrite find_button_unknown. Qed.

(** Dispatching to the account in place. *)
Lemma bankDispatch_world (action : Action num) w :
  bankDispatch action (mkWorld (account w) (dom w) (crashed w)) = bankDispatch action w.
Proof. done. Qed.

(** A click on an enabled button dispatches the action its handler builds from
    the store; the handler itself changes nothing. *)
Lemma click_button label w (b : Button num) :
  find_button label (render (account w)) = Some b →
  click label w =
    if btn_disabled b then w
    else bankDispatch
           (mkAction (h_type (btn_onClick b))
              match h_amount (btn_onClick b) with
              | FromInput r => js_Number (value_of r (inputs (dom w)))
              | FromState n => n
              | NoAmount => num_nan
              end) w.
Proof. intros Hf. unfold click. rewrite Hf, run_handler_run. by case_if. Qed.

Lemma click_open w :
  click "Open account with" w =
    if isActive (account w) then w
    else bankDispatch
           (mkAction "OPEN_ACCOUNT" (js_Number (openValue (inputs (dom w))))) w.
Proof. click_run click_button. Qed.

Lemma click_deposit w :
  click "Deposit" w =
    if isActive (account w)
    then bankDispatch
           (mkAction "DEPOSIT" (js_Number (depositValue (inputs (dom w))))) w
    else w.
Proof. click_run click_button. Qed.

Lemma click_withdraw w :
  click "Withdraw" w =
    if isActive (account w) && (balance (account w) > num_lit 0)
    then bankDispatch
           (mkAction "WITHDRAW" (js_Number (withdrawValue (inputs (dom w))))) w
    else w.
Proof. click_run click_button. Qed.

Lemma click_loan w :
  click "Request a loan" w =
    if isActive (account w) && (loan (account w) === num_lit 0)
    then bankDispatch
           (mkAction "REQUEST_LOAN" (js_Number (loanValue (inputs (dom w))))) w
    else w.
Proof. click_run click_button. Qed.

Lemma click_pay w :
  click "Pay your loan" w =
    if (loan (account w) !== num_lit 0) && isActive (account w) &&
       (balance (account w) >= loan (account w))
    then bankDispatch (mkAction "PAY_LOAN" (loan (account w))) w
    else w.
Proof. click_run click_button. Qed.

Lemma click_close w :
  click "Close account" w =
    if isActive (account w) && (balance (account w) === num_lit 0) &&
       (loan (account w) === num_lit 0)
    then bankDispatch (mkAction "CLOSE_ACCOUNT" num_nan) w
    else w.
Proof. click_run click_button. Qed.

(** The four inputs are number inputs, so an edit of an enabled input
    stores the sanitised text. *)
Lemma edit_run r value w (i : Input num) :
  find_input r (render (account w)) = Some i →
  edit r value w =
    if in_disabled i then w
    else mkWorld (account w)
           (mkDom (set_value_of r (sanitize value) (inputs (dom w))) (console (dom w)))
           (crashed w).
Proof.
  intros Hf. unfold edit. rewrite Hf.
  rewrite find_input_render in Hf. injection Hf as <-. by destruct r.
Qed.

(** An edit changes one input's value and nothing else. *)
Lemma edit_account r value w : account (edit r value w) = account w.
Proof. erewrite edit_run by apply find_input_render. by case_if. Qed.

Lemma edit_crashed r value w : crashed (edit r value w) = crashed w.
Proof. erewrite edit_run by apply find_input_render. by case_if. Qed.

End Clicks.

Create Rewrite HintDb clicks.
#[export] Hint Rewrite @click_open @click_deposit @click_withdraw @click_loan
  @click_pay @click_close : clicks.

(** [click_cases label w]: one goal per button, and one for a label that is
    on no button. *)
Ltac click_cases label w :=
  let Hl := fresh "Hlabel" in
  destruct (decide (label ∈ labels)) as [Hl|Hl];
  [ unfold labels in Hl; rewrite !elem_of_cons, elem_of_nil in Hl;
    destruct Hl as [->|[->|[->|[->|[->|[->|[]]]]]]]; autorewrite with clicks
  | rewrite (click_unknown label w Hl) ].

(** ** Safety of reachable worlds, for every number implementation *)

Section Safety.
Context `{JsNumber num}.
Implicit Types (w : World num) (e : Event).

(** A dispatch of a known action type does not crash. *)
Lemma bankDispatch_known (action : Action num) w :
  type action ∈ action_types →
  bankDispatch action w =
    mkWorld (next_state (account w) action (dom w))
            (bankReducer (account w) action (dom w)).2 (crashed w).
Proof.
  intros Hty. unfold bankDispatch, next_state.
  destruct (bankReducer_ok (account w) action (dom w) Hty) as [account' Ha].
  destruct (bankReducer (account w) action (dom w)) as [[?|?] dom']; by simplify_eq/=.
Qed.

(** One step keeps the invariant. *)
Lemma step_safe w e : safe w → safe (step w e).
Proof.
  intros Hs. unfold step. rewrite (proj1 Hs). destruct e as [label|r value].
  - click_cases label w; try done; case_if; try done;
      (rewrite bankDispatch_known by (unfold action_types; set_solver));
      (split; [exact (proj1 Hs)|]); unfold next_state; cbn;
      autorewrite with reducer_run;
      repeat match goal with
             | H : _ && _ = true |- _ => apply andb_true_split in H as [? ?]
             | H : ?b = _ |- context [?b] => rewrite H
             end; cbn; try done.
    all: repeat case_if; cbn; try done; congruence.
  - destruct Hs. split; [by rewrite edit_crashed | by rewrite edit_account].
Qed.

Lemma safe_mount : safe (mount : World num).
Proof. done. Qed.

(** A run keeps the invariant. *)
Lemma run_safe w es : safe w → safe (run w es).
Proof.
  revert w. induction es as [|e es IH]; intros w Hs; [done|].
  cbn. apply IH. by apply step_safe.
Qed.

(** C1. Whatever the user clicks and types, the component never crashes, and
    whenever the account is inactive it is the initial account: balance 0,
    loan 0. *)
Theorem reachable_safe w : reachable w → safe w.
Proof. intros [es <-]. apply run_safe, safe_mount. Qed.

End Safety.

(** ** The component implements the specification *)

Section UiRefinement.
Context `{JsNumber num}.
Implicit Types (w : World num) (e : Event).

(** The specification action a click on a button stands for: the button's
    action type with the amount its handler reads. *)
Definition spec_action_of (label : string) w : option (SpecAction num) :=
  match find_button label (render (account w)) with
  | Some b =>
      match run_handler (btn_onClick b) (dom w) with
      | (Ok action, _) => decode action
      | (Throw _, _) => None
      end
  | None => None
  end.

(** The button with this label is rendered and not disabled. *)
Definition enabled (label : string) w : bool :=
  match find_button label (render (account w)) with
  | Some b => negb (btn_disabled b)
  | None => false
  end.

(** The account after a list of specification actions. *)
Definition spec_run (state : AccountState num) (actions : list (SpecAction num))
  : AccountState num :=
  foldl apply state actions.

(** The specification action of one event: that of the button for a click on
    an enabled button of a running component, none for anything else. *)
Definition spec_event w e : list (SpecAction num) :=
  match crashed w, e with
  | None, Click label =>
      if enabled label w then option_list (spec_action_of label w) else []
  | _, _ => []
  end.

(** The specification actions of a list of events, from [w] on. *)
Fixpoint spec_trace w (es : list Event) : list (SpecAction num) :=
  match es with
  | [] => []
  | e :: es' => spec_event w e ++ spec_trace (step w e) es'
  end.

Lemma click_disabled label w : enabled label w = false → click label w = w.
Proof.
  unfold enabled, click. destruct (find_button _ _) as [b|]; [|done].
  by intros ->%negb_false_iff.
Qed.

(** An enabled button's action passes the specification's guard. *)
Lemma enabled_guard_passed label w action :
  enabled label w = true → spec_action_of label w = Some action →
  guard_passed (account w) action = true ∧
  click label w = bankDispatch (encode (account w) action) w.
Proof.
  intros He Hs. destruct (decide (label ∈ labels)) as [Hl|Hl].
  - unfold labels in Hl. rewrite !elem_of_cons, elem_of_nil in Hl.
    destruct Hl as [->|[->|[->|[->|[->|[->|[]]]]]]]; autorewrite with clicks;
      cbn in He, Hs; injection Hs as <-; cbn;
      repeat match goal with
             | H : negb _ = true |- _ => apply negb_true_iff in H
             | H : negb _ = false |- _ => apply negb_false_iff in H
             | H : ?b = _ |- context [?b] => rewrite H
             | H : _ && _ = true |- _ => apply andb_true_split in H as [? ?]
             end; done.
  - unfold enabled in He. by rewrite find_button_unknown in He.
Qed.

(** Every rendered button dispatches an action the specification knows. *)
Lemma enabled_spec_action label w :
  enabled label w = true → is_Some (spec_action_of label w).
Proof.
  intros He. destruct (decide (label ∈ labels)) as [Hl|Hl].
  - unfold labels in Hl. rewrite !elem_of_cons, elem_of_nil in Hl.
    destruct Hl as [->|[->|[->|[->|[->|[->|[]]]]]]]; by eexists.
  - unfold enabled in He. by rewrite find_button_unknown in He.
Qed.

(** The account after a click on an enabled button. *)
Lemma click_account_spec label w action :
  enabled label w = true → spec_action_of label w = Some action →
  account (click label w) = apply (account w) action ∧
  crashed (click label w) = crashed w.
Proof.
  intros He Hs. destruct (enabled_guard_passed label w action He Hs) as [Hg ->].
  unfold bankDispatch.
  pose proof (reducer_state_spec (account w) action (dom w) Hg) as Hr.
  destruct (bankReducer _ _ _) as [[?|?] ?]; by simplify_eq/=.
Qed.

(** C2. A click on an enabled button is a transition of the specification:
    the account becomes [apply account action] for the action the button
    stands for, the specification's guard holds, and the reducer does not
    throw. *)
Theorem click_implements_spec label w action :
  enabled label w = true → spec_action_of label w = Some action →
  guard_passed (account w) action = true ∧
  account (click label w) = apply (account w) action ∧
  crashed (click label w) = crashed w.
Proof.
  intros He Hs. split; [|by apply click_account_spec].
  by destruct (enabled_guard_passed label w action He Hs).
Qed.

(** One event is the specification actions of [spec_event], at most one. *)
Lemma step_spec_event w e :
  account (step w e) = spec_run (account w) (spec_event w e) ∧
  length (spec_event w e) ≤ 1.
Proof.
  unfold step, spec_event. destruct (crashed w); [split; cbn; [done | lia]|].
  destruct e as [label|r value]; [|rewrite edit_account; split; cbn; [done | lia]].
  destruct (enabled label w) eqn:He;
    [|rewrite click_disabled by done; split; cbn; [done | lia]].
  destruct (enabled_spec_action label w He) as [action Hs]. rewrite Hs; cbn.
  destruct (click_account_spec label w action He Hs) as [-> _]. split; [done | lia].
Qed.

Lemma run_spec_trace w es :
  account (run w es) = spec_run (account w) (spec_trace w es) ∧
  length (spec_trace w es) ≤ length es.
Proof.
  revert w. induction es as [|e es IH]; intros w; [done|].
  cbn [run foldl spec_trace length]. unfold spec_run. rewrite foldl_app, length_app.
  destruct (step_spec_event w e) as [He Hl], (IH (step w e)) as [Hr Hn].
  unfold spec_run in *. rewrite <- He. split; [exact Hr | lia].
Qed.

(** C9. Trace refinement: the account any sequence of user events leads to
    is the one the specification reaches from the initial state by the
    actions of the enabled buttons that were clicked, in that order; edits
    and clicks on disabled buttons are no transitions. *)
Theorem run_refines_spec (es : list Event) :
  account (run mount es) = spec_run initialState (spec_trace mount es) ∧
  length (spec_trace mount es) ≤ length es.
Proof. apply run_spec_trace. Qed.

End UiRefinement.

(** ** Witnesses and runs on the integer instance *)

(** Section 8 of the specification, through the buttons: open with 500,
    deposit 200, withdraw 700, close. *)
Definition round_trip : list Event :=
  [Click "Open account with";
   Edit depositInput "200"; Click "Deposit";
   Edit withdrawInput "700"; Click "Withdraw";
   Click "Close account"].

(** A withdrawal repeated until it is refused, and once more. *)
Definition withdraw_thrice : list Event :=
  [Click "Open account with"; Click "Withdraw"; Click "Withdraw"; Click "Withdraw"].

(** The round trip of the specification's section 8, made with the buttons
    and inputs: after opening with 500, depositing 200, withdrawing 700 and
    closing, the account is the initial state again, and the only console
    line is that of the opening. *)
Example round_trip_closes :
  account (run (mount : World znum) round_trip) = initialState ∧
  console (dom (run (mount : World znum) round_trip)) = ["account opened"].
Proof. by vm_compute. Qed.

(** The second withdrawal of 300 from 200 is refused and puts the balance in
    the input; the third click then empties the account. *)
Example withdraw_thrice_empties :
  run (mount : World znum) withdraw_thrice =
    mkWorld (acct 0 0 true)
      (mkDom (mkInputs "500" "500" "200" "5000")
             ["account opened"; "Insufficient funds"])
      None.
Proof. by vm_compute. Qed.

Lemma reachable_safe_witness :
  safe (run (mount : World znum) withdraw_thrice).
Proof. apply reachable_safe. by exists withdraw_thrice. Defined.

Lemma click_implements_spec_witness :
  let w := run (mount : World znum) [Click "Open account with"] in
  guard_passed (account w) (Withdraw (Int 300)) = true ∧
  account (click "Withdraw" w) = apply (account w) (Withdraw (Int 300)) ∧
  crashed (click "Withdraw" w) = crashed w.
Proof.
  exact (click_implements_spec "Withdraw"
           (run (mount : World znum) [Click "Open account with"])
           (Withdraw (Int 300)) eq_refl eq_refl).
Defined.
