(* ===== verification/Invariants.v ===== *)
(** * Invariants: what holds when inputs respect their attributes

    The number inputs of [App] carry [min], [max] and [step] attributes.  The
    browser offers only values that satisfy them through the spin buttons, but
    accepts any typed text, and [App] never checks validity.  This file fixes
    what the attributes are worth: [satisfies i value] is the constraint
    validation of a number input (the value is a number within [min] and
    [max], a whole number of steps above [min]), a [valid] world is one the
    user reaches by clicking anything and typing only values that satisfy the
    edited input's attributes at that moment, and [tidy] is the invariant of
    valid worlds: balance and loan are integers, never negative, the balance a
    multiple of 100 and the loan a multiple of 1000, and every input holds a
    non-negative integer on its step grid.

    The arithmetic is exact ([JsExact]).  The reducer's own guards are needed
    for the invariant: a value valid when typed into the withdraw input may
    exceed the balance by the time the button is clicked. *)

From S2P Require Import Prelude JsNum Dom Account View App.

#[local] Open Scope js_scope.
#[local] Open Scope Z_scope.

(** ** Definitions *)

Section Valid.
Context `{JsNumber num}.
Implicit Types (w : World num) (e : Event) (i : Input num).

(** Constraint validation of a number input: the value is an integer between
    [min] and [max], a whole number of steps above [min].  The empty value,
    which a browser does not flag on an input that is not required, reads as
    0 and does not satisfy any of the four inputs. *)
Definition satisfies i (value : string) : Prop :=
  ∃ z mn mx st,
    js_Number value = num_lit z ∧ in_min i = num_lit mn ∧
    in_max i = num_lit mx ∧ in_step i = num_lit st ∧
    mn ≤ z ≤ mx ∧ (st | z - mn).

(** An event a user who respects the attributes can cause: what the input
    keeps of the typed text satisfies them. *)
Definition valid_event w e : Prop :=
  match e with
  | Click _ => True
  | Edit r value =>
      ∀ i, find_input r (render (account w)) = Some i → satisfies i (sanitize value)
  end.

(** The worlds such a user reaches. *)
Inductive valid : World num → Prop :=
| valid_mount : valid mount
| valid_step w e : valid w → valid_event w e → valid (step w e).

(** A list of events each of which is valid when it happens, from [w] on. *)
Fixpoint valid_from w (es : list Event) : Prop :=
  match es with
  | [] => True
  | e :: es' => valid_event w e ∧ valid_from (step w e) es'
  end.

(** The grid an input's values lie on. *)
Definition grid (r : Ref) : Z :=
  match r with loanInput => 1000 | _ => 100 end.

(** A value a tidy input may hold: a non-negative integer on the grid. *)
Definition tidy_value (r : Ref) (value : string) : Prop :=
  ∃ z, js_Number value = num_lit z ∧ 0 ≤ z ∧ (grid r | z).

Definition tidy_inputs (inp : Inputs) : Prop :=
  ∀ r, tidy_value r (value_of r inp).

Definition tidy_account (state : AccountState num) : Prop :=
  ∃ b l, state = acct b l (isActive state) ∧ 0 ≤ b ∧ 0 ≤ l ∧ (100 | b) ∧ (1000 | l).

Definition tidy w : Prop :=
  tidy_account (account w) ∧ tidy_inputs (inputs (dom w)).

End Valid.

(** ** Lemmas on valid sequences *)

Section ValidFrom.
Context `{JsNumber num}.
Implicit Types (w : World num) (e : Event).

Lemma valid_from_app w es1 es2 :
  valid_from w (es1 ++ es2) ↔ valid_from w es1 ∧ valid_from (run w es1) es2.
Proof.
  revert w. induction es1 as [|e es1 IH]; intros w; cbn; [tauto|].
  rewrite IH. tauto.
Qed.

Lemma valid_run w es : valid w → valid_from w es → valid (run w es).
Proof.
  revert w. induction es as [|e es IH]; intros w Hw; cbn; [done|].
  intros [He Hes]. apply IH; [by apply valid_step | done].
Qed.

Lemma valid_from_clicks w label (k : nat) : valid_from w (replicate k (Click label)).
Proof. revert w. induction k as [|k IH]; intros w; cbn; [done | by split]. Qed.

(** The valid worlds are those a valid list of events leads to from the
    mounted component. *)
Lemma valid_runs w : valid w ↔ ∃ es, valid_from mount es ∧ run mount es = w.
Proof.
  split.
  - induction 1 as [|w e _ (es & Hes & <-) He]; [by exists []|].
    exists (es ++ [e]). rewrite valid_from_app, run_snoc. by cbn.
  - intros (es & Hes & <-). by apply valid_run; [apply valid_mount|].
Qed.

Lemma valid_reachable w : valid w → reachable w.
Proof. intros (es & _ & <-)%valid_runs. by exists es. Qed.

End ValidFrom.

(** ** Lemmas *)

Lemma divide_1000_100 (z : Z) : (1000 | z) → (100 | z).
Proof. intros [k ->]. exists (k * 10). lia. Qed.

Lemma divide_grid_100 (r : Ref) (z : Z) : (grid r | z) → (100 | z).
Proof. destruct r; cbn; auto using divide_1000_100. Qed.

#[export] Hint Resolve divide_1000_100 divide_grid_100 Z.divide_add_r Z.divide_sub_r
  Z.divide_0_r : bank.

Section TidyFacts.
Context `{JsExact num}.
Implicit Types (w : World num) (e : Event) (i : Input num) (d : Dom).
Implicit Types (state : AccountState num) (action : Action num).

Lemma tidy_account_acct b l act :
  0 ≤ b → 0 ≤ l → (100 | b) → (1000 | l) → tidy_account (acct b l act : AccountState num).
Proof. intros. by exists b, l. Qed.

Lemma tidy_value_String (r : Ref) (b : Z) :
  0 ≤ b → (grid r | b) → tidy_value r (js_String (num_lit b : num)).
Proof. intros Hb Hg. exists b. by rewrite Number_String. Qed.

(** A value that satisfies the attributes of the input behind [r] is tidy
    for [r]: each [min] is positive and on the input's grid. *)
Lemma satisfies_tidy (r : Ref) state (value : string) :
  (∀ i, find_input r (render state) = Some i → satisfies i value) →
  tidy_value r value.
Proof.
  intros Hs. specialize (Hs _ (find_input_render r state)).
  destruct Hs as (z & mn & mx & st & Hz & Hmn & _ & Hst & [Hle _] & Hdiv).
  exists z. split; [done|]. destruct Hdiv as [k Hk].
  destruct r; cbn in Hmn, Hst; apply lit_inj in Hmn, Hst; subst mn st; cbn;
    (split; [lia|]).
  - exists (k + 5). lia.
  - exists (k + 1). lia.
  - exists (k + 1). lia.
  - exists (k + 5). lia.
Qed.

Lemma tidy_inputs_set (r : Ref) (value : string) (inp : Inputs) :
  tidy_inputs inp → tidy_value r value → tidy_inputs (set_value_of r value inp).
Proof.
  intros Hi Hv r'. destruct (decide (r = r')) as [<-|Hne].
  - by rewrite value_of_set_eq.
  - by rewrite value_of_set_ne.
Qed.

(** The default values are tidy. *)
Lemma tidy_inputs_mount : tidy_inputs (inputs (dom (mount : World num))).
Proof.
  intros r. destruct r.
  - apply (tidy_value_String openInput 500); [lia | by exists 5].
  - apply (tidy_value_String depositInput 500); [lia | by exists 5].
  - apply (tidy_value_String withdrawInput 300); [lia | by exists 3].
  - apply (tidy_value_String loanInput 5000); [lia | by exists 5].
Qed.

(** The reducer leaves tidy inputs tidy: the only value it writes is the
    printed balance. *)
Lemma bankReducer_tidy_inputs state action d :
  tidy_account state → tidy_inputs (inputs d) →
  tidy_inputs (inputs (bankReducer state action d).2).
Proof.
  intros (b & l & Hs & Hb & _ & Hdb & _) Hi.
  destruct (bankReducer_inputs state action d) as [-> | (_ & _ & ->)]; [done|].
  apply tidy_inputs_set; [done|].
  rewrite Hs. cbn [balance acct]. rewrite sanitize_String.
  by apply (tidy_value_String withdrawInput).
Qed.

Lemma tidy_account_inv state :
  tidy_account state →
  ∃ b l act, state = acct b l act ∧ 0 ≤ b ∧ 0 ≤ l ∧ (100 | b) ∧ (1000 | l).
Proof. intros (b & l & Hs & ?). by exists b, l, (isActive state). Qed.

(** The four actions that carry an amount keep a tidy account tidy when the
    amount is a non-negative multiple of 100, of 1000 for a loan. *)
Lemma next_state_tidy state ty (z : Z) d :
  tidy_account state → 0 ≤ z → (100 | z) → (ty = "REQUEST_LOAN" → (1000 | z)) →
  ty ∈ ["OPEN_ACCOUNT"; "DEPOSIT"; "WITHDRAW"; "REQUEST_LOAN"] →
  tidy_account (next_state state (mkAction ty (num_lit z)) d).
Proof.
  intros (b & l & act & -> & Hb & Hl & Hdb & Hdl)%tidy_account_inv Hz Hdz Hloan.
  rewrite !elem_of_cons, elem_of_nil. intros [->|[->|[->|[->|[]]]]].
  - rewrite next_state_open. case_if; by apply tidy_account_acct.
  - rewrite next_state_deposit. apply tidy_account_acct; auto with bank; lia.
  - rewrite next_state_withdraw. destruct (Z.leb_spec z b);
      apply tidy_account_acct; auto with bank; lia.
  - rewrite next_state_loan. case_if; apply tidy_account_acct; auto with bank; lia.
Qed.

(** Paying a covered loan and closing keep a tidy account tidy. *)
Lemma pay_tidy state (x : num) d :
  tidy_account state → (balance state >= loan state)%js = true →
  tidy_account (next_state state (mkAction "PAY_LOAN" x) d).
Proof.
  intros (b & l & act & -> & Hb & Hl & Hdb & Hdl)%tidy_account_inv Hge.
  cbn in Hge. apply ge_lit_true in Hge. rewrite next_state_pay.
  case_if; apply tidy_account_acct; auto with bank; lia.
Qed.

Lemma close_tidy state (x : num) d :
  tidy_account state → tidy_account (next_state state (mkAction "CLOSE_ACCOUNT" x) d).
Proof.
  intros (b & l & act & -> & Hb & Hl & Hdb & Hdl)%tidy_account_inv.
  rewrite next_state_close. case_if; apply tidy_account_acct; auto with bank; lia.
Qed.

(** A dispatch of a known type in a tidy world gives a tidy world when the
    account it computes is tidy. *)
Lemma bankDispatch_tidy action w :
  tidy w → type action ∈ action_types →
  tidy_account (next_state (account w) action (dom w)) →
  tidy (bankDispatch action w).
Proof.
  intros [Ha Hi] Hty Hn. rewrite bankDispatch_known by done.
  split; [done|]. by apply bankReducer_tidy_inputs.
Qed.

(** A click in a tidy world gives a tidy world. *)
Lemma click_tidy label w : tidy w → tidy (click label w).
Proof.
  intros Ht. pose proof Ht as [Ha Hi].
  click_cases label w; try done; case_if; try done;
    apply bankDispatch_tidy; try done; try (unfold action_types; set_solver).
  - destruct (Hi openInput) as (z & Hn & Hz & Hg); cbn in Hn; rewrite Hn.
    apply next_state_tidy; auto with bank; [done | set_solver].
  - destruct (Hi depositInput) as (z & Hn & Hz & Hg); cbn in Hn; rewrite Hn.
    apply next_state_tidy; auto with bank; [done | set_solver].
  - destruct (Hi withdrawInput) as (z & Hn & Hz & Hg); cbn in Hn; rewrite Hn.
    apply next_state_tidy; auto with bank; [done | set_solver].
  - destruct (Hi loanInput) as (z & Hn & Hz & Hg); cbn in Hn; rewrite Hn.
    apply next_state_tidy; auto with bank; set_solver.
  - apply pay_tidy; [done|]. by apply andb_true_split in Hif as [_ ?].
  - by apply close_tidy.
Qed.

(** An edit that satisfies the input's attributes keeps the world tidy. *)
Lemma edit_tidy r value w :
  tidy w → valid_event w (Edit r value) → tidy (edit r value w).
Proof.
  intros [Ha Hi] Hv. rewrite (edit_run r value w _ (find_input_render r _)). case_if; [done|].
  split; [done|]. cbn. apply tidy_inputs_set; [done|].
  by apply (satisfies_tidy r (account w)).
Qed.

Lemma step_tidy w e : tidy w → valid_event w e → tidy (step w e).
Proof.
  intros Ht Hv. unfold step. destruct (crashed w); [done|].
  destruct e; [by apply click_tidy | by apply edit_tidy].
Qed.

Lemma tidy_mount : tidy (mount : World num).
Proof.
  split; [|apply tidy_inputs_mount].
  apply (tidy_account_acct 0 0 false); auto with bank; lia.
Qed.

(** A valid list of events keeps a tidy world tidy. *)
Lemma run_tidy w es : tidy w → valid_from w es → tidy (run w es).
Proof.
  revert w. induction es as [|e es IH]; intros w Ht; cbn; [done|].
  intros [He Hes]. apply IH; [by apply step_tidy | done].
Qed.

(** C3. With inputs that respect their attributes, balance and loan are
    integers that never go negative, the balance is a multiple of 100 and the
    loan a multiple of 1000, in every world the user can reach. *)
Theorem valid_tidy w : valid w → tidy w.
Proof.
  induction 1 as [|w e _ IH Hv]; [apply tidy_mount | by apply step_tidy].
Qed.

(** A click on Withdraw for more than the balance: the account stays, the
    console gets a line, the input gets the printed balance. *)
Lemma click_withdraw_refused (b l z : Z) d :
  0 < b → b < z → js_Number (withdrawValue (inputs d)) = num_lit z →
  click "Withdraw" (mkWorld (acct b l true) d None) =
    mkWorld (acct b l true)
      (mkDom (set_value_of withdrawInput (js_String (num_lit b : num)) (inputs d))
             (console d ++ ["Insufficient funds"])) None.
Proof.
  intros Hb Hz Hn. rewrite click_withdraw. cbn -[bankDispatch].
  rewrite (proj2 (gt_lit_true b 0)) by lia. unfold bankDispatch; cbn.
  rewrite withdraw_run, Hn; cbn. by rewrite sanitize_String, (proj2 (ge_lit_false b z)).
Qed.

(** A click on Withdraw for exactly the balance empties the account. *)
Lemma click_withdraw_all (b l : Z) d :
  0 < b → js_Number (withdrawValue (inputs d)) = num_lit b →
  click "Withdraw" (mkWorld (acct b l true) d None) = mkWorld (acct 0 l true) d None.
Proof.
  intros Hb Hn. rewrite click_withdraw. cbn -[bankDispatch].
  rewrite (proj2 (gt_lit_true b 0)) by lia. unfold bankDispatch; cbn.
  rewrite withdraw_run, Hn; cbn. rewrite (proj2 (ge_lit_true b b)) by lia.
  by rewrite sub_lit, Z.sub_diag.
Qed.

(** C26. After a withdrawal is refused for insufficient funds, the withdraw
    input holds the balance, so clicking Withdraw once more withdraws all of
    it: the account ends with balance 0 and the loan it had. *)
Theorem refused_withdrawal_retry (b l z : Z) d :
  0 < b → b < z → js_Number (withdrawValue (inputs d)) = num_lit z →
  let w1 := click "Withdraw" (mkWorld (acct b l true) d None) in
  account w1 = acct b l true ∧
  withdrawValue (inputs (dom w1)) = js_String (num_lit b : num) ∧
  account (click "Withdraw" w1) = acct 0 l true.
Proof.
  intros Hb Hz Hn. cbn zeta. rewrite (click_withdraw_refused b l z) by done.
  split_and!; try done.
  rewrite click_withdraw_all; [done | done |]. cbn. apply Number_String.
Qed.

End TidyFacts.

(** ** Witnesses on the integer instance *)

(** Opening with the default 500 and typing a deposit of 200. *)
Lemma valid_example :
  valid (step (step (mount : World znum) (Click "Open account with"))
              (Edit depositInput "200")).
Proof.
  apply valid_step; [apply valid_step; [apply valid_mount | done] |].
  intros i [= <-]. exists 200, 100, 5000, 100.
  by split_and!.
Defined.

Lemma valid_tidy_witness :
  tidy (step (step (mount : World znum) (Click "Open account with"))
             (Edit depositInput "200")).
Proof. apply valid_tidy, valid_example. Defined.

Lemma refused_withdrawal_retry_witness :
  let w1 := click "Withdraw" (mkWorld (acct 200 0 true : AccountState znum) dom0 None) in
  account w1 = acct 200 0 true ∧
  withdrawValue (inputs (dom w1)) = "200" ∧
  account (click "Withdraw" w1) = acct 0 0 true.
Proof.
  exact (refused_withdrawal_retry (num := znum) 200 0 300 dom0
           ltac:(lia) ltac:(lia) eq_refl).
Defined.
