(* ===== verification/Liveness.v ===== *)
(** * Liveness: the account can always be closed

    Closing needs a zero balance and no loan, the pay button needs the balance
    to cover the loan, and withdrawals are bounded by the balance.  This file
    shows that these conditions never lock the user in: from every world a
    user who respects the input attributes can reach, a further sequence of
    such events closes the account.  The sequence is computed by
    [closing_events]: deposit 5000 at a time until the loan is covered, pay
    the loan, withdraw the whole balance, close.

    The sequence is valid in the sense of [Invariants.valid_from]: every edit
    in it satisfies its input's attributes at the moment it is made. *)

From S2P Require Import Prelude JsNum Dom Account View App Invariants.

#[local] Open Scope js_scope.
#[local] Open Scope Z_scope.

(** ** Definitions *)

Section Closing.
Context `{JsNumber num}.
Implicit Types (w : World num) (e : Event).

(** How many deposits of 5000 cover a loan [l] from a balance [b]. *)
Definition deposits_needed (b l : Z) : nat := Z.to_nat ((l - b + 4999) / 5000).

(** The balance once the loan is paid, after those deposits. *)
Definition balance_after_pay (b l : Z) : Z :=
  if l =? 0 then b else b + 5000 * Z.of_nat (deposits_needed b l) - l.

(** The events that cover and pay the loan. *)
Definition pay_events (b l : Z) : list Event :=
  if l =? 0 then []
  else Edit depositInput (js_String (num_lit 5000 : num))
       :: replicate (deposits_needed b l) (Click "Deposit")
       ++ [Click "Pay your loan"].

(** The events that withdraw a balance [b]. *)
Definition empty_events (b : Z) : list Event :=
  if b =? 0 then []
  else [Edit withdrawInput (js_String (num_lit b : num)); Click "Withdraw"].

(** The events that close an active account with balance [b] and loan [l]. *)
Definition closing_events (b l : Z) : list Event :=
  pay_events b l ++ empty_events (balance_after_pay b l) ++ [Click "Close account"].

End Closing.


(** ** One event at a time, on integer accounts *)

Section ExactSteps.
Context `{JsExact num}.
Implicit Types (w : World num) (e : Event) (d : Dom) (b l z : Z).

(** The world with an active integer account, a store, and no crash. *)
#[local] Abbreviation W b l d := (mkWorld (acct b l true) d None).

Lemma step_edit_deposit b l d value :
  step (W b l d) (Edit depositInput value) =
    W b l (mkDom (set_value_of depositInput (sanitize value) (inputs d)) (console d)).
Proof. done. Qed.

Lemma step_edit_withdraw b l d value :
  0 < b →
  step (W b l d) (Edit withdrawInput value) =
    W b l (mkDom (set_value_of withdrawInput (sanitize value) (inputs d)) (console d)).
Proof.
  intros Hb. unfold step. cbn [crashed].
  rewrite (edit_run _ _ _ _ (find_input_render _ _)).
  cbn. by rewrite (proj2 (gt_lit_true b 0)).
Qed.

Lemma step_deposit b l z d :
  js_Number (depositValue (inputs d)) = num_lit z →
  step (W b l d) (Click "Deposit") = W (b + z) l d.
Proof.
  intros Hz. unfold step; cbn -[click]. rewrite click_deposit; cbn.
  unfold bankDispatch; cbn. by rewrite Hz, add_lit.
Qed.

Lemma step_pay b l d :
  l ≠ 0 → l ≤ b → step (W b l d) (Click "Pay your loan") = W (b - l) 0 d.
Proof.
  intros Hl Hb. unfold step; cbn -[click]. rewrite click_pay; cbn.
  rewrite (proj2 (seq_lit_false l 0)), (proj2 (ge_lit_true b l)) by done; cbn.
  unfold bankDispatch; cbn. rewrite payLoan_run; cbn.
  by rewrite (proj2 (seq_lit_false l 0)), sub_lit.
Qed.

Lemma step_withdraw_all b l d :
  0 < b → js_Number (withdrawValue (inputs d)) = num_lit b →
  step (W b l d) (Click "Withdraw") = W 0 l d.
Proof. intros. unfold step; cbn -[click]. by apply click_withdraw_all. Qed.

Lemma step_close d :
  step (W 0 0 d) (Click "Close account") = mkWorld initialState d None.
Proof.
  unfold step; cbn -[click]. rewrite click_close; cbn.
  rewrite (proj2 (seq_lit_true 0 0)) by done; cbn.
  unfold bankDispatch; cbn. rewrite closeAccount_run; cbn.
  by rewrite (proj2 (seq_lit_true 0 0)).
Qed.

(** [k] clicks on Deposit add [k] times the value of the deposit input. *)
Lemma run_deposits b l z d (k : nat) :
  js_Number (depositValue (inputs d)) = num_lit z →
  run (W b l d) (replicate k (Click "Deposit")) = W (b + z * Z.of_nat k) l d.
Proof.
  intros Hz. revert b. induction k as [|k IH]; intros b.
  - cbn. by rewrite Z.mul_0_r, Z.add_0_r.
  - cbn [replicate run foldl]. rewrite (step_deposit b l z d Hz).
    fold (run (W (b + z) l d) (replicate k (Click "Deposit"))). rewrite IH.
    rewrite Nat2Z.inj_succ, Z.mul_succ_r. do 2 f_equal. lia.
Qed.

(** The deposits computed cover the loan. *)
Lemma deposits_cover b l : l ≤ b + 5000 * Z.of_nat (deposits_needed b l).
Proof.
  unfold deposits_needed.
  pose proof (Z.div_mod (l - b + 4999) 5000 ltac:(lia)) as Hd.
  pose proof (Z.mod_pos_bound (l - b + 4999) 5000 ltac:(lia)) as Hm.
  destruct (Z.le_gt_cases 0 ((l - b + 4999) / 5000)).
  - rewrite Z2Nat.id by done. lia.
  - rewrite Z2Nat.nonpos by lia. lia.
Qed.

Lemma balance_after_pay_tidy b l :
  0 ≤ b → (100 | b) → (1000 | l) →
  0 ≤ balance_after_pay b l ∧ (100 | balance_after_pay b l).
Proof.
  intros Hb Hdb Hdl. unfold balance_after_pay. case_if; [done|].
  pose proof (deposits_cover b l). split; [lia|].
  apply Z.divide_sub_r; [apply Z.divide_add_r; [done|] | auto with bank].
  apply Z.divide_mul_l. by exists 50.
Qed.

(** With a loan of at most 50000 the closing sequence has at most 15 events:
    the edit of the deposit input, ten deposits, the payment, the edit of the
    withdraw input, the withdrawal and the closing. *)
Lemma closing_events_length b l :
  0 ≤ b → l ≤ 50000 → (length (closing_events (num := num) b l) ≤ 15)%nat.
Proof.
  intros Hb Hl. unfold closing_events, pay_events, empty_events.
  assert (deposits_needed b l ≤ 10)%nat as Hd.
  { unfold deposits_needed. apply Nat2Z.inj_le.
    destruct (Z.le_gt_cases 0 ((l - b + 4999) / 5000)).
    - rewrite Z2Nat.id by done. apply Z.lt_succ_r, Z.div_lt_upper_bound; lia.
    - rewrite Z2Nat.nonpos by lia. lia. }
  repeat case_if; rewrite ?length_app; cbn; rewrite ?length_app, ?length_replicate;
    cbn; lia.
Qed.

(** ** The three phases *)

(** Covering and paying the loan. *)
Lemma run_pay_events b l d :
  ∃ d', run (W b l d) (pay_events b l) = W (balance_after_pay b l) (0 : Z) d' ∧
        valid_from (W b l d) (pay_events b l).
Proof.
  unfold pay_events, balance_after_pay. destruct (Z.eqb_spec l 0) as [->|Hl].
  { by exists d. }
  set (d1 := mkDom (set_value_of depositInput (js_String (num_lit 5000 : num)) (inputs d))
                   (console d)).
  assert (js_Number (depositValue (inputs d1)) = (num_lit 5000 : num)) as Hn
    by apply Number_String.
  exists d1. cbn [run foldl valid_from]. rewrite step_edit_deposit, sanitize_String.
  fold d1. split.
  - fold (run (W b l d1) (replicate (deposits_needed b l) (Click "Deposit")
                          ++ [Click "Pay your loan"])).
    rewrite run_snoc, (run_deposits b l 5000 d1 _ Hn).
    apply step_pay; [done | apply deposits_cover].
  - split; [|apply valid_from_app; split; [apply valid_from_clicks | done]].
    intros i [= <-]. exists 5000, 100, 5000, 100.
    rewrite sanitize_String, Number_String. split_and!; try done. by exists 49.
Qed.

(** Withdrawing the whole balance. *)
Lemma run_empty_events b d :
  0 ≤ b → (100 | b) →
  ∃ d', run (W b 0 d) (empty_events b) = W (0 : Z) (0 : Z) d' ∧
        valid_from (W b 0 d) (empty_events b).
Proof.
  intros Hb [k Hk]. unfold empty_events. destruct (Z.eqb_spec b 0) as [->|Hb0].
  { by exists d. }
  eexists. cbn [run foldl valid_from]. rewrite step_edit_withdraw, sanitize_String by lia.
  split.
  - apply step_withdraw_all; [lia|]. apply Number_String.
  - split; [|done]. intros i [= <-]. exists b, 100, b, 100.
    rewrite sanitize_String, Number_String. split_and!; try done; try lia.
    exists (k - 1). lia.
Qed.

(** The closing sequence, phase after phase. *)
Lemma run_closing_events b l d :
  0 ≤ b → 0 ≤ l → (100 | b) → (1000 | l) →
  ∃ d', run (W b l d) (closing_events b l) = mkWorld initialState d' None ∧
        valid_from (W b l d) (closing_events b l).
Proof.
  intros Hb Hl Hdb Hdl. unfold closing_events.
  destruct (run_pay_events b l d) as (d1 & Hr1 & Hv1).
  destruct (balance_after_pay_tidy b l Hb Hdb Hdl) as [Hb1 Hdb1].
  destruct (run_empty_events _ d1 Hb1 Hdb1) as (d2 & Hr2 & Hv2).
  exists d2. rewrite !run_app, !valid_from_app, Hr1, Hr2. cbn [run foldl valid_from].
  by rewrite step_close.
Qed.

(** C25. The closing sequence works: from an active account with a
    non-negative balance on the 100 grid and a non-negative loan on the 1000
    grid, the events of [closing_events] all respect the input attributes and
    lead to the initial state without a crash. *)
Theorem closing_events_close b l d :
  0 ≤ b → 0 ≤ l → (100 | b) → (1000 | l) →
  valid_from (W b l d) (closing_events b l) ∧
  account (run (W b l d) (closing_events b l)) = initialState ∧
  crashed (run (W b l d) (closing_events b l)) = None.
Proof.
  intros Hb Hl Hdb Hdl.
  destruct (run_closing_events b l d Hb Hl Hdb Hdl) as (d' & -> & Hv). done.
Qed.

End ExactSteps.

Section CanClose.
Context `{JsExact num}.
Implicit Types (w : World num).

(** C6. No lock-in: from every world a user who respects the input
    attributes can reach, some further events of the same kind close the
    account, leaving the initial state. *)
Theorem can_always_close w :
  valid w →
  ∃ es, valid_from w es ∧ account (run w es) = initialState ∧ valid (run w es).
Proof.
  intros Hv. pose proof Hv as (es0 & Hes0 & <-)%valid_runs.
  destruct (run_safe mount es0 safe_mount) as [Hc Hi].
  destruct (run_tidy mount es0 tidy_mount Hes0)
    as [(b & l & Ha & Hb & Hl & Hdb & Hdl) _].
  destruct (isActive (account (run mount es0))) eqn:Hact.
  - destruct (run mount es0) as [a d c]; cbn in *; subst a c.
    destruct (run_closing_events b l d Hb Hl Hdb Hdl) as (d' & Hr & Hvf).
    exists (closing_events b l). rewrite Hr. split_and!; try done.
    rewrite <- Hr. by apply valid_run.
  - exists []. split_and!; try done. by apply Hi.
Qed.

End CanClose.

(** ** Witnesses on the integer instance *)

(** From balance 0 and loan 5000: one deposit of 5000, pay, close. *)
Example closing_events_example :
  closing_events (num := znum) 0 5000 =
    [Edit depositInput "5000"; Click "Deposit"; Click "Pay your loan";
     Click "Close account"].
Proof. by vm_compute. Qed.

Lemma closing_events_close_witness :
  let w := mkWorld (acct 0 5000 true : AccountState znum) dom0 None in
  valid_from w (closing_events 0 5000) ∧
  account (run w (closing_events 0 5000)) = initialState ∧
  crashed (run w (closing_events 0 5000)) = None.
Proof.
  exact (closing_events_close (num := znum) 0 5000 dom0
           ltac:(lia) ltac:(lia) (Z.divide_0_r 100) (ex_intro _ 5 eq_refl)).
Defined.

Lemma can_always_close_witness :
  ∃ es, valid_from (step (step (mount : World znum) (Click "Open account with"))
                         (Edit depositInput "200")) es ∧
        account (run (step (step (mount : World znum) (Click "Open account with"))
                           (Edit depositInput "200")) es) = initialState ∧
        valid (run (step (step (mount : World znum) (Click "Open account with"))
                         (Edit depositInput "200")) es).
Proof. exact (can_always_close _ valid_example). Defined.
