(* ===== verification/Bounds.v ===== *)
(** * Bounds: the numbers stay safe integers

    JavaScript numbers are doubles; integer arithmetic on them is exact as
    long as operands and results stay within 2^53 in absolute value.  The
    inputs cap what one event can add to the balance: at most 2000 on
    opening, 5000 per deposit and 50000 per loan.  So after [n] events of a
    user who respects the input attributes the balance is at most 50000 * n,
    and the loan never exceeds 50000.  Below [safe_events] events every
    number the reducer computes is a safe integer, which is the range in
    which the exact arithmetic assumed by [JsExact] is the arithmetic of
    doubles. *)

From S2P Require Import Prelude JsNum Dom Account View App Invariants Liveness.

#[local] Open Scope js_scope.
#[local] Open Scope Z_scope.

(** ** Definitions *)

(** The most one event adds to the balance. *)
Definition max_credit : Z := 50000.

(** The number of events up to which the balance is a safe integer. *)
Definition safe_events : Z := MAX_SAFE_INTEGER / max_credit.

(** The [max] attribute of each input; that of the withdraw input is the
    balance, which after [n] events is at most [n] credits, and its default
    value is 300. *)
Definition cap (n : nat) (r : Ref) : Z :=
  match r with
  | openInput => 2000
  | depositInput => 5000
  | withdrawInput => Z.max 300 (max_credit * Z.of_nat n)
  | loanInput => 50000
  end.

Section Bounded.
Context `{JsNumber num}.
Implicit Types (w : World num).

(** Every input holds a non-negative integer within its [max]. *)
Definition capped_inputs (n : nat) (inp : Inputs) : Prop :=
  ∀ r, ∃ z, js_Number (value_of r inp) = num_lit z ∧ 0 ≤ z ≤ cap n r.

(** An account whose balance is at most [n] credits and whose loan is at most
    one. *)
Definition bounded_account (n : nat) (state : AccountState num) : Prop :=
  ∃ b l, state = acct b l (isActive state) ∧
         0 ≤ b ≤ max_credit * Z.of_nat n ∧ 0 ≤ l ≤ max_credit.

Definition bounded (n : nat) w : Prop :=
  bounded_account n (account w) ∧ capped_inputs n (inputs (dom w)).

End Bounded.

(** ** Lemmas *)

Section BoundedFacts.
Context `{JsExact num}.
Implicit Types (w : World num) (e : Event) (d : Dom) (n : nat).
Implicit Types (state : AccountState num) (action : Action num).

Lemma capped_inputs_mount : capped_inputs 0 (inputs (dom (mount : World num))).
Proof. intros r. destruct r; eexists; (split; [apply Number_String | cbn; lia]). Qed.

Lemma cap_S n r : cap n r ≤ cap (S n) r.
Proof. destruct r; unfold cap, max_credit; lia. Qed.

Lemma capped_inputs_S n inp : capped_inputs n inp → capped_inputs (S n) inp.
Proof.
  intros Hc r. destruct (Hc r) as (z & Hz & Hle). exists z. split; [done|].
  pose proof (cap_S n r). lia.
Qed.

Lemma bounded_account_acct n (b l : Z) act :
  0 ≤ b ≤ max_credit * Z.of_nat n → 0 ≤ l ≤ max_credit →
  bounded_account n (acct b l act : AccountState num).
Proof. intros. by exists b, l. Qed.

Lemma bounded_account_inv n state :
  bounded_account n state →
  ∃ b l act, state = acct b l act ∧
             0 ≤ b ≤ max_credit * Z.of_nat n ∧ 0 ≤ l ≤ max_credit.
Proof. intros (b & l & Hs & ?). by exists b, l, (isActive state). Qed.

(** The reducer keeps the inputs capped: the only value it writes is the
    printed balance, into the withdraw input. *)
Lemma bankReducer_capped_inputs n state action d :
  bounded_account n state → capped_inputs n (inputs d) →
  capped_inputs n (inputs (bankReducer state action d).2).
Proof.
  intros (b & l & Hs & Hb & _) Hc.
  destruct (bankReducer_inputs state action d) as [-> | (_ & _ & ->)]; [done|].
  intros r. destruct (decide (withdrawInput = r)) as [<-|Hne].
  - exists b. rewrite value_of_set_eq, Hs; cbn. rewrite sanitize_String, Number_String.
    split; [done | lia].
  - rewrite value_of_set_ne by done. apply Hc.
Qed.

(** A valid edit keeps the inputs capped. *)
Lemma edit_capped n r value w :
  bounded n w → valid_event w (Edit r value) →
  capped_inputs n (inputs (dom (edit r value w))).
Proof.
  intros [(b & l & Ha & Hb & _) Hc] Hv. rewrite (edit_run r value w _ (find_input_render r _)).
  case_if; [done|]. cbn.
  intros r'. destruct (decide (r = r')) as [<-|Hne].
  - rewrite value_of_set_eq. specialize (Hv _ (find_input_render r (account w))).
    destruct Hv as (z & mn & mx & st & Hz & Hmn & Hmx & _ & [Hge Hle] & _).
    exists z. split; [done|]. rewrite Ha in Hmx.
    destruct r; cbn in Hmn, Hmx; apply lit_inj in Hmn, Hmx; subst mn mx; cbn; lia.
  - rewrite value_of_set_ne by done. by apply Hc.
Qed.

(** One dispatch with an amount adds at most one credit to the balance and
    keeps the loan within one credit. *)
Lemma next_state_bounded n state ty (z : Z) d :
  bounded_account n state → 0 ≤ z → (ty ≠ "WITHDRAW" → z ≤ max_credit) →
  ty ∈ ["OPEN_ACCOUNT"; "DEPOSIT"; "WITHDRAW"; "REQUEST_LOAN"] →
  bounded_account (S n) (next_state state (mkAction ty (num_lit z)) d).
Proof.
  intros (b & l & act & -> & Hb & Hl)%bounded_account_inv Hz Hzc.
  unfold max_credit in *. rewrite !elem_of_cons, elem_of_nil.
  intros [->|[->|[->|[->|[]]]]]; try specialize (Hzc ltac:(done)).
  - rewrite next_state_open. case_if; apply bounded_account_acct; unfold max_credit; lia.
  - rewrite next_state_deposit. apply bounded_account_acct; unfold max_credit; lia.
  - rewrite next_state_withdraw. destruct (Z.leb_spec z b);
      apply bounded_account_acct; unfold max_credit; lia.
  - rewrite next_state_loan. destruct (Z.eqb_spec l 0);
      apply bounded_account_acct; unfold max_credit; lia.
Qed.

(** Paying a covered loan and closing do not raise the balance. *)
Lemma pay_bounded n state (x : num) d :
  bounded_account n state → (balance state >= loan state)%js = true →
  bounded_account (S n) (next_state state (mkAction "PAY_LOAN" x) d).
Proof.
  intros (b & l & act & -> & Hb & Hl)%bounded_account_inv Hge.
  cbn in Hge. apply ge_lit_true in Hge. rewrite next_state_pay.
  unfold max_credit in *.
  case_if; apply bounded_account_acct; unfold max_credit; lia.
Qed.

Lemma close_bounded n state (x : num) d :
  bounded_account n state →
  bounded_account (S n) (next_state state (mkAction "CLOSE_ACCOUNT" x) d).
Proof.
  intros (b & l & act & -> & Hb & Hl)%bounded_account_inv. rewrite next_state_close.
  unfold max_credit in *.
  case_if; apply bounded_account_acct; unfold max_credit; lia.
Qed.

(** A world that stays as it is remains bounded by one more event. *)
Lemma bounded_S n w : bounded n w → bounded (S n) w.
Proof.
  intros [(b & l & Ha & Hb & Hl) Hc]. split; [|by apply capped_inputs_S].
  exists b, l. split; [done|]. unfold max_credit in *. lia.
Qed.

Lemma bankDispatch_bounded n action w :
  bounded n w → type action ∈ action_types →
  bounded_account (S n) (next_state (account w) action (dom w)) →
  bounded (S n) (bankDispatch action w).
Proof.
  intros [Ha Hc] Hty Hn. rewrite bankDispatch_known by done.
  split; [done|]. by apply capped_inputs_S, bankReducer_capped_inputs.
Qed.

Lemma click_bounded n label w : bounded n w → bounded (S n) (click label w).
Proof.
  intros Hb. pose proof Hb as [Ha Hc].
  click_cases label w; try (by apply bounded_S); case_if; try (by apply bounded_S);
    apply bankDispatch_bounded; try done; try (unfold action_types; set_solver).
  - destruct (Hc openInput) as (z & Hn & [Hz Hcap]); cbn in Hn; rewrite Hn.
    apply next_state_bounded; try done; try set_solver;
      intros _; cbn in Hcap; unfold max_credit; lia.
  - destruct (Hc depositInput) as (z & Hn & [Hz Hcap]); cbn in Hn; rewrite Hn.
    apply next_state_bounded; try done; try set_solver;
      intros _; cbn in Hcap; unfold max_credit; lia.
  - destruct (Hc withdrawInput) as (z & Hn & [Hz _]); cbn in Hn; rewrite Hn.
    apply next_state_bounded; try done; set_solver.
  - destruct (Hc loanInput) as (z & Hn & [Hz Hcap]); cbn in Hn; rewrite Hn.
    apply next_state_bounded; try done; try set_solver;
      intros _; cbn in Hcap; unfold max_credit; lia.
  - apply pay_bounded; [done|]. by apply andb_true_split in Hif as [_ ?].
  - by apply close_bounded.
Qed.

Lemma step_bounded n w e : bounded n w → valid_event w e → bounded (S n) (step w e).
Proof.
  intros Hb Hv. unfold step. destruct (crashed w); [by apply bounded_S|].
  destruct e as [label|r value]; [by apply click_bounded|].
  apply bounded_S. split.
  - rewrite edit_account. apply Hb.
  - by apply edit_capped.
Qed.

Lemma bounded_mount : bounded 0 (mount : World num).
Proof.
  split; [|apply capped_inputs_mount].
  apply (bounded_account_acct 0 0 0 false); unfold max_credit; lia.
Qed.

(** Each valid event allows one more credit. *)
Lemma run_bounded n w es :
  bounded n w → valid_from w es → bounded (n + length es) (run w es).
Proof.
  revert n w. induction es as [|e es IH]; intros n w Hb; cbn.
  - intros _. by rewrite Nat.add_0_r.
  - intros [He Hes]. rewrite <- Nat.add_succ_comm. apply IH; [|done].
    by apply step_bounded.
Qed.

(** A bounded world within the event budget holds safe integers. *)
Lemma bounded_safe n w :
  bounded n w → Z.of_nat n ≤ safe_events →
  ∃ b l, account w = acct b l (isActive (account w)) ∧
         0 ≤ b ≤ MAX_SAFE_INTEGER ∧ 0 ≤ l ≤ MAX_SAFE_INTEGER.
Proof.
  intros [(b & l & Ha & Hb & Hl) _] Hn. exists b, l. split; [done|].
  assert (max_credit * safe_events ≤ MAX_SAFE_INTEGER) by by vm_compute.
  assert (max_credit ≤ MAX_SAFE_INTEGER) by by vm_compute.
  unfold max_credit in *. lia.
Qed.

(** C21. After [n] events that respect the input attributes the balance is
    between 0 and 50000 * n and the loan between 0 and 50000. *)
Theorem valid_bounded (es : list Event) :
  valid_from (mount : World num) es → bounded (length es) (run mount es).
Proof.
  intros Hes. exact (run_bounded 0 mount es bounded_mount Hes).
Qed.

(** C22. Up to [safe_events] events (more than 180 thousand million) balance
    and loan are safe integers, at most [Number.MAX_SAFE_INTEGER]. *)
Theorem valid_safe_integers (es : list Event) :
  valid_from (mount : World num) es → Z.of_nat (length es) ≤ safe_events →
  ∃ b l, account (run mount es) = acct b l (isActive (account (run mount es))) ∧
         0 ≤ b ≤ MAX_SAFE_INTEGER ∧ 0 ≤ l ≤ MAX_SAFE_INTEGER.
Proof.
  intros Hv Hlen. apply (bounded_safe (length es)); [|done].
  exact (run_bounded 0 mount es bounded_mount Hv).
Qed.

End BoundedFacts.

(** ** Witnesses on the integer instance *)

Example safe_events_value : safe_events = 180143985094.
Proof. by vm_compute. Qed.

Lemma valid_from_round_trip : valid_from (mount : World znum) round_trip.
Proof.
  cbn. split_and!; try done.
  - intros i [= <-]. exists 200, 100, 5000, 100. by split_and!.
  - intros i [= <-]. exists 700, 100, 700, 100. split_and!; try done. by exists 6.
Defined.

Lemma valid_bounded_witness :
  bounded (length round_trip) (run (mount : World znum) round_trip).
Proof. exact (valid_bounded round_trip valid_from_round_trip). Defined.

Lemma valid_safe_integers_witness :
  ∃ b l, account (run (mount : World znum) round_trip)
           = acct b l (isActive (account (run (mount : World znum) round_trip))) ∧
         0 ≤ b ≤ MAX_SAFE_INTEGER ∧ 0 ≤ l ≤ MAX_SAFE_INTEGER.
Proof.
  exact (valid_safe_integers round_trip valid_from_round_trip ltac:(by vm_compute)).
Defined.
