(* ===== verification/Console.v ===== *)
(** * Console: the console is an output log

    [bankReducer] calls [console.log] twice (App-ref.js 43 and 56) and nothing
    in [App] reads the console.  This file makes that precise.  Two worlds are
    equivalent ([≡]) when they differ in their consoles only; every operation
    of [App] respects the equivalence ([Proper] instances), and what an
    operation appends to the console does not depend on what the console held
    ([pre], [run_pre]).  So the console can be dropped from any argument about
    accounts and inputs, and restored afterwards.

    The file also states what the console of a reachable world contains: the
    two messages of the reducer and nothing else, with "account opened"
    present whenever the account is active ([reachable_console]), and once
    for each event that opened the account ([console_counts_openings]). *)

From S2P Require Import Prelude JsNum Dom Account View App.

#[local] Open Scope js_scope.

(** ** Definitions *)

(** The lines the reducer can log. *)
Definition messages : list string := ["account opened"; "Insufficient funds"].

(** The store with [c] put before its console lines. *)
Definition pre_dom (c : list string) (d : Dom) : Dom :=
  mkDom (inputs d) (c ++ console d).

Section Console.
Context `{JsNumber num}.
Implicit Types (w : World num) (e : Event) (c : list string).

Definition pre c w : World num :=
  mkWorld (account w) (pre_dom c (dom w)) (crashed w).

(** The world with an empty console. *)
Definition erase w : World num :=
  mkWorld (account w) (mkDom (inputs (dom w)) []) (crashed w).

(** Worlds that differ in their consoles only. *)
#[export] Instance world_equiv : Equiv (World num) := λ w1 w2, erase w1 = erase w2.

(** The number of lines "account opened" on a console. *)
Definition opened_lines (c : list string) : nat :=
  length (filter (λ line, line = "account opened") c).

#[global] Arguments opened_lines : simpl never.

(** The event opens the account: it was closed before and is open after. *)
Definition opens w e : bool :=
  negb (isActive (account w)) && isActive (account (step w e)).

(** The number of events of a run that open the account. *)
Fixpoint openings w (es : list Event) : nat :=
  match es with
  | [] => 0
  | e :: es' => (if opens w e then 1 else 0) + openings (step w e) es'
  end.

(** The console invariant of reachable worlds. *)
Definition console_ok w : Prop :=
  (∀ line, line ∈ console (dom w) → line ∈ messages) ∧
  (isActive (account w) = true → "account opened" ∈ console (dom w)).

End Console.

(** [pre_fields]: the fields of [pre c w] in the goal. *)
Ltac pre_fields :=
  repeat match goal with
         | |- context [account (pre ?c ?w)] =>
             change (account (pre c w)) with (account w)
         | |- context [crashed (pre ?c ?w)] =>
             change (crashed (pre c w)) with (crashed w)
         | |- context [dom (pre ?c ?w)] =>
             change (dom (pre c w)) with (pre_dom c (dom w))
         end.

(** ** Lemmas *)

Section ConsoleFacts.
Context `{JsNumber num}.
Implicit Types (w : World num) (e : Event) (c : list string) (d : Dom).

#[export] Instance world_equiv_equivalence : Equivalence (≡@{World num}).
Proof.
  unfold equiv, world_equiv. split; [done | by intros ?? | by intros ??? -> ->].
Qed.

Lemma world_equiv_spec w1 w2 :
  w1 ≡ w2 ↔
  account w1 = account w2 ∧ inputs (dom w1) = inputs (dom w2) ∧
  crashed w1 = crashed w2.
Proof.
  unfold equiv, world_equiv, erase. split; [by intros [= -> -> ->]|].
  by intros (-> & -> & ->).
Qed.

Lemma pre_nil w : pre [] w = w.
Proof. by destruct w as [a [i c] k]. Qed.

Lemma pre_app c1 c2 w : pre (c1 ++ c2) w = pre c1 (pre c2 w).
Proof. unfold pre, pre_dom; cbn. by rewrite (assoc_L (++)). Qed.

Lemma pre_erase w : pre (console (dom w)) (erase w) = w.
Proof. destruct w as [a [i c] k]. unfold pre, pre_dom; cbn. by rewrite app_nil_r. Qed.

Lemma pre_equiv c w : pre c w ≡ w.
Proof. done. Qed.

Lemma erase_equiv w : erase w ≡ w.
Proof. done. Qed.

(** Two equivalent worlds are one world behind two consoles. *)
Lemma world_equiv_pre w1 w2 :
  w1 ≡ w2 →
  w1 = pre (console (dom w1)) (erase w1) ∧ w2 = pre (console (dom w2)) (erase w1).
Proof.
  unfold equiv, world_equiv. intros Hw. split; [by rewrite pre_erase|].
  by rewrite Hw, pre_erase.
Qed.

(** The reducer appends to the console without reading it. *)
Lemma bankReducer_pre (state : AccountState num) (action : Action num) c d :
  bankReducer state action (pre_dom c d) =
    ((bankReducer state action d).1, pre_dom c (bankReducer state action d).2).
Proof.
  unfold pre_dom. reducer_cases state action; repeat case_if; cbn;
    by rewrite ?(assoc_L (++)).
Qed.

Lemma bankDispatch_pre (action : Action num) c w :
  bankDispatch action (pre c w) = pre c (bankDispatch action w).
Proof.
  unfold bankDispatch. pre_fields. rewrite bankReducer_pre.
  by destruct (bankReducer (account w) action (dom w)) as [[?|?] ?].
Qed.

Lemma click_pre label c w : click label (pre c w) = pre c (click label w).
Proof.
  unfold click. pre_fields.
  destruct (find_button label (render (account w))) as [b|]; [|done].
  destruct (btn_disabled b); [done|]. rewrite !run_handler_run.
  apply (bankDispatch_pre _ c (mkWorld (account w) (dom w) (crashed w))).
Qed.

Lemma edit_pre r value c w : edit r value (pre c w) = pre c (edit r value w).
Proof.
  unfold edit. pre_fields.
  destruct (find_input r (render (account w))) as [i|]; [|done].
  by destruct (in_disabled i).
Qed.

Lemma step_pre c w e : step (pre c w) e = pre c (step w e).
Proof.
  unfold step. pre_fields. destruct (crashed w); [done|].
  destruct e as [label|r v]; [apply click_pre | apply edit_pre].
Qed.

(** Running from a world with [c] before its console gives the same world
    with [c] before its console. *)
Lemma run_pre c w es : run (pre c w) es = pre c (run w es).
Proof.
  revert w. induction es as [|e es IH]; intros w; [done|].
  change (run (step (pre c w) e) es = pre c (run (step w e) es)).
  by rewrite step_pre, IH.
Qed.

(** ** The operations respect the equivalence *)

#[export] Instance account_proper : Proper ((≡) ==> (=)) (account (num := num)).
Proof. by intros w1 w2 (-> & _)%world_equiv_spec. Qed.

#[export] Instance crashed_proper : Proper ((≡) ==> (=)) (crashed (num := num)).
Proof. by intros w1 w2 (_ & _ & ->)%world_equiv_spec. Qed.

#[export] Instance step_proper : Proper ((≡) ==> (=) ==> (≡)) (step (num := num)).
Proof.
  intros w1 w2 [-> ->]%world_equiv_pre e ? <-. by rewrite !step_pre, !pre_equiv.
Qed.

#[export] Instance click_proper label : Proper ((≡) ==> (≡)) (click (num := num) label).
Proof.
  intros w1 w2 [-> ->]%world_equiv_pre. by rewrite !click_pre, !pre_equiv.
Qed.

#[export] Instance edit_proper r value :
  Proper ((≡) ==> (≡)) (edit (num := num) r value).
Proof.
  intros w1 w2 [-> ->]%world_equiv_pre. by rewrite !edit_pre, !pre_equiv.
Qed.

#[export] Instance run_proper : Proper ((≡) ==> (=) ==> (≡)) (run (num := num)).
Proof.
  intros w1 w2 [-> ->]%world_equiv_pre es ? <-. by rewrite !run_pre, !pre_equiv.
Qed.

#[export] Instance safe_proper : Proper ((≡) ==> iff) (safe (num := num)).
Proof. intros w1 w2 Hw. unfold safe. by rewrite Hw. Qed.

(** ** What the console holds *)

Lemma bankReducer_console (state : AccountState num) (action : Action num) d :
  let r := bankReducer state action d in
  console r.2 = console d ∧
    (∀ state', r.1 = Ok state' → isActive state' = true → isActive state = true) ∨
  console r.2 = console d ++ ["account opened"] ∨
  console r.2 = console d ++ ["Insufficient funds"] ∧ r.1 = Ok state.
Proof.
  reducer_cases state action; repeat case_if; cbn; auto;
    left; (split; [done|]); by intros ? [= <-].
Qed.

Lemma console_ok_mount : console_ok (mount : World num).
Proof. split; [by intros ? ?%elem_of_nil | done]. Qed.

Lemma bankDispatch_console (action : Action num) w :
  console_ok w → console_ok (bankDispatch action w).
Proof.
  intros [Hl Ha]. unfold bankDispatch, console_ok, messages in *.
  destruct (bankReducer_console (account w) action (dom w)) as [[Hc Hs]|[Hc|[Hc Hs]]];
    destruct (bankReducer _ _ _) as [[s|err] d'] eqn:E; cbn in *; rewrite Hc;
    try setoid_rewrite elem_of_app; set_solver.
Qed.

Lemma step_console w e : console_ok w → console_ok (step w e).
Proof.
  intros Hw. unfold step. destruct (crashed w); [done|]. destruct e as [label|r v].
  - unfold click. destruct (find_button label (render (account w))) as [b|]; [|done].
    destruct (btn_disabled b); [done|]. rewrite run_handler_run.
    by apply bankDispatch_console.
  - unfold edit. destruct (find_input r (render (account w))) as [i|]; [|done].
    by destruct (in_disabled i).
Qed.

Lemma run_console w es : console_ok w → console_ok (run w es).
Proof.
  revert w. induction es as [|e es IH]; intros w Hw; [done|].
  by apply IH, step_console.
Qed.

Lemma opened_lines_app c1 c2 :
  opened_lines (c1 ++ c2) = (opened_lines c1 + opened_lines c2)%nat.
Proof. unfold opened_lines. by rewrite list.filter_app, length_app. Qed.

Lemma opened_lines_opened c :
  opened_lines (c ++ ["account opened"]) = S (opened_lines c).
Proof.
  rewrite opened_lines_app. change (opened_lines ["account opened"]) with 1%nat. lia.
Qed.

Lemma opened_lines_refused c :
  opened_lines (c ++ ["Insufficient funds"]) = opened_lines c.
Proof.
  rewrite opened_lines_app. change (opened_lines ["Insufficient funds"]) with 0%nat. lia.
Qed.

(** The reducer logs "account opened" when it opens the account, and only
    then. *)
Lemma bankDispatch_opened (action : Action num) w :
  opened_lines (console (dom (bankDispatch action w))) =
    (opened_lines (console (dom w)) +
     if negb (isActive (account w)) && isActive (account (bankDispatch action w))
     then 1 else 0)%nat.
Proof.
  unfold bankDispatch. destruct w as [state d k]; cbn.
  destruct (isActive state) eqn:Ha;
    reducer_cases state action; rewrite ?Ha; repeat (case_if; cbn in * );
    rewrite ?opened_lines_opened, ?opened_lines_refused, ?Ha; cbn;
    try done; try lia; congruence.
Qed.

Lemma step_opened w e :
  opened_lines (console (dom (step w e))) =
    (opened_lines (console (dom w)) + if opens w e then 1 else 0)%nat.
Proof.
  unfold opens.
  assert (∀ w', w' = w →
    opened_lines (console (dom w')) =
      (opened_lines (console (dom w)) +
       if negb (isActive (account w)) && isActive (account w') then 1 else 0)%nat)
    as Hsame by (intros ? ->; destruct (isActive (account w)); cbn; lia).
  unfold step. destruct (crashed w); [by apply Hsame|]. destruct e as [label|r v].
  - unfold click. destruct (find_button label (render (account w))) as [b|];
      [|by apply Hsame].
    destruct (btn_disabled b); [by apply Hsame|]. rewrite run_handler_run.
    apply (bankDispatch_opened _ (mkWorld (account w) (dom w) (crashed w))).
  - rewrite edit_account. unfold edit.
    destruct (find_input r (render (account w))) as [i|]; [|by apply Hsame].
    destruct (in_disabled i); [by apply Hsame|]. cbn [dom console].
    destruct (isActive (account w)); cbn [negb andb]; lia.
Qed.

Lemma run_opened w es :
  opened_lines (console (dom (run w es))) =
    (opened_lines (console (dom w)) + openings w es)%nat.
Proof.
  revert w. induction es as [|e es IH]; intros w; cbn [run foldl openings]; [lia|].
  change (foldl step (step w e) es) with (run (step w e) es).
  rewrite IH, step_opened. lia.
Qed.

End ConsoleFacts.

(** ** Theorems *)

Section ConsoleTheorems.
Context `{JsNumber num}.
Implicit Types (w : World num) (e : Event).

(** The console is write-only.  Two worlds that differ only in their
    consoles stay so under every list of events, and the events append the
    same lines to both consoles. *)
Lemma console_write_only w1 w2 (es : list Event) :
  w1 ≡ w2 →
  run w1 es ≡ run w2 es ∧
  ∃ out, console (dom (run w1 es)) = console (dom w1) ++ out ∧
         console (dom (run w2 es)) = console (dom w2) ++ out.
Proof.
  intros Hw. split; [by rewrite Hw|].
  destruct (world_equiv_pre w1 w2 Hw) as [H1 H2].
  exists (console (dom (run (erase w1) es))).
  rewrite H1 at 1. rewrite H2 at 1. by rewrite !run_pre.
Qed.

(** C36. The console of a reachable world holds only the reducer's two
    messages, and holds "account opened" whenever the account is active. *)
Theorem reachable_console w :
  reachable w →
  (∀ line, line ∈ console (dom w) → line ∈ messages) ∧
  (isActive (account w) = true → "account opened" ∈ console (dom w)).
Proof. intros [es <-]. apply run_console, console_ok_mount. Qed.

(** C37. The console counts the openings.  After any events from the mounted
    component, the number of lines "account opened" is the number of events
    that opened the account: every opening is logged once, and nothing else
    logs that line. *)
Theorem console_counts_openings (es : list Event) :
  opened_lines (console (dom (run (mount : World num) es))) = openings mount es.
Proof. by rewrite run_opened. Qed.

End ConsoleTheorems.

(** ** Witnesses *)

Lemma reachable_console_witness :
  let w := run (mount : World znum) withdraw_thrice in
  (∀ line, line ∈ console (dom w) → line ∈ messages) ∧
  (isActive (account w) = true → "account opened" ∈ console (dom w)).
Proof. apply reachable_console. by exists withdraw_thrice. Defined.
