(* ===== verification/Strict.v ===== *)
(** * Strict: the reducer called twice

    [bankReducer] is not a pure function: it logs, and on a refused
    withdrawal it assigns the withdraw input.  React documents that in Strict
    Mode it calls a reducer twice with the same arguments and drops one of
    the two results, so that such impurities show.  This file models that
    regime and measures the damage: [strictReducer] is the reducer called
    twice in a row, [run_with] runs the component with a given dispatch
    function, and the component under the doubled reducer is compared with
    the component of [App].

    The two calls return the same state, whatever the first one did to the
    store, and the second call's write to the withdraw input repeats the
    first; only the console tells the regimes apart, each message being
    logged twice.  Whether the source is mounted in Strict Mode is decided
    outside [App-ref.js]; the comparison holds either way. *)

From S2P Require Import Prelude JsNum Dom Account View App Console.

#[local] Open Scope js_scope.

(** ** Definitions *)

Section Strict.
Context `{JsNumber num}.
Implicit Types (state : AccountState num) (action : Action num) (w : World num).

(** The reducer called twice with the same state and action; the value of
    the second call is kept. *)
Definition strictReducer state action : Eff Dom Error (AccountState num) :=
  _ ← bankReducer state action; bankReducer state action.

(** [bankDispatch] with the doubled reducer. *)
Definition strictDispatch action w : World num :=
  match strictReducer (account w) action (dom w) with
  | (Ok account', dom') => mkWorld account' dom' (crashed w)
  | (Throw err, dom') => mkWorld (account w) dom' (Some err)
  end.

(** The component of [App] over a dispatch function. *)
Definition click_with (dispatch : Action num → World num → World num)
    (label : string) w : World num :=
  match find_button label (render (account w)) with
  | Some b =>
      if btn_disabled b then w
      else match run_handler (btn_onClick b) (dom w) with
           | (Ok action, dom') => dispatch action (mkWorld (account w) dom' (crashed w))
           | (Throw err, dom') => mkWorld (account w) dom' (Some err)
           end
  | None => w
  end.

Definition step_with dispatch w (e : Event) : World num :=
  match crashed w with
  | Some _ => w
  | None =>
      match e with
      | Click label => click_with dispatch label w
      | Edit r value => edit r value w
      end
  end.

Definition run_with dispatch w (es : list Event) : World num :=
  foldl (step_with dispatch) w es.

(** What one call of the reducer logs. *)
Definition logs state action (d : Dom) : list string :=
  drop (length (console d)) (console (bankReducer state action d).2).

End Strict.

(** ** Lemmas *)

Section StrictFacts.
Context `{JsNumber num}.
Implicit Types (state : AccountState num) (action : Action num) (w : World num).
Implicit Types (d : Dom) (e : Event).

(** The component over [bankDispatch] is the component of [App]. *)
Lemma run_with_bankDispatch w es : run_with bankDispatch w es = run w es.
Proof. done. Qed.

(** The state the reducer returns does not depend on the store. *)
Lemma bankReducer_state state action d d' :
  (bankReducer state action d).1 = (bankReducer state action d').1.
Proof. reducer_cases state action; by repeat case_if. Qed.

(** The reducer appends what it logs. *)
Lemma bankReducer_logs state action d :
  console (bankReducer state action d).2 = console d ++ logs state action d.
Proof.
  unfold logs. reducer_cases state action; repeat case_if; cbn;
    by rewrite ?drop_app_length, ?drop_all, ?app_nil_r.
Qed.

Lemma logs_store state action d d' : logs state action d = logs state action d'.
Proof.
  unfold logs. reducer_cases state action; repeat case_if; cbn;
    by rewrite ?drop_app_length, ?drop_all.
Qed.

(** A call that throws has logged nothing. *)
Lemma logs_throw state action d :
  is_ok (bankReducer state action d).1 = false → logs state action d = [].
Proof.
  unfold logs. reducer_cases state action; repeat case_if; cbn; try done.
  by rewrite drop_all.
Qed.

(** A second call writes what the first wrote. *)
Lemma bankReducer_inputs_twice state action d :
  inputs (bankReducer state action (bankReducer state action d).2).2 =
  inputs (bankReducer state action d).2.
Proof.
  reducer_cases state action; repeat case_if; cbn; by rewrite ?set_value_of_twice.
Qed.

(** The doubled reducer: the state, the inputs and the outcome of one call,
    and the log of two. *)
Lemma strictReducer_run state action d :
  strictReducer state action d =
    ((bankReducer state action d).1,
     mkDom (inputs (bankReducer state action d).2)
           (console d ++ logs state action d ++
            if is_ok (bankReducer state action d).1 then logs state action d else [])).
Proof.
  unfold strictReducer. eff_simpl.
  pose proof (bankReducer_state state action d (bankReducer state action d).2) as Hs.
  pose proof (bankReducer_inputs_twice state action d) as Hi.
  pose proof (bankReducer_logs state action (bankReducer state action d).2) as Hl.
  rewrite (logs_store _ _ _ d), (bankReducer_logs state action d) in Hl.
  pose proof (bankReducer_logs state action d) as Hl1.
  destruct (bankReducer state action d) as [[s1|e1] d1] eqn:E1; cbn in *.
  - destruct (bankReducer state action d1) as [r2 [i2 c2]]; cbn in *.
    by rewrite <- Hs, Hi, Hl, (assoc_L (++)).
  - destruct d1 as [i1 c1]; cbn in *. by rewrite Hl1, app_nil_r.
Qed.

Lemma strictDispatch_equiv action w : strictDispatch action w ≡ bankDispatch action w.
Proof.
  unfold strictDispatch, bankDispatch. rewrite strictReducer_run.
  destruct (bankReducer (account w) action (dom w)) as [[s|err] d']; by cbn.
Qed.

Lemma click_with_equiv label w : click_with strictDispatch label w ≡ click label w.
Proof.
  unfold click_with, click. destruct (find_button label (render (account w))) as [b|];
    [|done].
  destruct (btn_disabled b); [done|]. rewrite run_handler_run.
  apply strictDispatch_equiv.
Qed.

Lemma step_with_equiv w e : step_with strictDispatch w e ≡ step w e.
Proof.
  unfold step_with, step. destruct (crashed w); [done|].
  destruct e; [apply click_with_equiv | done].
Qed.

#[export] Instance step_with_proper :
  Proper ((≡) ==> (=) ==> (≡)) (step_with (num := num) strictDispatch).
Proof. intros w1 w2 Hw e ? <-. by rewrite !step_with_equiv, Hw. Qed.

Lemma run_with_equiv w1 w2 es : w1 ≡ w2 → run_with strictDispatch w1 es ≡ run w2 es.
Proof.
  revert w1 w2. induction es as [|e es IH]; intros w1 w2 Hw; [done|].
  apply IH. by rewrite step_with_equiv, Hw.
Qed.

End StrictFacts.

(** ** Theorems *)

Section StrictTheorems.
Context `{JsNumber num}.
Implicit Types (w : World num).

(** C13. Calling the reducer twice is harmless but for the console: under
    every list of events the component with the doubled reducer has the
    account, the inputs and the crash flag of the component of [App], for
    every implementation of numbers. *)
Theorem strict_mode_harmless w (es : list Event) :
  run_with strictDispatch w es ≡ run w es.
Proof. by apply run_with_equiv. Qed.

(** Under the doubled reducer every message is logged twice: a dispatch
    that returns appends the reducer's log two times, and one that throws
    appends nothing. *)
Lemma strict_mode_logs_twice (action : Action num) w :
  console (dom (strictDispatch action w)) =
    console (dom w) ++
    if is_ok (bankReducer (account w) action (dom w)).1
    then logs (account w) action (dom w) ++ logs (account w) action (dom w)
    else [].
Proof.
  unfold strictDispatch. rewrite strictReducer_run.
  pose proof (logs_throw (account w) action (dom w)) as Ht.
  destruct (bankReducer (account w) action (dom w)) as [[s|err] d'] eqn:E; cbn in *;
    [done | by rewrite Ht].
Qed.

End StrictTheorems.

(** ** An example on the integer instance *)

(** A refused withdrawal under the doubled reducer: the message is on the
    console twice, the input holds the balance. *)
Example strict_refused_withdrawal :
  let es := [Click "Open account with"; Edit withdrawInput "700"; Click "Withdraw"] in
  run_with strictDispatch (mount : World znum) es =
    mkWorld (acct 500 0 true)
      (mkDom (mkInputs "500" "500" "500" "5000")
         ["account opened"; "account opened";
          "Insufficient funds"; "Insufficient funds"])
      None.
Proof. by vm_compute. Qed.
