(* ===== verification/Checker.v ===== *)
(** * Checker: validity decided on integers

    [Invariants] states validity of an edit and tidiness of a world as
    propositions over any exact number type.  On the integers with NaN
    ([znum]) both are decidable: this file gives the boolean functions
    ([satisfiesb], [valid_eventb], [valid_fromb], [tidyb]), proves that they
    decide the propositions, and registers them as [Decision] instances, so
    that a list of events is checked by evaluation. *)

From S2P Require Import Prelude JsNum Dom Account View App Invariants.

#[local] Open Scope Z_scope.

(** ** Definitions *)

(** [st] divides [z]; a step of 0 admits only the minimum itself. *)
Definition divides (st z : Z) : bool :=
  if st =? 0 then z =? 0 else z mod st =? 0.

Definition satisfiesb (i : Input znum) (value : string) : bool :=
  match js_Number value, in_min i, in_max i, in_step i with
  | Int z, Int mn, Int mx, Int st =>
      (mn <=? z) && (z <=? mx) && divides st (z - mn)
  | _, _, _, _ => false
  end.

Definition valid_eventb (w : World znum) (e : Event) : bool :=
  match e with
  | Click _ => true
  | Edit r value =>
      match find_input r (render (account w)) with
      | Some i => satisfiesb i (sanitize value)
      | None => true
      end
  end.

Fixpoint valid_fromb (w : World znum) (es : list Event) : bool :=
  match es with
  | [] => true
  | e :: es' => valid_eventb w e && valid_fromb (step w e) es'
  end.

Definition tidy_valueb (r : Ref) (value : string) : bool :=
  match js_Number value with
  | Int z => (0 <=? z) && divides (grid r) z
  | NaN => false
  end.

Definition tidy_inputsb (inp : Inputs) : bool :=
  forallb (λ r, tidy_valueb r (value_of r inp))
    [openInput; depositInput; withdrawInput; loanInput].

Definition tidy_accountb (state : AccountState znum) : bool :=
  match balance state, loan state with
  | Int b, Int l => (0 <=? b) && (0 <=? l) && divides 100 b && divides 1000 l
  | _, _ => false
  end.

Definition tidyb (w : World znum) : bool :=
  tidy_accountb (account w) && tidy_inputsb (inputs (dom w)).

(** ** The functions decide the propositions *)

Lemma divides_spec (st z : Z) : divides st z = true ↔ (st | z).
Proof.
  unfold divides. destruct (Z.eqb_spec st 0) as [->|Hst].
  - rewrite Z.eqb_eq. split; [intros ->; by exists 0 | by intros [k ->]; lia].
  - rewrite Z.eqb_eq. by rewrite Z.mod_divide.
Qed.

Lemma satisfiesb_spec (i : Input znum) (value : string) :
  satisfiesb i value = true ↔ satisfies i value.
Proof.
  unfold satisfiesb, satisfies. cbn.
  destruct (znum_Number value) as [z|], (in_min i) as [mn|], (in_max i) as [mx|],
    (in_step i) as [st|];
    try (split; [done | by intros (? & ? & ? & ? & ? & ? & ? & ? & _)]).
  rewrite !andb_true_iff, !Z.leb_le, divides_spec. split.
  - intros [[??] ?]. by exists z, mn, mx, st.
  - intros (? & ? & ? & ? & [= <-] & [= <-] & [= <-] & [= <-] & ? & ?). tauto.
Qed.

Lemma valid_eventb_spec (w : World znum) (e : Event) :
  valid_eventb w e = true ↔ valid_event w e.
Proof.
  destruct e as [label|r value]; cbn -[find_input]; [done|].
  rewrite find_input_render, satisfiesb_spec. split; [by intros ? ? [= <-] | auto].
Qed.

Lemma valid_fromb_valid (w : World znum) (es : list Event) :
  valid_fromb w es = true ↔ valid_from w es.
Proof.
  revert w. induction es as [|e es IH]; intros w; cbn -[valid_eventb]; [done|].
  by rewrite andb_true_iff, valid_eventb_spec, IH.
Qed.

Lemma tidy_valueb_spec (r : Ref) (value : string) :
  tidy_valueb r value = true ↔ tidy_value r value.
Proof.
  unfold tidy_valueb, tidy_value. cbn. destruct (znum_Number value) as [z|].
  - rewrite andb_true_iff, Z.leb_le, divides_spec. split.
    + intros [??]. by exists z.
    + by intros (? & [= <-] & ? & ?).
  - split; [done | by intros (? & ? & _)].
Qed.

Lemma tidy_inputsb_spec (inp : Inputs) : tidy_inputsb inp = true ↔ tidy_inputs inp.
Proof.
  unfold tidy_inputsb, tidy_inputs. cbn [forallb].
  rewrite !andb_true_iff, !tidy_valueb_spec. split.
  - intros (? & ? & ? & ? & _) r. by destruct r.
  - intros Hr. split_and!; [apply Hr .. | done].
Qed.

Lemma tidy_accountb_spec (state : AccountState znum) :
  tidy_accountb state = true ↔ tidy_account state.
Proof.
  unfold tidy_accountb, tidy_account, acct. destruct state as [[b|] [l|] act];
    cbn -[divides];
    try (split; [done | by intros (? & ? & ? & _)]).
  rewrite !andb_true_iff, !Z.leb_le, !divides_spec. split.
  - intros [[[??]?]?]. by exists b, l.
  - intros (? & ? & [= <- <-] & ?). tauto.
Qed.

Lemma tidyb_tidy (w : World znum) : tidyb w = true ↔ tidy w.
Proof.
  unfold tidyb, tidy. by rewrite andb_true_iff, tidy_accountb_spec, tidy_inputsb_spec.
Qed.

(** ** Decision instances *)

#[export] Instance satisfies_dec (i : Input znum) value : Decision (satisfies i value).
Proof.
  refine (cast_if (decide (satisfiesb i value = true))); by rewrite <- satisfiesb_spec.
Defined.

#[export] Instance valid_event_dec (w : World znum) e : Decision (valid_event w e).
Proof.
  refine (cast_if (decide (valid_eventb w e = true))); by rewrite <- valid_eventb_spec.
Defined.

#[export] Instance valid_from_dec (w : World znum) es : Decision (valid_from w es).
Proof.
  refine (cast_if (decide (valid_fromb w es = true))); by rewrite <- valid_fromb_valid.
Defined.

#[export] Instance tidy_dec (w : World znum) : Decision (tidy w).
Proof.
  refine (cast_if (decide (tidyb w = true))); by rewrite <- tidyb_tidy.
Defined.

(** ** Runs checked by evaluation *)

(** A list of events the check accepts from the mounted component leads to
    a world the tidiness check accepts. *)
Lemma checked_run_tidy (es : list Event) :
  valid_fromb mount es = true → tidyb (run mount es) = true.
Proof. rewrite valid_fromb_valid, tidyb_tidy. apply run_tidy, tidy_mount. Qed.

(** An opening amount below the input's minimum is rejected by the check,
    and the run that types it is not tidy: the program dispatches it as it
    is (see [Typed.typed_amount_dispatched]). *)
Example unchecked_run_untidy :
  let es := [Edit openInput "-100"; Click "Open account with"] in
  valid_fromb mount es = false ∧
  account (run mount es) = acct (-100) 0 true ∧
  tidyb (run mount es) = false.
Proof. by vm_compute. Qed.
