(* ===== verification/Laws.v ===== *)
(** * Laws: the reducer on integers, and what follows

    On integer balances, loans and amounts the reducer is a function on
    triples of two integers and a boolean.  [ztransition] is that function,
    written without the reducer's effects and without JavaScript numbers, and
    [next_state_table] shows that [bankReducer] computes it.  The laws of the
    account follow: a deposit is undone by a withdrawal of the same amount, a
    loan by its repayment; a repayment can overdraw the account in the
    reducer although never through the pay button; and the open, pay and
    close buttons disable themselves, so a second click changes nothing.

    The last section is about the [disabled] conditions alone, for any
    numbers: a closed account reacts to nothing but its opening
    ([closed_account_inert]), and a button that is enabled is never a silent
    no-op ([enabled_button_acts]). *)

From S2P Require Import Prelude JsNum Dom Account AccountSpec View App.

#[local] Open Scope js_scope.
#[local] Open Scope Z_scope.

(** ** The table of transitions *)

Definition ztransition (ty : string) (a : Z) (s : Z * Z * bool) : Z * Z * bool :=
  let '(b, l, act) := s in
  if String.eqb ty "OPEN_ACCOUNT" then (if act then s else (a, l, true))
  else if String.eqb ty "DEPOSIT" then (b + a, l, act)
  else if String.eqb ty "WITHDRAW" then (if a <=? b then (b - a, l, act) else s)
  else if String.eqb ty "REQUEST_LOAN" then (if l =? 0 then (b + a, l + a, act) else s)
  else if String.eqb ty "PAY_LOAN" then (if l =? 0 then s else (b - l, 0, act))
  else if String.eqb ty "CLOSE_ACCOUNT" then
    (if (b =? 0) && (l =? 0) then (0, 0, false) else s)
  else s.

(** The account of a triple. *)
Definition of_triple `{JsNumber num} (s : Z * Z * bool) : AccountState num :=
  acct s.1.1 s.1.2 s.2.

(** ** Lemmas *)

Section LawsFacts.
Context `{JsExact num}.
Implicit Types (w : World num) (b l a : Z) (act : bool) (d : Dom).

Lemma open_twice w :
  click "Open account with" (click "Open account with" w) =
  click "Open account with" w.
Proof.
  rewrite (click_open w). destruct (isActive (account w)) eqn:E.
  - by rewrite click_open, E.
  - unfold bankDispatch; cbn -[click]. rewrite openAccount_run, E; cbn -[click].
    by rewrite click_open.
Qed.

Lemma pay_twice w :
  click "Pay your loan" (click "Pay your loan" w) = click "Pay your loan" w.
Proof.
  rewrite (click_pay w). case_if; [|by rewrite click_pay, Hif].
  apply andb_true_split in Hif as [[Hl _]%andb_true_split _].
  unfold bankDispatch; cbn -[click]. rewrite payLoan_run. apply negb_true_eq in Hl.
  rewrite Hl; cbn -[click]. rewrite click_pay; cbn. by rewrite seq_lit, Z.eqb_refl.
Qed.

Lemma close_twice w :
  click "Close account" (click "Close account" w) = click "Close account" w.
Proof.
  rewrite (click_close w). case_if; [|by rewrite click_close, Hif].
  apply andb_true_split in Hif as [[_ Hb]%andb_true_split Hl].
  unfold bankDispatch; cbn -[click]. rewrite closeAccount_run, Hb, Hl; cbn -[click].
  by rewrite click_close.
Qed.

(** The reducer against the table, case by case. *)
Lemma next_state_ztransition (ty : string) a b l act d :
  next_state (acct b l act) (mkAction ty (num_lit a)) d =
    of_triple (ztransition ty a (b, l, act)).
Proof.
  destruct (type_cases ty) as [->|[->|[->|[->|[->|[->|Hty]]]]]].
  - rewrite next_state_open. by destruct act.
  - by rewrite next_state_deposit.
  - rewrite next_state_withdraw; cbn. by case_if.
  - rewrite next_state_loan; cbn. by case_if.
  - rewrite next_state_pay; cbn. by case_if.
  - rewrite next_state_close; cbn. by case_if.
  - rewrite next_state_unknown by done.
    apply (unknown_type_not_taken (mkAction ty (num_lit a))) in Hty as (?&?&?&?&?&?);
      cbn in *.
    unfold ztransition. by rewrite !(proj2 (String.eqb_neq ty _)).
Qed.

End LawsFacts.

(** ** Theorems *)

Section LawsTheorems.
Context `{JsExact num}.
Implicit Types (w : World num) (b l a : Z) (act : bool) (d : Dom).

(** C10. On integers the reducer computes the table of transitions: for
    every action type, the six known ones and any other, the state after
    [bankReducer] is the account of [ztransition]'s triple. *)
Theorem next_state_table (ty : string) a b l act d :
  next_state (acct b l act) (mkAction ty (num_lit a)) d =
    of_triple (ztransition ty a (b, l, act)).
Proof. apply next_state_ztransition. Qed.

(** C34. A withdrawal undoes a deposit: on a balance that is not negative,
    depositing an amount and withdrawing it again gives the state back. *)
Theorem deposit_withdraw_round_trip b l act a d d' :
  0 ≤ b →
  next_state (next_state (acct b l act) (mkAction "DEPOSIT" (num_lit a)) d)
             (mkAction "WITHDRAW" (num_lit a)) d' = acct b l act.
Proof.
  intros Hb. rewrite next_state_deposit, next_state_withdraw.
  rewrite (proj2 (Z.leb_le a (b + a))) by lia. f_equal; lia.
Qed.

(** C35. Paying undoes a loan: on an account without a loan, requesting a
    non-zero amount and paying the loan gives the state back. *)
Theorem loan_pay_round_trip b act a (x : num) d d' :
  a ≠ 0 →
  next_state (next_state (acct b 0 act) (mkAction "REQUEST_LOAN" (num_lit a)) d)
             (mkAction "PAY_LOAN" x) d' = acct b 0 act.
Proof.
  intros Ha. rewrite next_state_loan. cbn [Z.eqb].
  rewrite next_state_pay, Z.add_0_l, (proj2 (Z.eqb_neq a 0)) by done.
  by rewrite Z.add_simpl_r.
Qed.

(** C33. Paying a loan larger than the balance: the reducer carries it out
    and leaves a negative balance, but the pay button is disabled in that
    state, so a click on it changes nothing. *)
Theorem pay_can_overdraw b l d (x : num) :
  0 < l → b < l →
  (∃ b', next_state (acct b l true) (mkAction "PAY_LOAN" x) d = acct b' 0 true ∧
         b' < 0) ∧
  click "Pay your loan" (mkWorld (acct b l true) d None) =
    mkWorld (acct b l true) d None.
Proof.
  intros Hl Hbl. split.
  - exists (b - l). rewrite next_state_pay, (proj2 (Z.eqb_neq l 0)) by lia.
    split; [done | lia].
  - rewrite click_pay; cbn. by rewrite (proj2 (ge_lit_false b l)), andb_false_r by lia.
Qed.

(** C32. The open, pay and close buttons disable themselves: a second click
    on any of them changes nothing, whatever the first one did. *)
Theorem click_twice (label : string) w :
  label ∈ ["Open account with"; "Pay your loan"; "Close account"] →
  click label (click label w) = click label w.
Proof.
  rewrite !elem_of_cons, elem_of_nil. intros [->|[->|[->|[]]]].
  - apply open_twice.
  - apply pay_twice.
  - apply close_twice.
Qed.

End LawsTheorems.

(** ** What the disabled conditions give, for any numbers *)

Section Buttons.
Context `{JsNumber num}.
Implicit Types (w : World num) (e : Event).

(** C17. A closed account is inert: while the account is inactive, every
    event but a click on the open button or an edit of the open input leaves
    the world exactly as it is.  The reducer would carry out a deposit, a
    withdrawal, a loan or a repayment on a closed account; the [disabled]
    conditions of the five other buttons and three other inputs are what
    keeps the events from reaching it. *)
Theorem closed_account_inert w e :
  isActive (account w) = false →
  e ≠ Click "Open account with" → (∀ value, e ≠ Edit openInput value) →
  step w e = w.
Proof.
  intros Ha Hclick Hedit. unfold step. destruct (crashed w); [done|].
  destruct e as [label|r value].
  - click_cases label w; rewrite ?Ha, ?andb_false_r; by cbn.
  - rewrite (edit_run r value w _ (find_input_render r _)).
    destruct r; cbn; rewrite ?Ha; cbn; [by destruct (Hedit value) | done..].
Qed.

(** C28. An enabled button acts.  Whenever a button is enabled, the action
    it dispatches is no silent no-op of the specification: it is applied, or,
    for a withdrawal only, rejected for insufficient funds. *)
Theorem enabled_button_acts label w (action : SpecAction num) :
  enabled label w = true → spec_action_of label w = Some action →
  classify (account w) action = Applied ∨
  (∃ a, action = Withdraw a) ∧ classify (account w) action = RejectedInsufficientFunds.
Proof.
  intros He Hs. destruct (decide (label ∈ labels)) as [Hl|Hl].
  - unfold labels in Hl. rewrite !elem_of_cons, elem_of_nil in Hl.
    destruct Hl as [->|[->|[->|[->|[->|[->|[]]]]]]];
      cbn in He, Hs; injection Hs as <-; cbn;
      repeat match goal with
             | H : negb _ = true |- _ => apply negb_true_iff in H
             | H : negb _ = false |- _ => apply negb_false_iff in H
             | H : _ && _ = true |- _ => apply andb_true_split in H as [? ?]
             | H : ?b = _ |- context [?b] => rewrite H
             end; cbn; try (by left).
    case_if; [by left | right; eauto].
  - unfold enabled in He. by rewrite find_button_unknown in He.
Qed.

End Buttons.

(** ** Witnesses *)

Lemma next_state_table_witness :
  next_state (acct 300 0 true : AccountState znum)
             (mkAction "WITHDRAW" (Int 301)) dom0 =
    of_triple (ztransition "WITHDRAW" 301 (300, 0, true)).
Proof. exact (next_state_table (num := znum) "WITHDRAW" 301 300 0 true dom0). Defined.

Lemma deposit_withdraw_round_trip_witness :
  next_state (next_state (acct 500 0 true : AccountState znum)
                (mkAction "DEPOSIT" (Int 200)) dom0)
             (mkAction "WITHDRAW" (Int 200)) dom0 = acct 500 0 true.
Proof.
  exact (deposit_withdraw_round_trip (num := znum) 500 0 true 200 dom0 dom0
           ltac:(lia)).
Defined.

Lemma loan_pay_round_trip_witness :
  next_state (next_state (acct 500 0 true : AccountState znum)
                (mkAction "REQUEST_LOAN" (Int 5000)) dom0)
             (mkAction "PAY_LOAN" NaN) dom0 = acct 500 0 true.
Proof.
  exact (loan_pay_round_trip (num := znum) 500 true 5000 NaN dom0 dom0 ltac:(lia)).
Defined.

Lemma pay_can_overdraw_witness :
  (∃ b', next_state (acct 100 2000 true : AccountState znum)
           (mkAction "PAY_LOAN" NaN) dom0 = acct b' 0 true ∧ b' < 0) ∧
  click "Pay your loan" (mkWorld (acct 100 2000 true : AccountState znum) dom0 None) =
    mkWorld (acct 100 2000 true) dom0 None.
Proof.
  exact (pay_can_overdraw (num := znum) 100 2000 dom0 NaN ltac:(lia) ltac:(lia)).
Defined.

Lemma click_twice_witness :
  let w := run (mount : World znum) [Click "Open account with"; Click "Request a loan"] in
  click "Pay your loan" (click "Pay your loan" w) = click "Pay your loan" w.
Proof.
  exact (click_twice (num := znum) "Pay your loan" _ ltac:(set_solver)).
Defined.

Lemma closed_account_inert_witness :
  step (mount : World znum) (Click "Deposit") = mount.
Proof.
  exact (closed_account_inert (num := znum) mount (Click "Deposit") eq_refl
           ltac:(done) ltac:(done)).
Defined.

Lemma enabled_button_acts_witness :
  let w := run (mount : World znum) [Click "Open account with"] in
  classify (account w) (Withdraw (Int 300)) = Applied ∨
  (∃ a, Withdraw (Int 300) = Withdraw a) ∧
  classify (account w) (Withdraw (Int 300)) = RejectedInsufficientFunds.
Proof.
  exact (enabled_button_acts "Withdraw"
           (run (mount : World znum) [Click "Open account with"])
           (Withdraw (Int 300)) eq_refl eq_refl).
Defined.
