(* ===== verification/Typed.v ===== *)
(** * Typed: what is typed is what is dispatched

    Four of the six handlers read their amount from an input
    ([Number(ref.current.value)], App-ref.js 106, 129, 152, 175).  Each of
    these inputs stands next to its button and carries the button's
    [disabled] condition (109/120, 132/143, 155/166, 178/189), so whenever a
    button can be clicked its input can be edited.  Nothing stands between
    the text and the dispatch: the input keeps what is a valid floating-point
    number of the text, [Number] converts it, and the reducer receives it.
    The [min], [max] and [step] attributes play no part.

    [typed_amount_dispatched] states this for every button that reads an
    input and every text; [typed_integer_credited] and [open_with_any_amount]
    are what it means on integers: any integer, negative or off the grid, is
    credited or becomes the opening balance.

    One attribute depends on the account: the withdraw input's [max] is the
    balance (line 164).  A value that satisfies the attributes when it is
    typed is therefore covered, and a click that follows at once is never
    refused ([fresh_withdrawal_accepted]); the reducer's guard is for values
    that were typed earlier. *)

From S2P Require Import Prelude JsNum Dom Account View App Invariants.

#[local] Open Scope js_scope.

(** ** Lemmas *)

Section TypedFacts.
Context `{JsNumber num}.
Implicit Types (w : World num) (b : Button num) (i : Input num).

(** An input is disabled exactly when the button that reads it is. *)
Lemma input_follows_button label (r : Ref) (state : AccountState num) b i :
  find_button label (render state) = Some b →
  h_amount (btn_onClick b) = FromInput r →
  find_input r (render state) = Some i →
  in_disabled i = btn_disabled b.
Proof.
  intros [Hin _]%find_button_render Hr. rewrite find_input_render. intros [= <-].
  rewrite buttons_render, !elem_of_cons, elem_of_nil in Hin.
  destruct Hin as [->|[->|[->|[->|[->|[->|[]]]]]]]; by simplify_eq/=.
Qed.

(** An edit of the input of an enabled button stores the sanitised text. *)
Lemma edit_enabled label (r : Ref) (value : string) w b :
  find_button label (render (account w)) = Some b →
  h_amount (btn_onClick b) = FromInput r →
  btn_disabled b = false →
  edit r value w =
    mkWorld (account w)
      (mkDom (set_value_of r (sanitize value) (inputs (dom w))) (console (dom w)))
      (crashed w).
Proof.
  intros Hf Hr Hd. rewrite (edit_run r value w _ (find_input_render r _)).
  by rewrite (input_follows_button label r (account w) b _ Hf Hr
                (find_input_render r _)), Hd.
Qed.

(** Typing into the input of an enabled button and clicking the button. *)
Lemma edit_click label (r : Ref) (value : string) w b :
  crashed w = None →
  find_button label (render (account w)) = Some b →
  h_amount (btn_onClick b) = FromInput r →
  btn_disabled b = false →
  run w [Edit r value; Click label] =
    bankDispatch (mkAction (h_type (btn_onClick b)) (js_Number (sanitize value)))
      (edit r value w).
Proof.
  intros Hc Hf Hr Hd. cbn [run foldl]. unfold step at 2. rewrite Hc.
  unfold step. rewrite edit_crashed, Hc.
  rewrite (click_button label _ b) by (by rewrite edit_account).
  rewrite Hd, Hr, (edit_enabled label r value w b Hf Hr Hd). cbn [dom inputs].
  by rewrite value_of_set_eq.
Qed.

End TypedFacts.

(** ** Theorems *)

Section TypedTheorems.
Context `{JsNumber num}.
Implicit Types (w : World num) (b : Button num).

(** C16. What is typed is what is dispatched.  For every button whose handler
    reads an input, in every world in which the button is enabled, and for
    every text: typing the text into that input and clicking the button
    dispatches the button's action type with [Number] of what the input kept
    of the text.  No attribute of the input is consulted. *)
Theorem typed_amount_dispatched label (r : Ref) (value : string) w b :
  crashed w = None →
  find_button label (render (account w)) = Some b →
  h_amount (btn_onClick b) = FromInput r →
  btn_disabled b = false →
  value_of r (inputs (dom (edit r value w))) = sanitize value ∧
  run w [Edit r value; Click label] =
    bankDispatch (mkAction (h_type (btn_onClick b)) (js_Number (sanitize value)))
      (edit r value w).
Proof.
  intros Hc Hf Hr Hd. split; [|by apply edit_click].
  rewrite (edit_enabled label r value w b Hf Hr Hd). cbn. by rewrite value_of_set_eq.
Qed.

End TypedTheorems.

(** ** On integers *)

Section TypedIntegers.
Context `{JsExact num}.
Implicit Types (w : World num) (z : Z).

(** Any integer typed into the deposit input of an open account is added to
    the balance, whatever the input's [min], [max] and [step]. *)
Lemma typed_integer_credited w z :
  crashed w = None → isActive (account w) = true →
  account (run w [Edit depositInput (js_String (num_lit z : num)); Click "Deposit"]) =
    mkAccount (balance (account w) + num_lit z) (loan (account w)) true.
Proof.
  intros Hc Ha.
  rewrite (edit_click "Deposit" depositInput _ w (deposit_button (account w)));
    [|done|done|done|by cbn; rewrite Ha].
  rewrite sanitize_String, Number_String. unfold bankDispatch; cbn.
  by rewrite edit_account, Ha.
Qed.

(** An account opens with any integer as its balance. *)
Lemma open_with_any_amount z :
  account (run (mount : World num)
             [Edit openInput (js_String (num_lit z : num)); Click "Open account with"]) =
    acct z 0 true.
Proof.
  rewrite (edit_click "Open account with" openInput _ mount (open_button initialState));
    [|done..].
  rewrite sanitize_String, Number_String. unfold bankDispatch; cbn.
  by rewrite openAccount_run.
Qed.

(** C27. A fresh withdrawal is accepted.  On an open account, a value typed
    into the withdraw input that satisfies the input's attributes at that
    moment is at least 100 and at most the balance, and a click on Withdraw
    right after it subtracts it from the balance and logs nothing. *)
Theorem fresh_withdrawal_accepted w (value : string) :
  crashed w = None → isActive (account w) = true →
  valid_event w (Edit withdrawInput value) →
  ∃ b z, balance (account w) = num_lit b ∧ js_Number (sanitize value) = num_lit z ∧
         (100 ≤ z ≤ b)%Z ∧
         account (run w [Edit withdrawInput value; Click "Withdraw"]) =
           mkAccount (num_lit (b - z)) (loan (account w)) true ∧
         console (dom (run w [Edit withdrawInput value; Click "Withdraw"])) =
           console (dom w).
Proof.
  intros Hc Ha Hv.
  destruct (Hv _ (find_input_render _ _))
    as (z & mn & mx & st & Hz & Hmn%lit_inj & Hmx & _ & [Hlo Hhi] & _).
  cbn in Hmn, Hmx. subst mn. exists mx, z. split_and!; try done.
  all: rewrite (edit_click "Withdraw" withdrawInput _ w (withdraw_button (account w)));
    [|done|done|done|by cbn; rewrite Ha, Hmx, (proj2 (gt_lit_true mx 0)) by lia].
  all: rewrite Hz; unfold bankDispatch; cbn; rewrite withdraw_run, edit_account, Hmx;
    cbn; rewrite (proj2 (ge_lit_true mx z)) by lia; cbn.
  - by rewrite sub_lit, Ha.
  - by rewrite (edit_enabled "Withdraw" withdrawInput value w
                  (withdraw_button (account w)))
      by (done || by cbn; rewrite Ha, Hmx, (proj2 (gt_lit_true mx 0)) by lia).
Qed.

End TypedIntegers.

(** ** Witnesses *)

Lemma typed_amount_dispatched_witness :
  let w := (mount : World znum) in
  value_of openInput (inputs (dom (edit openInput "-100.5e1" w))) = sanitize "-100.5e1" ∧
  run w [Edit openInput "-100.5e1"; Click "Open account with"] =
    bankDispatch (mkAction "OPEN_ACCOUNT" (js_Number (sanitize "-100.5e1")))
      (edit openInput "-100.5e1" w).
Proof.
  exact (typed_amount_dispatched "Open account with" openInput "-100.5e1"
           (mount : World znum) (open_button initialState)
           eq_refl eq_refl eq_refl eq_refl).
Defined.

Lemma fresh_withdrawal_accepted_witness :
  let w := run (mount : World znum) [Click "Open account with"] in
  ∃ b z, balance (account w) = num_lit b ∧ js_Number (sanitize "300") = num_lit z ∧
         (100 ≤ z ≤ b)%Z ∧
         account (run w [Edit withdrawInput "300"; Click "Withdraw"]) =
           mkAccount (num_lit (b - z)) (loan (account w)) true ∧
         console (dom (run w [Edit withdrawInput "300"; Click "Withdraw"])) =
           console (dom w).
Proof.
  apply (fresh_withdrawal_accepted (num := znum)); [done | done |].
  intros i [= <-]. by exists 300%Z, 100%Z, 500%Z, 100%Z; split_and!; [..| exists 2%Z].
Defined.
