(* ===== verification/DoubleApp.v ===== *)
(** * DoubleApp: the component on doubles

    [App] never looks inside a number, so it runs on [double] as it runs on
    [znum].  This file compares the two runs.  [agrees_world] relates a world
    over [znum] to a world over [double]: the same store, the same crash
    flag, the same [isActive], and a balance and a loan that agree in the
    sense of [Double.agrees].  The reducer, the dispatch, a click and an edit
    each preserve the relation as long as the integers stay safe, and
    [Bounds] keeps them safe for [safe_events] events of a user who respects
    the input attributes.  So for such runs what is proved of the integer
    model is what the program computes on doubles ([double_run_exact]).

    Past the safe range the two runs part: [deposit_absorbed] is a run, made
    of typed values the program does not check, in which a deposit of 1
    leaves the balance as it was; and off the integers [fraction_residue] is
    a run in which 0.1 + 0.2 - 0.3 keeps the account from being closed. *)

From S2P Require Import Prelude JsNum Double DoubleText Dom Account View App.
From S2P Require Import Invariants Liveness Bounds Laws.

#[local] Open Scope js_scope.
#[local] Open Scope Z_scope.

(** ** Definitions *)

Definition agrees_state (sz : AccountState znum) (sd : AccountState double) : Prop :=
  agrees (balance sz) (balance sd) ∧ agrees (loan sz) (loan sd) ∧
  isActive sz = isActive sd.

Definition agrees_world (wz : World znum) (wd : World double) : Prop :=
  agrees_state (account wz) (account wd) ∧ dom wz = dom wd ∧
  crashed wz = crashed wd.

(** What a computation returns on the two number types. *)
Definition agrees_result (rz : outcome Error (AccountState znum) * Dom)
    (rd : outcome Error (AccountState double) * Dom) : Prop :=
  rz.2 = rd.2 ∧
  match rz.1, rd.1 with
  | Ok sz, Ok sd => agrees_state sz sd
  | Throw ez, Throw ed => ez = ed
  | _, _ => False
  end.

(** Balance and loan are NaN or safe integers. *)
Definition in_range_state (sz : AccountState znum) : Prop :=
  in_range (balance sz) ∧ in_range (loan sz).

(** Every input reads as a safe integer. *)
Definition inputs_in_range (inp : Inputs) : Prop :=
  ∀ r, ∃ z, (js_Number (value_of r inp) : znum) = Int z ∧ safe_integer z.

(** [agree_guards]: the tests of the double side become those of the integer
    side. *)
Ltac agree_guards :=
  repeat match goal with
         | Ha : agrees ?a ?d, Hb : agrees ?b ?e |- context [num_ge ?d ?e] =>
             rewrite (agrees_ge a b d e Ha Hb)
         | Ha : agrees ?a ?d |- context [num_gt ?d (num_lit ?z)] =>
             rewrite (agrees_gt a (num_lit z) d (num_lit z) Ha
                        (agrees_lit z ltac:(by vm_compute)))
         | Ha : agrees ?a ?d |- context [num_seq ?d (num_lit ?z)] =>
             rewrite (agrees_seq a (num_lit z) d (num_lit z) Ha
                        (agrees_lit z ltac:(by vm_compute)))
         | Ha : agrees ?a ?d |- context [js_String ?d] =>
             rewrite (agrees_String a d Ha)
         end.

(** ** Lemmas: the reducer *)

Lemma safe_integer_0 : safe_integer 0.
Proof. by vm_compute. Qed.

#[export] Hint Resolve safe_integer_0 agrees_add agrees_sub : bank.

Lemma agrees_result_ok sz sd (d : Dom) :
  agrees_state sz sd → agrees_result (Ok sz, d) (Ok sd, d).
Proof. by split. Qed.

Lemma agrees_state_mk (b l : znum) (b' l' : double) (act : bool) :
  agrees b b' → agrees l l' → agrees_state (mkAccount b l act) (mkAccount b' l' act).
Proof. by repeat split. Qed.

#[export] Hint Resolve agrees_result_ok agrees_state_mk : bank.

Lemma bankReducer_agrees sz sd (ty : string) (xz : znum) (xd : double) (dm : Dom) :
  agrees_state sz sd → agrees xz xd →
  in_range_state (next_state sz (mkAction ty xz) dm) →
  agrees_result (bankReducer sz (mkAction ty xz) dm)
                (bankReducer sd (mkAction ty xd) dm).
Proof.
  intros Hs Hx. pose proof Hs as (Hb & Hl & Ha). unfold next_state.
  destruct (type_cases ty) as [->|[->|[->|[->|[->|[->|Hty]]]]]].
  - change (bankReducer ?s (mkAction "OPEN_ACCOUNT" ?x)) with
      (openAccount s (mkAction "OPEN_ACCOUNT" x)).
    rewrite !openAccount_run, <- Ha. destruct (isActive sz); auto with bank.
  - change (bankReducer ?s (mkAction "DEPOSIT" ?x)) with
      (deposit s (mkAction "DEPOSIT" x)).
    rewrite !deposit_run, <- Ha. intros [? _]. auto with bank.
  - change (bankReducer ?s (mkAction "WITHDRAW" ?x)) with
      (withdraw s (mkAction "WITHDRAW" x)).
    rewrite !withdraw_run, <- Ha. cbn [amount]. agree_guards.
    case_if; [intros [? _] |]; auto with bank.
  - change (bankReducer ?s (mkAction "REQUEST_LOAN" ?x)) with
      (requestLoan s (mkAction "REQUEST_LOAN" x)).
    rewrite !requestLoan_run, <- Ha. cbn [amount]. agree_guards.
    case_if; [intros [? ?] |]; auto with bank.
  - change (bankReducer ?s (mkAction "PAY_LOAN" ?x)) with
      (payLoan s (mkAction "PAY_LOAN" x)).
    rewrite !payLoan_run, <- Ha. agree_guards.
    case_if; [|intros [? _]]; auto 6 with bank.
  - change (bankReducer ?s (mkAction "CLOSE_ACCOUNT" ?x)) with
      (closeAccount s (mkAction "CLOSE_ACCOUNT" x)).
    rewrite !closeAccount_run. agree_guards.
    case_if; rewrite <- ?Ha; auto 6 with bank.
  - intros _.
    apply (unknown_type_not_taken (mkAction ty xz)) in Hty as (?&?&?&?&?&?).
    unfold bankReducer; cbn in *. by rewrite !(proj2 (String.eqb_neq ty _)).
Qed.

(** ** Lemmas: dispatch, clicks and edits *)

(** An input that reads as a safe integer reads as its double. *)
Lemma inputs_agree (r : Ref) (inp : Inputs) :
  inputs_in_range inp →
  agrees (js_Number (value_of r inp)) (js_Number (value_of r inp) : double).
Proof. intros Hi. destruct (Hi r) as (z & Hz & Hs). rewrite Hz. by apply agrees_Number. Qed.

Lemma bankDispatch_account `{JsNumber num} (action : Action num) (w : World num) :
  account (bankDispatch action w) = next_state (account w) action (dom w).
Proof.
  unfold bankDispatch, next_state.
  by destruct (bankReducer (account w) action (dom w)) as [[?|?] ?].
Qed.

Lemma bankDispatch_agrees (ty : string) (xz : znum) (xd : double) wz wd :
  agrees_world wz wd → agrees xz xd →
  in_range_state (account (bankDispatch (mkAction ty xz) wz)) →
  agrees_world (bankDispatch (mkAction ty xz) wz) (bankDispatch (mkAction ty xd) wd).
Proof.
  intros (Hs & Hd & Hc) Hx. rewrite bankDispatch_account. intros Hr.
  destruct (bankReducer_agrees _ _ ty xz xd (dom wz) Hs Hx Hr) as [H2 H1].
  unfold bankDispatch. rewrite <- Hd, <- Hc.
  destruct (bankReducer (account wz) _ _) as [[sz'|ez] dz],
    (bankReducer (account wd) _ _) as [[sd'|ed] dd]; cbn in *; by subst.
Qed.

Lemma click_agrees (label : string) wz wd :
  agrees_world wz wd → inputs_in_range (inputs (dom wz)) →
  in_range_state (account (click label wz)) →
  agrees_world (click label wz) (click label wd).
Proof.
  intros Hw Hi. pose proof Hw as ((Hb & Hl & Ha) & Hd & Hc).
  click_cases label wz; [..|by rewrite (click_unknown label wd)];
    rewrite <- ?Ha, <- ?Hd; agree_guards; case_if; try done;
    apply bankDispatch_agrees; try done.
  - by apply (inputs_agree openInput).
  - by apply (inputs_agree depositInput).
  - by apply (inputs_agree withdrawInput).
  - by apply (inputs_agree loanInput).
Qed.

Lemma edit_agrees (r : Ref) (value : string) wz wd :
  agrees_world wz wd → agrees_world (edit r value wz) (edit r value wd).
Proof.
  intros Hw. pose proof Hw as ((Hb & Hl & Ha) & Hd & Hc).
  rewrite (edit_run r value wz _ (find_input_render r _)),
    (edit_run r value wd _ (find_input_render r _)), <- Hd, <- Hc.
  destruct r; cbn [in_disabled open_input deposit_input withdraw_input loan_input];
    rewrite <- ?Ha; agree_guards; case_if; try done; by split; [apply Hw|].
Qed.

Lemma step_agrees (e : Event) wz wd :
  agrees_world wz wd → inputs_in_range (inputs (dom wz)) →
  in_range_state (account (step wz e)) →
  agrees_world (step wz e) (step wd e).
Proof.
  intros Hw Hi. pose proof Hw as (_ & _ & Hc). unfold step. rewrite <- Hc.
  destruct (crashed wz); [done|].
  destruct e as [label|r value]; [by apply click_agrees | intros _; by apply edit_agrees].
Qed.

(** ** Lemmas: runs *)

Lemma safe_events_credit (n : nat) :
  Z.of_nat n ≤ safe_events → Z.max 300 (max_credit * Z.of_nat n) ≤ MAX_SAFE_INTEGER.
Proof.
  intros Hn. assert (max_credit * safe_events ≤ MAX_SAFE_INTEGER) by by vm_compute.
  assert (300 ≤ MAX_SAFE_INTEGER) by by vm_compute.
  unfold max_credit in *. lia.
Qed.

(** Within the event budget a bounded world holds safe integers only, in its
    account and in its inputs. *)
Lemma bounded_in_range (n : nat) (w : World znum) :
  bounded n w → Z.of_nat n ≤ safe_events →
  in_range_state (account w) ∧ inputs_in_range (inputs (dom w)).
Proof.
  intros Hb Hn. pose proof (safe_events_credit n Hn) as Hmax.
  destruct (bounded_safe n w Hb Hn) as (b & l & -> & Hbs & Hls).
  split; [split; cbn; unfold safe_integer; lia|].
  intros r. destruct Hb as [_ Hc]. destruct (Hc r) as (z & -> & Hz).
  exists z. split; [done|]. unfold safe_integer.
  destruct r; cbn in Hz; unfold MAX_SAFE_INTEGER in *; lia.
Qed.

Lemma mount_agrees : agrees_world mount mount.
Proof. repeat split; auto with bank. Qed.

(** Step by step, the two runs agree while the integers stay safe. *)
Lemma run_agrees (n : nat) (es : list Event) wz wd :
  bounded n wz → agrees_world wz wd → valid_from wz es →
  Z.of_nat (n + length es) ≤ safe_events →
  agrees_world (run wz es) (run wd es).
Proof.
  revert n wz wd. induction es as [|e es IH]; intros n wz wd Hb Hw; [done|].
  cbn [valid_from length]. intros [He Hes] Hn.
  change (agrees_world (run (step wz e) es) (run (step wd e) es)).
  pose proof (step_bounded n wz e Hb He) as Hb'.
  destruct (bounded_in_range n wz Hb ltac:(lia)) as [_ Hi].
  destruct (bounded_in_range (S n) _ Hb' ltac:(lia)) as [Hr _].
  apply (IH (S n)); [done | by apply step_agrees | done | lia].
Qed.

(** On integers, a valid run from the mounted component extends by at most
    15 valid events to one that ends in the initial state. *)
Lemma run_closing (es : list Event) :
  valid_from (mount : World znum) es →
  ∃ es', valid_from (mount : World znum) (es ++ es') ∧ (length es' ≤ 15)%nat ∧
         account (run (mount : World znum) (es ++ es')) = initialState.
Proof.
  intros Hes. set (w := run (mount : World znum) es).
  destruct (run_safe (mount : World znum) es safe_mount) as [Hc Hi].
  destruct (run_tidy mount es tidy_mount Hes) as [(b & l & Ha & Hb & Hl & Hdb & Hdl) _].
  destruct (run_bounded 0 mount es bounded_mount Hes) as [(b' & l' & Ha' & _ & Hl') _].
  fold w in Hc, Hi, Ha, Ha'. rewrite Ha in Ha'. injection Ha' as _ <-.
  destruct (isActive (account w)) eqn:Hact.
  - destruct (run_closing_events b l (dom w) Hb Hl Hdb Hdl) as (d' & Hr & Hv).
    assert (w = mkWorld (acct b l true) (dom w) None) as Hw
      by (destruct w; cbn in *; congruence).
    exists (closing_events (num := znum) b l). rewrite valid_from_app, run_app. fold w.
    rewrite Hw, Hr. split_and!; try done.
    apply closing_events_length; [done | apply Hl'].
  - exists []. rewrite app_nil_r. split_and!; [done | cbn; lia | by apply Hi].
Qed.

(** ** Theorems *)

(** C11. On doubles the component computes what it computes on integers: for
    every list of events that respect the input attributes, of at most
    [safe_events] events, the run on doubles and the run on integers end
    with the same store, the same crash flag and the same [isActive], and
    the balance and the loan of the one are the doubles of the balance and
    the loan of the other. *)
Theorem double_run_exact (es : list Event) :
  valid_from (mount : World znum) es → Z.of_nat (length es) ≤ safe_events →
  agrees_world (run (mount : World znum) es) (run (mount : World double) es).
Proof.
  intros Hes Hn. apply (run_agrees 0); [apply bounded_mount|apply mount_agrees|done..].
Qed.

(** C12. On doubles the reducer computes the integer table.  For a safe
    balance, loan and amount whose results in [ztransition] are safe, the
    state [bankReducer] leaves on doubles agrees with the triple of the
    table, for the six action types and for any other. *)
Theorem double_reducer_exact (ty : string) (a b l : Z) (act : bool) (d : Dom) :
  safe_integer a → safe_integer b → safe_integer l →
  in_range_state (of_triple (ztransition ty a (b, l, act))) →
  agrees_state (of_triple (ztransition ty a (b, l, act)))
    (next_state (acct b l act : AccountState double) (mkAction ty (num_lit a)) d).
Proof.
  intros Ha Hb Hl. rewrite <- (next_state_ztransition ty a b l act d). intros Hr.
  assert (agrees_state (acct b l act) (acct b l act)) as Hs
    by (apply agrees_state_mk; by apply agrees_lit).
  destruct (bankReducer_agrees _ _ ty _ _ d Hs (agrees_lit a Ha) Hr) as [_ H].
  unfold next_state.
  destruct (bankReducer (acct b l act : AccountState znum) _ d) as [[sz|ez] dz],
    (bankReducer (acct b l act : AccountState double) _ d) as [[sd|ed] dd]; done.
Qed.

(** C14. The program can always be brought back to the initial state: after
    events that respect the input attributes, 15 short of the event budget,
    some further events lead the run on doubles to [initialState]. *)
Theorem double_can_always_close (es : list Event) :
  valid_from (mount : World znum) es → Z.of_nat (length es) + 15 ≤ safe_events →
  ∃ es', valid_from (mount : World znum) (es ++ es') ∧
         account (run (mount : World double) (es ++ es')) = initialState.
Proof.
  intros Hes Hn. destruct (run_closing es Hes) as (es' & Hv & Hlen & Hr).
  exists es'. split; [done|].
  destruct (run_agrees 0 (es ++ es') mount mount bounded_mount mount_agrees Hv)
    as ((_ & _ & Hact) & _ & _).
  { cbn. rewrite length_app. lia. }
  apply (run_safe (mount : World double) (es ++ es') safe_mount).
  by rewrite <- Hact, Hr.
Qed.

(** Past the safe range a deposit can be lost.  Nothing checks a typed
    amount, so the account can be opened with 2^53; a deposit of 1 then leaves
    the balance of the program, a double, at 2^53, where the integers give
    2^53 + 1. *)
Example deposit_absorbed :
  let es := [Edit openInput "9007199254740992"; Click "Open account with";
             Edit depositInput "1"; Click "Deposit"] in
  balance (account (run (mount : World double) es)) = num_lit (2 ^ 53) ∧
  balance (account (run (mount : World znum) es)) = num_lit (2 ^ 53 + 1).
Proof. by vm_compute. Qed.

(** Amounts with a fraction leave a residue.  Nothing checks that a
    typed amount is on its grid: after deposits of 0.1 and 0.2 a withdrawal
    of 0.3 leaves 5.551115123125783e-17, with which the account cannot be
    closed.  A withdrawal that is refused writes that balance into the
    withdraw input, digit for digit, so that the next click on Withdraw
    empties the account and it can be closed. *)
Example fraction_residue :
  let w := run (mount : World double)
             [Edit openInput "0"; Click "Open account with";
              Edit depositInput "0.1"; Click "Deposit";
              Edit depositInput "0.2"; Click "Deposit";
              Edit withdrawInput "0.3"; Click "Withdraw"] in
  let w' := run w [Edit withdrawInput "1"; Click "Withdraw"] in
  js_String (balance (account w)) = "5.551115123125783e-17" ∧
  run w [Click "Close account"] = w ∧
  withdrawValue (inputs (dom w')) = "5.551115123125783e-17" ∧
  account (run w' [Click "Withdraw"; Click "Close account"]) = initialState.
Proof. by vm_compute. Qed.

(** ** Witnesses *)

Lemma double_reducer_exact_witness :
  agrees_state (of_triple (ztransition "WITHDRAW" 301 (300, 0, true)))
    (next_state (acct 300 0 true : AccountState double)
       (mkAction "WITHDRAW" (num_lit 301)) dom0).
Proof.
  exact (double_reducer_exact "WITHDRAW" 301 300 0 true dom0
           ltac:(by vm_compute) ltac:(by vm_compute) ltac:(by vm_compute)
           ltac:(by vm_compute)).
Defined.

Lemma double_run_exact_witness :
  agrees_world (run (mount : World znum) round_trip)
               (run (mount : World double) round_trip).
Proof.
  exact (double_run_exact round_trip valid_from_round_trip ltac:(by vm_compute)).
Defined.

Lemma double_can_always_close_witness :
  ∃ es', valid_from (mount : World znum) (round_trip ++ es') ∧
         account (run (mount : World double) (round_trip ++ es')) = initialState.
Proof.
  exact (double_can_always_close round_trip valid_from_round_trip
           ltac:(by vm_compute)).
Defined.
