(* ===== verification/Poison.v ===== *)
(** * Poison: a balance that is not a number

    [NaN] absorbs arithmetic and fails every comparison.  An account whose
    balance is [NaN] therefore keeps it: deposits and loans add to [NaN], and
    the withdraw, pay and close buttons, whose [disabled] conditions compare
    the balance, stay disabled.  Such an account can never be closed.

    The state is not reachable by typing something that is not a number:
    the four inputs have [type="number"] (App-ref.js 114, 137, 160, 183), so
    they hold valid floating-point numbers or nothing ([clean]), and those
    read as numbers ([typed_amounts_are_numbers]); with one input of another
    type the text would reach [Number] as it is.  Where the input keeps
    every valid floating-point number, as HTML specifies, the state is
    reachable with digits alone ([infinity_poisons]): 310 digits read as
    infinity, an account opened with them holds infinity, and withdrawing
    infinity leaves infinity minus infinity.  An engine that also drops
    text whose value is out of the range of doubles does not get there.
    [JsNaN] states the laws of [NaN] the argument uses; [znum] and [double]
    satisfy them. *)

From S2P Require Import Prelude JsNum Double DoubleText Dom Account View App.
From Stdlib Require Import Ascii SpecFloat.

#[local] Open Scope js_scope.

(** ** Definitions *)

(** The laws of [NaN]. *)
Class JsNaN (num : Type) `{JsNumber num} : Prop := {
  nan_add_l x : num_nan + x = num_nan;
  nan_ge_l x : (num_nan >= x) = false;
  nan_gt_l x : (num_nan > x) = false;
  nan_seq_l x : (num_nan === x) = false;
}.

#[export] Instance znum_JsNaN : JsNaN znum.
Proof. by split. Qed.

#[export] Instance double_JsNaN : JsNaN double.
Proof. split; intros x; by destruct x. Qed.

(** An open account whose balance is [NaN], in a component that runs. *)
Definition poisoned `{JsNumber num} (w : World num) : Prop :=
  balance (account w) = num_nan ∧ isActive (account w) = true ∧ crashed w = None.

(** Inputs that hold what a number input can hold: sanitising their values
    changes nothing. *)
Definition clean (inp : Inputs) : Prop :=
  ∀ r, sanitize (value_of r inp) = value_of r inp.

(** A one followed by 309 zeros. *)
Definition huge : string := String "1"%char (zeros 309).

(** ** Lemmas *)

Section PoisonFacts.
Context `{JsNaN num}.
Implicit Types (w : World num) (e : Event).

Lemma click_poisoned label w : poisoned w → poisoned (click label w).
Proof.
  intros (Hb & Ha & Hc). click_cases label w;
    rewrite ?Hb, ?Ha, ?nan_ge_l, ?nan_gt_l, ?nan_seq_l, ?andb_false_r; cbn [andb negb];
    try done.
  - unfold bankDispatch, poisoned; cbn. by rewrite Hb, nan_add_l.
  - unfold bankDispatch, poisoned; cbn. rewrite requestLoan_run.
    case_if; cbn; by rewrite ?Hb, ?nan_add_l.
Qed.

Lemma edit_poisoned r value w : poisoned w → poisoned (edit r value w).
Proof.
  intros (Hb & Ha & Hc). unfold poisoned. by rewrite edit_account, edit_crashed.
Qed.

Lemma step_poisoned w e : poisoned w → poisoned (step w e).
Proof.
  intros Hw. pose proof Hw as (_ & _ & Hc). unfold step. rewrite Hc.
  destruct e; [by apply click_poisoned | by apply edit_poisoned].
Qed.

Lemma run_poisoned w es : poisoned w → poisoned (run w es).
Proof.
  revert w. induction es as [|e es IH]; intros w Hw; [done|].
  by apply IH, step_poisoned.
Qed.

End PoisonFacts.

(** ** Lemmas: the inputs stay clean *)

Section CleanFacts.
Context `{JsNumber num}.
Implicit Types (w : World num) (e : Event) (inp : Inputs).

Lemma clean_set (r : Ref) (v : string) inp :
  clean inp → clean (set_value_of r (sanitize v) inp).
Proof.
  intros Hc r'. destruct (decide (r = r')) as [<-|Hne].
  - by rewrite value_of_set_eq, sanitize_idemp.
  - by rewrite value_of_set_ne.
Qed.

Lemma bankDispatch_clean (action : Action num) w :
  clean (inputs (dom w)) → clean (inputs (dom (bankDispatch action w))).
Proof.
  intros Hc.
  assert (dom (bankDispatch action w) = (bankReducer (account w) action (dom w)).2) as ->
    by (unfold bankDispatch; by destruct (bankReducer _ _ _) as [[?|?] ?]).
  destruct (bankReducer_inputs (account w) action (dom w)) as [-> | (_ & _ & ->)];
    [done | by apply clean_set].
Qed.

Lemma click_clean label w : clean (inputs (dom w)) → clean (inputs (dom (click label w))).
Proof.
  intros Hc. destruct (find_button label (render (account w))) as [b|] eqn:E.
  - rewrite (click_button label w b E). case_if; [done | by apply bankDispatch_clean].
  - unfold click. by rewrite E.
Qed.

Lemma edit_clean r value w : clean (inputs (dom w)) → clean (inputs (dom (edit r value w))).
Proof.
  intros Hc. rewrite (edit_run r value w _ (find_input_render r _)). case_if; [done|]. by apply clean_set.
Qed.

Lemma run_clean w es : clean (inputs (dom w)) → clean (inputs (dom (run w es))).
Proof.
  revert w. induction es as [|e es IH]; intros w Hc; [done|].
  apply IH. unfold step. destruct (crashed w); [done|].
  destruct e; [by apply click_clean | by apply edit_clean].
Qed.

End CleanFacts.

Lemma clean_mount_double : clean (inputs (dom (mount : World double))).
Proof. intros r. by destruct r; vm_compute. Qed.

(** ** Theorems *)

Section PoisonTheorems.
Context `{JsNaN num}.
Implicit Types (w : World num).

(** C18. An account whose balance is NaN can never be closed: whatever the
    user clicks and types, the account stays open and its balance NaN. *)
Theorem nan_balance_stuck w (es : list Event) :
  poisoned w →
  isActive (account (run w es)) = true ∧ balance (account (run w es)) = num_nan.
Proof. intros Hw. destruct (run_poisoned w es Hw) as (? & ? & _). done. Qed.

End PoisonTheorems.

(** On doubles a NaN balance is reachable by typing digits, where the input
    keeps them: 310 digits read as infinity, and withdrawing infinity from
    infinity leaves NaN. *)
Example infinity_poisons :
  let es := [Edit openInput huge; Click "Open account with";
             Edit withdrawInput huge; Click "Withdraw"] in
  js_Number huge = S754_infinity false ∧
  poisoned (run (mount : World double) es).
Proof. by vm_compute. Qed.

(** C38. What the user types never reads as NaN.  All four inputs are
    rendered with [type="number"]: after any clicks and edits each of them
    holds a valid floating-point number or nothing, and [Number] of it is a
    number.  So the amount a handler reads from its input is never NaN,
    although no handler checks what it reads. *)
Theorem typed_amounts_are_numbers (es : list Event) (r : Ref) :
  (js_Number (value_of r (inputs (dom (run (mount : World double) es)))) : double)
    ≠ num_nan.
Proof.
  pose proof (run_clean (mount : World double) es clean_mount_double r) as Hc.
  unfold sanitize in Hc. destruct (valid_float _) eqn:E; [by apply dNumber_valid|].
  by rewrite <- Hc.
Qed.

(** ** Witnesses *)

Lemma nan_balance_stuck_witness :
  let w := run (mount : World double)
             [Edit openInput huge; Click "Open account with";
              Edit withdrawInput huge; Click "Withdraw"] in
  isActive (account (run w round_trip)) = true ∧
  balance (account (run w round_trip)) = num_nan.
Proof.
  intros w. apply (nan_balance_stuck (num := double) w round_trip). by vm_compute.
Defined.
