(* ===== verification/DoubleLive.v ===== *)
(** * DoubleLive: which accounts can be closed, on doubles

    [Liveness] and [DoubleApp] close the account of a user who respects the
    input attributes.  This file drops that hypothesis and looks at the
    program on doubles in any state.  An open account can be closed exactly
    when its balance and its loan are finite.

    If they are, [exact_closing] closes it: the balance is brought to zero
    by a withdrawal of exactly the balance (or, if it is negative, a deposit
    of its magnitude); a positive loan is deposited and paid, a negative one
    paid and the credit withdrawn; then the close button is enabled.  The
    amounts are typed as the exact decimals of [DoubleExact], which the
    number inputs keep and [Number] reads without rounding, and every
    subtraction on the way is of a number from itself, so nothing is
    rounded and the zero that [CLOSE_ACCOUNT] tests for is reached.

    If the balance or the loan is an infinity or NaN, it stays one
    ([stuck]): sums and differences with an infinity are infinite or NaN,
    and the close button tests both numbers against zero.

    The exact decimals presuppose doubles of the format (a canonical
    mantissa and exponent).  Every world the program reaches holds such
    doubles ([reachable_well_formed], from [DoubleValid]), so there the
    criterion is finiteness alone ([reachable_closable_iff_finite]). *)

From S2P Require Import Prelude JsNum Double DoubleText DoubleExact DoubleValid.
From S2P Require Import Dom Account View App Typed.
From Stdlib Require Import SpecFloat.

#[local] Open Scope js_scope.

#[local] Arguments dge : simpl never.
#[local] Arguments dgt : simpl never.
#[local] Arguments dseq : simpl never.

(** ** Definitions *)

(** An account whose balance and loan are finite doubles of the format. *)
Definition finite_state (state : AccountState double) : bool :=
  is_finite (balance state) && well_formed (balance state) &&
  is_finite (loan state) && well_formed (loan state).

(** The events that bring a finite balance to zero: a withdrawal of a
    positive balance, a deposit of the magnitude of a negative one. *)
Definition drain_events (b : double) : list Event :=
  match b with
  | S754_finite false m e => [Edit withdrawInput (magnitude_text m e); Click "Withdraw"]
  | S754_finite true m e => [Edit depositInput (magnitude_text m e); Click "Deposit"]
  | _ => []
  end.

(** The events that settle a finite loan on an account with balance zero:
    a positive loan is deposited and paid; a negative one is paid, which
    credits its magnitude, and that is withdrawn. *)
Definition repay_events (l : double) : list Event :=
  match l with
  | S754_finite false m e =>
      [Edit depositInput (magnitude_text m e); Click "Deposit"; Click "Pay your loan"]
  | S754_finite true m e =>
      Click "Pay your loan" :: drain_events (S754_finite false m e)
  | _ => []
  end.

(** The events that close an account with a finite balance and loan. *)
Definition exact_closing (state : AccountState double) : list Event :=
  drain_events (balance state) ++ repay_events (loan state) ++ [Click "Close account"].

(** An open account that holds an infinity or NaN. *)
Definition stuck (w : World double) : Prop :=
  isActive (account w) = true ∧
  (is_finite (balance (account w)) = false ∨ is_finite (loan (account w)) = false).

(** A world whose balance and loan are doubles of the format. *)
Definition well_formed_world (w : World double) : Prop :=
  well_formed (balance (account w)) = true ∧ well_formed (loan (account w)) = true.

(** Two worlds to apply the theorems to: the account left with a residue
    by deposits of 0.1 and 0.2 and a withdrawal of 0.3, and the account
    opened with 310 typed digits. *)
Definition residue_world : World double :=
  run mount [Edit openInput "0"; Click "Open account with";
             Edit depositInput "0.1"; Click "Deposit";
             Edit depositInput "0.2"; Click "Deposit";
             Edit withdrawInput "0.3"; Click "Withdraw"].

Definition infinite_world : World double :=
  run mount [Edit openInput ("1" +:+ zeros 309); Click "Open account with"].

(** ** Lemmas *)

(** The world with an open account, a store, and no crash. *)
#[local] Abbreviation A b l := (@mkAccount double b l true).
#[local] Abbreviation W b l d := (@mkWorld double (A b l) d None).

(** Typing the exact text of a double and clicking dispatches the double. *)
Lemma exact_text_click label (r : Ref) (m : positive) (e : Z) w (b : Button double) :
  bounded prec emax m e = true →
  crashed w = None →
  find_button label (render (account w)) = Some b →
  h_amount (btn_onClick b) = FromInput r →
  btn_disabled b = false →
  ∃ d', inputs d' = set_value_of r (magnitude_text m e) (inputs (dom w)) ∧
        console d' = console (dom w) ∧
        run w [Edit r (magnitude_text m e); Click label] =
          bankDispatch (mkAction (h_type (btn_onClick b)) (S754_finite false m e))
            (mkWorld (account w) d' None).
Proof.
  intros Hb Hc Hf Hr Hd. eexists. split_and!; [| |
    rewrite (edit_click label r _ w b Hc Hf Hr Hd),
      (edit_enabled label r _ w b Hf Hr Hd), Hc,
      (sanitize_valid _ (magnitude_text_valid m e));
    change (js_Number ?s) with (dNumber s);
    rewrite (magnitude_text_reads m e Hb); reflexivity]; done.
Qed.

Lemma run_drain (b l : double) (d : Dom) :
  is_finite b = true → well_formed b = true →
  ∃ z d', run (W b l d) (drain_events b) = W (S754_zero z) l d'.
Proof.
  destruct b as [z| | |[] m e]; try done; intros _ Hb.
  - by exists z, d.
  - destruct (exact_text_click "Deposit" depositInput m e (W (S754_finite true m e) l d)
                (deposit_button (A (S754_finite true m e) l)) Hb)
      as (d' & _ & _ & Hr); [done..|].
    exists false, d'. refine (eq_trans Hr _). unfold bankDispatch; cbn.
    by rewrite dadd_opp.
  - destruct (exact_text_click "Withdraw" withdrawInput m e (W (S754_finite false m e) l d)
                (withdraw_button (A (S754_finite false m e) l)) Hb)
      as (d' & _ & _ & Hr); [done..|].
    exists false, d'. refine (eq_trans Hr _). unfold bankDispatch; cbn.
    rewrite withdraw_run; cbn. rewrite dge_refl by done. by rewrite dsub_diag.
Qed.

(** Settling a finite loan from a balance of zero leaves both at zero. *)
Lemma run_repay (z : bool) (l : double) (d : Dom) :
  is_finite l = true → well_formed l = true →
  ∃ z' z'' d',
    run (W (S754_zero z) l d) (repay_events l) = W (S754_zero z') (S754_zero z'') d'.
Proof.
  destruct l as [z'| | |[] m e]; try done; intros _ Hl.
  - by exists z, z', d.
  - cbn [repay_events]. change (?x :: ?l) with ([x] ++ l). rewrite run_app.
    assert (run (W (S754_zero z) (S754_finite true m e) d) [Click "Pay your loan"] =
              W (S754_finite false m e) (S754_zero false) d) as ->.
    { cbn [run foldl]. unfold step; cbn [crashed]. rewrite click_pay. cbn.
      by rewrite dseq_finite, dge_zero_negative. }
    destruct (run_drain (S754_finite false m e) (S754_zero false) d) as (z' & d' & ->);
      [done..|].
    by exists z', false, d'.
  - cbn [repay_events].
    change [?x; ?y; ?c] with ([x; y] ++ [c]). rewrite run_app.
    destruct (exact_text_click "Deposit" depositInput m e
                (W (S754_zero z) (S754_finite false m e) d)
                (deposit_button (A (S754_zero z) (S754_finite false m e))) Hl)
      as (d' & _ & _ & Hr); [done..|].
    rewrite (eq_trans Hr eq_refl). unfold bankDispatch; cbn -[run].
    exists false, false, d'. cbn [run foldl]. unfold step; cbn [crashed]. rewrite click_pay.
    cbn. rewrite dadd_zero_l, dseq_finite, dge_refl by done. cbn.
    unfold bankDispatch; cbn. rewrite payLoan_run; cbn.
    by rewrite dseq_finite, dsub_diag.
Qed.

(** With balance and loan at zero the close button closes. *)
Lemma run_close (z z' : bool) (d : Dom) :
  account (run (W (S754_zero z) (S754_zero z') d) [Click "Close account"]) = initialState.
Proof.
  cbn [run foldl]. unfold step; cbn [crashed]. rewrite click_close. cbn.
  rewrite !dseq_zero. cbn. unfold bankDispatch; cbn. rewrite closeAccount_run; cbn.
  by rewrite !dseq_zero.
Qed.

(** An account that holds an infinity or NaN keeps one, whatever is
    dispatched. *)
Lemma dispatch_stuck (action : Action double) (w : World double) :
  stuck w → stuck (bankDispatch action w).
Proof.
  intros [Ha Hn]. unfold bankDispatch, stuck.
  destruct w as [[b l act] d k]; cbn in *. subst act.
  reducer_cases (A b l) action; repeat case_if; cbn in *;
    repeat match goal with
           | H : _ && _ = true |- _ => apply andb_true_split in H as [? ?]
           end;
    destruct Hn as [Hn|Hn];
    try match goal with
        | H : dseq ?x _ = true |- _ =>
            pose proof (dseq_nonfinite x Hn) as Hx; cbn in Hx; congruence
        end;
    (split; [done|]);
    first [ left; by apply dadd_nonfinite | left; by apply dsub_nonfinite
          | left; by apply dsub_nonfinite_r | by right | by left ].
Qed.

Lemma step_stuck (w : World double) (e : Event) : stuck w → stuck (step w e).
Proof.
  intros Hw. unfold step. destruct (crashed w); [done|].
  destruct e as [label|r value]; [|unfold stuck; by rewrite edit_account].
  click_cases label w; try done; case_if; try done; by apply dispatch_stuck.
Qed.

Lemma run_stuck (w : World double) (es : list Event) : stuck w → stuck (run w es).
Proof.
  revert w. induction es as [|e es IH]; intros w Hw; [done|].
  by apply IH, step_stuck.
Qed.

Lemma finite_state_inv (state : AccountState double) :
  finite_state state = true →
  (is_finite (balance state) = true ∧ well_formed (balance state) = true) ∧
  is_finite (loan state) = true ∧ well_formed (loan state) = true.
Proof.
  unfold finite_state. by intros [[[??]%andb_true_split ?]%andb_true_split ?]%andb_true_split.
Qed.

(** The closing sequence closes. *)
Lemma run_exact_closing (w : World double) :
  crashed w = None → isActive (account w) = true → finite_state (account w) = true →
  account (run w (exact_closing (account w))) = initialState.
Proof.
  destruct w as [[b l act] d k]; cbn [account crashed isActive]. intros -> ->.
  intros ([Hb Hb'] & Hl & Hl')%finite_state_inv. cbn [balance loan] in *.
  unfold exact_closing; cbn [balance loan]. rewrite !run_app.
  destruct (run_drain b l d Hb Hb') as (z & d1 & ->).
  destruct (run_repay z l d1 Hl Hl') as (z1 & z2 & d2 & ->).
  apply run_close.
Qed.

(** A dispatch of a double of the format leaves doubles of the format. *)
Lemma dispatch_well_formed (action : Action double) (w : World double) :
  well_formed (amount action) = true →
  well_formed_world w → well_formed_world (bankDispatch action w).
Proof.
  intros Hx [Hb Hl]. unfold bankDispatch, well_formed_world.
  destruct w as [[b l act] d k]; cbn in *.
  reducer_cases (@mkAccount double b l act) action; repeat case_if; cbn;
    auto using dadd_valid, dsub_valid.
Qed.

Lemma step_well_formed (w : World double) (e : Event) :
  well_formed_world w → well_formed_world (step w e).
Proof.
  intros Hw. unfold step. destruct (crashed w); [done|].
  destruct e as [label|r value]; [|unfold well_formed_world; by rewrite edit_account].
  click_cases label w; try done; case_if; try done;
    apply dispatch_well_formed; try done; first [apply dNumber_well_formed | apply Hw].
Qed.

Lemma run_well_formed (w : World double) : reachable w → well_formed_world w.
Proof.
  revert w. apply reachable_ind; [done|]. intros w e _. apply step_well_formed.
Qed.

(** ** Theorems *)

(** C15. An open account with a finite balance and a finite loan can be
    closed, whatever the two numbers are and however they came about: the
    events of [exact_closing] lead to the initial state.  No rounding can
    keep the balance from reaching exactly zero. *)
Theorem finite_account_closes (w : World double) :
  crashed w = None → isActive (account w) = true → finite_state (account w) = true →
  account (run w (exact_closing (account w))) = initialState.
Proof. apply run_exact_closing. Qed.

(** C19. An open account that holds an infinity or NaN, as balance or as
    loan, can never be closed: it stays open and keeps an infinity or NaN,
    whatever the user clicks and types. *)
Theorem nonfinite_account_stuck (w : World double) (es : list Event) :
  isActive (account w) = true →
  is_finite (balance (account w)) = false ∨ is_finite (loan (account w)) = false →
  isActive (account (run w es)) = true ∧
  (is_finite (balance (account (run w es))) = false ∨
   is_finite (loan (account (run w es))) = false).
Proof. intros Ha Hn. by apply run_stuck. Qed.

(** An open account of doubles of the format can be closed exactly when its
    balance and its loan are finite. *)
Corollary closable_iff_finite (w : World double) :
  crashed w = None → isActive (account w) = true →
  well_formed (balance (account w)) = true → well_formed (loan (account w)) = true →
  (∃ es, account (run w es) = initialState) ↔
  is_finite (balance (account w)) = true ∧ is_finite (loan (account w)) = true.
Proof.
  intros Hc Ha Hb Hl. split.
  - intros [es Hes].
    destruct (is_finite (balance (account w))) eqn:Eb,
      (is_finite (loan (account w))) eqn:El; [done|..];
      destruct (run_stuck w es) as [Hact _]; try (split; [done | auto]);
      by rewrite Hes in Hact.
  - intros [Eb El]. exists (exact_closing (account w)). apply run_exact_closing; [done..|].
    unfold finite_state. by rewrite Eb, El, Hb, Hl.
Qed.


(** In every un-crashed world the program on doubles can reach, the open
    account can be closed exactly when its balance and its loan are finite. *)
Corollary reachable_closable_iff_finite (w : World double) :
  reachable w → crashed w = None → isActive (account w) = true →
  (∃ es, account (run w es) = initialState) ↔
  is_finite (balance (account w)) = true ∧ is_finite (loan (account w)) = true.
Proof.
  intros [Hb Hl]%run_well_formed Hc Ha. by apply closable_iff_finite.
Qed.

(** ** Witnesses *)

Lemma finite_account_closes_witness :
  account (run residue_world (exact_closing (account residue_world))) = initialState.
Proof. apply finite_account_closes; by vm_compute. Defined.

Lemma nonfinite_account_stuck_witness :
  let w := run infinite_world [Click "Close account"; Click "Withdraw"] in
  isActive (account w) = true ∧
  (is_finite (balance (account w)) = false ∨ is_finite (loan (account w)) = false).
Proof.
  apply (nonfinite_account_stuck infinite_world); [by vm_compute | left; by vm_compute].
Defined.

